(** * cyberplace-be: the WebSocket presence layer and its message service

    A shallow embedding of [src/ws/config.js] (class [WebSocketManager]),
    of the message service ([MessageService]: [sendToUser], [broadcast],
    [formatMessage], [broadcastMemeHighlight]) and of
    [MemeService.checkAndBroadcastTrendingMeme].

    The manager's fields are a record; the two registry [Map]s are finite
    maps; the room directory, whose iteration order decides the order of
    the [user_left_room] packets, is an insertion-ordered association list.
    Handlers are state transformers over a [World]: the manager, the
    socket.io socket objects, the packets handed to socket.io, the events
    emitted on the manager's own [EventEmitter], and the number of clock
    readings taken so far. *)

From Stdlib Require Import ZArith String List Lia.
From stdpp Require Import base decidable option list gmap strings pretty.

Open Scope Z_scope.

(** ** JavaScript values carried by packets *)

#[local] Unset Elimination Schemes.
Inductive jsval : Type :=
| JStr (s : string)
| JNum (n : Z)
| JBool (b : bool)
| JArr (l : list jsval)
| JObj (o : list (string * jsval)).
#[local] Set Elimination Schemes.

(** ** Insertion-ordered maps: JS objects and the [rooms] Map *)

Module OMap.
Section omap.
Context {V : Type}.
Implicit Types (m : list (string * V)) (k : string) (v : V).

Fixpoint get k m : option V :=
  match m with
  | [] => None
  | (k', v) :: m' => if decide (k' = k) then Some v else get k m'
  end.

Definition has k m : bool := bool_decide (is_Some (get k m)).

(** [Map.prototype.set] and property assignment: an existing key keeps
    its position, a new key goes last. *)
Fixpoint set k v m : list (string * V) :=
  match m with
  | [] => [(k, v)]
  | (k', v') :: m' =>
      if decide (k' = k) then (k', v) :: m' else (k', v') :: set k v m'
  end.

(** In-place mutation of the value stored under [k]. *)
Fixpoint alter (f : V → V) k m : list (string * V) :=
  match m with
  | [] => []
  | (k', v') :: m' =>
      if decide (k' = k) then (k', f v') :: m' else (k', v') :: alter f k m'
  end.

Definition delete k m : list (string * V) :=
  filter (λ kv, kv.1 ≠ k) m.

Definition keys m : list string := m.*1.
End omap.
End OMap.

(** ** Insertion-ordered sets of strings: the JS [Set] of a room *)

Module SSet.
Definition has (u : string) (s : list string) : bool := bool_decide (u ∈ s).

Definition add (u : string) (s : list string) : list string :=
  if has u s then s else s ++ [u].

Definition delete (u : string) (s : list string) : list string :=
  filter (λ x, x ≠ u) s.

Definition size (s : list string) : nat := length s.
End SSet.

(** JavaScript truthiness of a string: only the empty string is falsy. *)
Definition truthy (s : string) : bool := negb (String.eqb s "").

(** [!x] for a value that is [undefined] or a string. *)
Definition truthy_opt (o : option string) : bool :=
  match o with
  | Some s => truthy s
  | None => false
  end.

(** ** The manager's data *)

(** Value stored in [connectedUsers]: [{ socketId, userData }]. *)
Record UserInfo := mkUserInfo {
  socketId : string;
  userData : list (string * jsval)
}.

Record ConnectionMetrics := mkMetrics {
  totalConnections : Z;
  currentConnections : Z;
  totalDisconnections : Z
}.

(** The fields assigned in the constructor of [WebSocketManager].  [io] is
    [true] once [this.io] holds a socket.io server. *)
Record WebSocketManager := mkManager {
  io : bool;
  connectedUsers : gmap string UserInfo;
  userSockets : gmap string string;
  rooms : list (string * list string);
  isInitialized : bool;
  connectionMetrics : ConnectionMetrics
}.

(** A socket.io [Socket] object: [username] is the property the manager
    assigns on authentication, [joined] the socket.io rooms the socket is
    in. *)
Record Socket := mkSocket {
  username : option string;
  joined : gset string
}.

(** Where a packet is sent. *)
Inductive Target : Type :=
| SocketEmit (sid : string)          (* socket.emit(...) *)
| SocketTo (sid room : string)       (* socket.to(room).emit(...) *)
| IoEmit                             (* io.emit(...) *)
| IoTo (room : string).              (* io.to(room).emit(...) *)

Record Emission := mkEmission {
  target : Target;
  event : string;
  payload : list (string * jsval)
}.

(** An event emitted on the manager itself ([this.emit(name, fields)]). *)
Record Hook := mkHook {
  hook_name : string;
  hook_fields : list (string * jsval)
}.

(** [sockets] holds every [Socket] object created so far, by id;
    [io_sockets] is the key set of [io.sockets.sockets], the sockets that
    are connected; [outbox] lists the calls of socket.io's [emit] in order,
    whatever the transport then delivers; [hooks] lists the events emitted
    on the manager itself; [date_reads] counts the clock readings. *)
Record World := mkWorld {
  mgr : WebSocketManager;
  sockets : gmap string Socket;
  io_sockets : gset string;
  outbox : list Emission;
  hooks : list Hook;
  date_reads : nat
}.

(** ** Field updates *)

Definition set_io (b : bool) (m : WebSocketManager) : WebSocketManager :=
  mkManager b (connectedUsers m) (userSockets m) (rooms m)
            (isInitialized m) (connectionMetrics m).

Definition set_connectedUsers (f : gmap string UserInfo → gmap string UserInfo)
    (m : WebSocketManager) : WebSocketManager :=
  mkManager (io m) (f (connectedUsers m)) (userSockets m) (rooms m)
            (isInitialized m) (connectionMetrics m).

Definition set_userSockets (f : gmap string string → gmap string string)
    (m : WebSocketManager) : WebSocketManager :=
  mkManager (io m) (connectedUsers m) (f (userSockets m)) (rooms m)
            (isInitialized m) (connectionMetrics m).

Definition set_rooms (r : list (string * list string))
    (m : WebSocketManager) : WebSocketManager :=
  mkManager (io m) (connectedUsers m) (userSockets m) r
            (isInitialized m) (connectionMetrics m).

Definition set_isInitialized (b : bool) (m : WebSocketManager) : WebSocketManager :=
  mkManager (io m) (connectedUsers m) (userSockets m) (rooms m)
            b (connectionMetrics m).

Definition set_connectionMetrics (f : ConnectionMetrics → ConnectionMetrics)
    (m : WebSocketManager) : WebSocketManager :=
  mkManager (io m) (connectedUsers m) (userSockets m) (rooms m)
            (isInitialized m) (f (connectionMetrics m)).

Definition with_mgr (f : WebSocketManager → WebSocketManager) (W : World) : World :=
  mkWorld (f (mgr W)) (sockets W) (io_sockets W) (outbox W) (hooks W)
          (date_reads W).

Definition with_sockets (f : gmap string Socket → gmap string Socket)
    (W : World) : World :=
  mkWorld (mgr W) (f (sockets W)) (io_sockets W) (outbox W) (hooks W)
          (date_reads W).

Definition with_io_sockets (f : gset string → gset string) (W : World) : World :=
  mkWorld (mgr W) (sockets W) (f (io_sockets W)) (outbox W) (hooks W)
          (date_reads W).

Definition with_outbox (f : list Emission → list Emission) (W : World) : World :=
  mkWorld (mgr W) (sockets W) (io_sockets W) (f (outbox W)) (hooks W)
          (date_reads W).

(** Hand one packet to socket.io. *)
Definition emit (t : Target) (ev : string) (p : list (string * jsval))
    (W : World) : World :=
  with_outbox (λ o, o ++ [mkEmission t ev p]) W.

(** [this.emit(name, fields)] on the manager's own [EventEmitter]. *)
Definition this_emit (name : string) (fields : list (string * jsval))
    (W : World) : World :=
  mkWorld (mgr W) (sockets W) (io_sockets W) (outbox W)
          (hooks W ++ [mkHook name fields]) (date_reads W).

(** ** The handlers of [WebSocketManager] *)

(** Payload of the [authenticate] event; every property may be absent. *)
Record AuthData := mkAuthData {
  auth_username : option string;
  auth_token : option string;
  auth_userData : option (list (string * jsval))
}.

(** Payload of [join_room] and [leave_room]. *)
Record RoomData := mkRoomData {
  room_name : string;
  room_password : option string
}.

Section Manager.
(** The environment: [clock n] is the reading (milliseconds) of the
    [n]-th evaluation of [new Date()] or [Date.now()], [toISOString]
    the formatting of a reading, [SERVER_ID] the environment variable. *)
Variable clock : nat → Z.
Variable toISOString : Z → string.
Variable SERVER_ID : option string.

Definition Date_now (W : World) : Z * World :=
  (clock (date_reads W),
   mkWorld (mgr W) (sockets W) (io_sockets W) (outbox W) (hooks W)
           (S (date_reads W))).

Definition new_Date_toISOString (W : World) : string * World :=
  let '(t, W) := Date_now W in (toISOString t, W).

(** The constructor. *)
Definition constructor : World :=
  mkWorld (mkManager false ∅ ∅ [] false (mkMetrics 0 0 0)) ∅ ∅ [] [] 0%nat.

(** [initialize(server, options)]; the returned [io] is not modelled. *)
Definition initialize (W : World) : World :=
  if isInitialized (mgr W) then W
  else with_mgr (set_isInitialized true) (with_mgr (set_io true) W).

(** *** What socket.io does to its sockets *)

(** [socket.connected]. *)
Definition socket_connected (sid : string) (W : World) : bool :=
  bool_decide (sid ∈ io_sockets W).

(** [io.sockets.sockets.get(id)]: only connected sockets are listed. *)
Definition io_sockets_get (sid : string) (W : World) : option Socket :=
  if socket_connected sid W then sockets W !! sid else None.

(** A new socket is accepted; it sits in the room named by its id. *)
Definition sio_open (sid : string) (W : World) : World :=
  with_io_sockets (λ live, {[sid]} ∪ live)
    (with_sockets <[sid := mkSocket None {[sid]}]> W).

(** The socket is closed: it leaves its rooms and the server's table. *)
Definition sio_close (sid : string) (W : World) : World :=
  with_io_sockets (λ live, live ∖ {[sid]})
    (with_sockets (alter (λ s, mkSocket (username s) ∅) sid) W).

(** [socket.join(room)]; a no-op once the socket is closed. *)
Definition socket_join (sid room : string) (W : World) : World :=
  if socket_connected sid W then
    with_sockets
      (alter (λ s, mkSocket (username s) ({[room]} ∪ joined s)) sid) W
  else W.

(** [socket.leave(room)]. *)
Definition socket_leave (sid room : string) (W : World) : World :=
  with_sockets
    (alter (λ s, mkSocket (username s) (joined s ∖ {[room]})) sid) W.

(** [socket.username = u]. *)
Definition socket_set_username (sid u : string) (W : World) : World :=
  with_sockets (alter (λ s, mkSocket (Some u) (joined s)) sid) W.

(** [socket.username]. *)
Definition socket_username (sid : string) (W : World) : option string :=
  match sockets W !! sid with
  | Some s => username s
  | None => None
  end.

(** *** handleConnection *)
Definition handleConnection (sid : string) (W : World) : World :=
  let W := with_mgr (set_connectionMetrics (λ c,
             mkMetrics (totalConnections c + 1) (currentConnections c)
                       (totalDisconnections c))) W in
  let W := with_mgr (set_connectionMetrics (λ c,
             mkMetrics (totalConnections c) (currentConnections c + 1)
                       (totalDisconnections c))) W in
  this_emit "connection" [("socket", JStr sid)] W.

(** *** broadcastUserStatus *)
Definition broadcastUserStatus (u status : string) (W : World) : World :=
  let '(t, W) := new_Date_toISOString W in
  emit IoEmit "user_status"
       [("username", JStr u); ("status", JStr status); ("timestamp", JStr t)] W.

(** *** handleDisconnection *)

(** The loop over [this.rooms.entries()].  Keys of a [Map] are unique, so
    [this.rooms.delete(room)] drops exactly the entry being visited. *)
Fixpoint leave_all_rooms (sid u : string) (entries : list (string * list string))
    : list (string * list string) * list Emission :=
  match entries with
  | [] => ([], [])
  | (room, users) :: rest =>
      let '(rest', out) := leave_all_rooms sid u rest in
      if SSet.has u users then
        let users' := SSet.delete u users in
        let e := mkEmission (SocketTo sid room) "user_left_room"
                   [("room", JStr room); ("username", JStr u)] in
        (if decide (SSet.size users' = 0%nat) then rest'
         else (room, users') :: rest',
         e :: out)
      else ((room, users) :: rest', out)
  end.

Definition handleDisconnection (sid reason : string) (W : World) : World :=
  let W := with_mgr (set_connectionMetrics (λ c,
             mkMetrics (totalConnections c) (currentConnections c - 1)
                       (totalDisconnections c))) W in
  let W := with_mgr (set_connectionMetrics (λ c,
             mkMetrics (totalConnections c) (currentConnections c)
                       (totalDisconnections c + 1))) W in
  match userSockets (mgr W) !! sid with
  | Some u =>
      if truthy u then
        let W := with_mgr (set_connectedUsers (delete u)) W in
        let W := with_mgr (set_userSockets (delete sid)) W in
        let '(rooms', out) := leave_all_rooms sid u (rooms (mgr W)) in
        let W := with_mgr (set_rooms rooms') W in
        let W := with_outbox (λ o, o ++ out) W in
        let W := broadcastUserStatus u "offline" W in
        this_emit "user_disconnected"
          [("username", JStr u); ("reason", JStr reason); ("socket", JStr sid)] W
      else W
  | None => W
  end.

(** [socket.disconnect(true)] on the server side: nothing on a closed
    socket; otherwise the socket is closed and its [disconnect] listener
    runs at once, with socket.io's reason for a server-side close. *)
Definition socket_disconnect (sid : string) (W : World) : World :=
  match io_sockets_get sid W with
  | Some _ =>
      handleDisconnection sid "server namespace disconnect" (sio_close sid W)
  | None => W
  end.

(** *** removeUserFromPreviousSocket *)
Definition removeUserFromPreviousSocket (u : string) (W : World) : World :=
  match connectedUsers (mgr W) !! u with
  | Some previousConnection =>
      let W := match io_sockets_get (socketId previousConnection) W with
               | Some _ => socket_disconnect (socketId previousConnection) W
               | None => W
               end in
      with_mgr (set_userSockets (delete (socketId previousConnection))) W
  | None => W
  end.

(** *** handleAuthentication *)

(** The two early exits: both send [authentication_error] to the socket
    and touch nothing else. *)
Definition authentication_error (sid msg : string) (W : World) : World :=
  emit (SocketEmit sid) "authentication_error" [("error", JStr msg)] W.

Definition handleAuthentication (sid : string) (data : option AuthData)
    (W : World) : World :=
  match data with
  | None =>
      (* destructuring [undefined] throws; the [catch] block answers *)
      authentication_error sid "Authentication failed" W
  | Some d =>
      if negb (truthy_opt (auth_username d)) then
        authentication_error sid "Username is required" W
      else
        let u := default "" (auth_username d) in
        let ud := default [] (auth_userData d) in
        let W := removeUserFromPreviousSocket u W in
        let '(connectedAt, W) := new_Date_toISOString W in
        let '(lastSeen, W) := new_Date_toISOString W in
        let W := with_mgr (set_connectedUsers
                   <[u := mkUserInfo sid
                            (OMap.set "lastSeen" (JStr lastSeen)
                               (OMap.set "connectedAt" (JStr connectedAt) ud))]>) W in
        let W := with_mgr (set_userSockets <[sid := u]>) W in
        let W := socket_set_username sid u W in
        let W := socket_join sid ("user_" +:+ u) W in
        let W := emit (SocketEmit sid) "authenticated"
                   [("success", JBool true);
                    ("message", JStr "Successfully authenticated");
                    ("username", JStr u);
                    ("connectedUsers",
                     JNum (Z.of_nat (size (connectedUsers (mgr W)))))] W in
        let W := broadcastUserStatus u "online" W in
        this_emit "user_authenticated"
          [("username", JStr u); ("socket", JStr sid); ("userData", JObj ud)] W
  end.

(** *** handlePing *)
Definition handlePing (sid : string) (W : World) : World :=
  let '(timestamp, W) := new_Date_toISOString W in
  let '(serverTime, W) := Date_now W in
  let W := emit (SocketEmit sid) "pong"
             [("timestamp", JStr timestamp); ("serverTime", JNum serverTime)] W in
  match userSockets (mgr W) !! sid with
  | Some u =>
      if truthy u && bool_decide (is_Some (connectedUsers (mgr W) !! u)) then
        let '(lastSeen, W) := new_Date_toISOString W in
        with_mgr (set_connectedUsers
          (alter (λ userInfo,
                    mkUserInfo (socketId userInfo)
                      (OMap.set "lastSeen" (JStr lastSeen) (userData userInfo))) u)) W
      else W
  | None => W
  end.

(** *** handleJoinRoom *)
Definition handleJoinRoom (sid : string) (data : RoomData) (W : World) : World :=
  let room := room_name data in
  match socket_username sid W with
  | Some u =>
      if truthy u then
        let W := socket_join sid room W in
        let W := if OMap.has room (rooms (mgr W)) then W
                 else with_mgr (set_rooms (OMap.set room [] (rooms (mgr W)))) W in
        let W := with_mgr (set_rooms
                   (OMap.alter (SSet.add u) room (rooms (mgr W)))) W in
        let W := emit (SocketEmit sid) "room_joined"
                   [("room", JStr room);
                    ("users", JArr (JStr <$> default [] (OMap.get room (rooms (mgr W)))))] W in
        let W := emit (SocketTo sid room) "user_joined_room"
                   [("room", JStr room); ("username", JStr u)] W in
        this_emit "user_joined_room"
          [("username", JStr u); ("room", JStr room); ("socket", JStr sid)] W
      else emit (SocketEmit sid) "room_error"
             [("error", JStr "Authentication required")] W
  | None => emit (SocketEmit sid) "room_error"
              [("error", JStr "Authentication required")] W
  end.

(** *** handleLeaveRoom *)
Definition handleLeaveRoom (sid : string) (data : RoomData) (W : World) : World :=
  let room := room_name data in
  match socket_username sid W with
  | Some u =>
      if truthy u then
        let W := socket_leave sid room W in
        let W :=
          if OMap.has room (rooms (mgr W)) then
            let W := with_mgr (set_rooms
                       (OMap.alter (SSet.delete u) room (rooms (mgr W)))) W in
            if decide (SSet.size (default [] (OMap.get room (rooms (mgr W)))) = 0%nat)
            then with_mgr (set_rooms (OMap.delete room (rooms (mgr W)))) W
            else W
          else W in
        let W := emit (SocketEmit sid) "room_left" [("room", JStr room)] W in
        let W := emit (SocketTo sid room) "user_left_room"
                   [("room", JStr room); ("username", JStr u)] W in
        this_emit "user_left_room"
          [("username", JStr u); ("room", JStr room); ("socket", JStr sid)] W
      else W
  | None => W
  end.

(** *** handleSocketError *)
Definition handleSocketError (sid err : string) (W : World) : World :=
  this_emit "socket_error" [("socket", JStr sid); ("error", JStr err)] W.

(** *** Queries *)

(** [getIO()]: [None] stands for the thrown [Error]. *)
Definition getIO (W : World) : option unit :=
  if negb (isInitialized (mgr W)) || negb (io (mgr W)) then None else Some ().

Definition isUserOnline (u : string) (W : World) : bool :=
  bool_decide (is_Some (connectedUsers (mgr W) !! u)).

Definition getConnectedUsersCount (W : World) : nat :=
  size (connectedUsers (mgr W)).

Definition getUserInfo (u : string) (W : World) : option UserInfo :=
  connectedUsers (mgr W) !! u.

Definition getRoomUsers (room : string) (W : World) : list string :=
  if OMap.has room (rooms (mgr W))
  then default [] (OMap.get room (rooms (mgr W)))
  else [].

Definition getAllRooms (W : World) : list string :=
  OMap.keys (rooms (mgr W)).
End Manager.

(** *** getConnectionMetrics *)

(** The object returned by [getConnectionMetrics()]: the three counters
    spread first, then [currentConnections], [rooms] and [roomUsers]
    written over them. *)
Module Snapshot.
Record t := mk {
  totalConnections : Z;
  currentConnections : Z;
  totalDisconnections : Z;
  rooms : nat;
  roomUsers : list (string * nat)
}.
End Snapshot.

Definition getConnectionMetrics (W : World) : Snapshot.t :=
  Snapshot.mk
    (totalConnections (connectionMetrics (mgr W)))
    (Z.of_nat (size (connectedUsers (mgr W))))
    (totalDisconnections (connectionMetrics (mgr W)))
    (length (rooms (mgr W)))
    ((λ '(room, users), (room, SSet.size users)) <$> rooms (mgr W)).

(** The columns of the table [memes] that the trending query selects or
    filters on. *)
Module Meme.
Record Row := mkRow {
  id : Z;
  upvote_count : Z;
  updated_at : Z
}.
End Meme.

(** ** MessageService *)

Section MessageService.
Variable clock : nat → Z.
Variable toISOString : Z → string.
Variable SERVER_ID : option string.

(** [process.env.SERVER_ID || 'server-1'] *)
Definition serverId : string :=
  match SERVER_ID with
  | Some s => if truthy s then s else "server-1"
  | None => "server-1"
  end.

(** [formatMessage(data)]: [{ ...data, timestamp, serverId }] *)
Definition formatMessage (data : list (string * jsval)) (W : World)
    : list (string * jsval) * World :=
  let '(t, W) := new_Date_toISOString clock toISOString W in
  (OMap.set "serverId" (JStr serverId) (OMap.set "timestamp" (JStr t) data), W).

(** [sendToUser(username, event, data)]; the [catch] block turns the
    error thrown by [getIO()] into [false]. *)
Definition sendToUser (u ev : string) (data : list (string * jsval))
    (W : World) : bool * World :=
  match getUserInfo u W with
  | None => (false, W)
  | Some userInfo =>
      match getIO W with
      | None => (false, W)
      | Some _ =>
          let '(message, W) := formatMessage data W in
          (true, emit (IoTo (socketId userInfo)) ev message W)
      end
  end.

(** [broadcast(event, data)] *)
Definition broadcast (ev : string) (data : list (string * jsval))
    (W : World) : bool * World :=
  match getIO W with
  | None => (false, W)
  | Some _ =>
      let '(message, W) := formatMessage data W in
      (true, emit IoEmit ev message W)
  end.

(** [broadcastMemeHighlight(memeId, upvoteCount)] *)
Definition broadcastMemeHighlight (memeId upvoteCount : Z) (W : World)
    : bool * World :=
  broadcast "meme_highlight"
    [("type", JStr "MEME_TRENDING");
     ("data", JObj [("message",
                     JStr ("Meme upvotes now at " +:+ pretty upvoteCount +:+ "!"));
                    ("memeId", JNum memeId);
                    ("upvoteCount", JNum upvoteCount);
                    ("action", JStr "meme_trending")])] W.

(** ** MemeService.checkAndBroadcastTrendingMeme *)

(** The function reads the clock, awaits the answer of the database to
    [select id, upvote_count from memes where updated_at >= tenMinutesAgo
     order by upvote_count desc limit 1], and goes on with the [data]
    field of that answer: [None] for [null] (a failed query), else the
    rows.  [query] is the database: it maps the bound sent to it to the
    answer. *)
Definition checkAndBroadcastTrendingMeme (query : Z → option (list Meme.Row))
    (meme_id : Z) (W : World) : World :=
  let '(now, W) := Date_now clock W in
  let tenMinutesAgo := now - 10 * 60 * 1000 in
  match query tenMinutesAgo with
  | Some (first :: _) =>
      if bool_decide (Meme.id first = meme_id) then
        let upvoteCount := Meme.upvote_count first in
        if bool_decide (upvoteCount > 0) && bool_decide (Z.rem upvoteCount 10 = 0)
        then (broadcastMemeHighlight meme_id upvoteCount W).2
        else W
      else W
  | _ => W
  end.
End MessageService.

(** ** The events the server reacts to *)

Inductive Event : Type :=
| EvInitialize
| EvConnection (sid : string)
| EvAuthenticate (sid : string) (data : option AuthData)
| EvPing (sid : string)
| EvJoinRoom (sid : string) (data : RoomData)
| EvLeaveRoom (sid : string) (data : RoomData)
| EvDisconnect (sid reason : string)
| EvSocketError (sid err : string)
| EvSendToUser (u ev : string) (data : list (string * jsval))
| EvBroadcast (ev : string) (data : list (string * jsval)).

Section Server.
Variable clock : nat → Z.
Variable toISOString : Z → string.
Variable SERVER_ID : option string.

(** socket.io accepts connections once the server exists and gives each
    socket an id of its own; a socket speaks only while connected. *)
Definition enabled (e : Event) (W : World) : bool :=
  match e with
  | EvInitialize => true
  | EvConnection sid =>
      bool_decide (is_Some (getIO W)) && bool_decide (sockets W !! sid = None)
  | EvAuthenticate sid _ | EvPing sid | EvJoinRoom sid _ | EvLeaveRoom sid _
  | EvDisconnect sid _ | EvSocketError sid _ =>
      socket_connected sid W
  | EvSendToUser _ _ _ | EvBroadcast _ _ => true
  end.

Definition handle (e : Event) (W : World) : World :=
  match e with
  | EvInitialize => initialize W
  | EvConnection sid => handleConnection sid (sio_open sid W)
  | EvAuthenticate sid data => handleAuthentication clock toISOString sid data W
  | EvPing sid => handlePing clock toISOString sid W
  | EvJoinRoom sid data => handleJoinRoom sid data W
  | EvLeaveRoom sid data => handleLeaveRoom sid data W
  | EvDisconnect sid reason =>
      handleDisconnection clock toISOString sid reason (sio_close sid W)
  | EvSocketError sid err => handleSocketError sid err W
  | EvSendToUser u ev data => (sendToUser clock toISOString SERVER_ID u ev data W).2
  | EvBroadcast ev data => (broadcast clock toISOString SERVER_ID ev data W).2
  end.

(** Run a trace; [None] when an event is not enabled where it stands. *)
Fixpoint run (tr : list Event) (W : World) : option World :=
  match tr with
  | [] => Some W
  | e :: tr' => if enabled e W then run tr' (handle e W) else None
  end.

Inductive reachable : World → Prop :=
| reachable_init : reachable constructor
| reachable_step e W :
    reachable W → enabled e W = true → reachable (handle e W).
End Server.


(** ** MessageService: the other senders *)

Section MessageServiceMore.
Variable clock : nat → Z.
Variable toISOString : Z → string.
Variable SERVER_ID : option string.

(** [sendToUsers(usernames, event, data)]: [sendToUser] runs for each
    name in turn (none of them waits for anything), and the [true]
    results are counted. *)
Fixpoint sendToUsers_results (usernames : list string) (ev : string)
    (data : list (string * jsval)) (W : World) : list bool * World :=
  match usernames with
  | [] => ([], W)
  | u :: rest =>
      let '(b, W) := sendToUser clock toISOString SERVER_ID u ev data W in
      let '(bs, W) := sendToUsers_results rest ev data W in
      (b :: bs, W)
  end.

Definition sendToUsers (usernames : list string) (ev : string)
    (data : list (string * jsval)) (W : World) : nat * World :=
  let '(results, W) := sendToUsers_results usernames ev data W in
  (length (filter (λ b, b = true) results), W).

(** [sendToRoom(room, event, data)]; [getRoomUsers] is read for the log
    line only. *)
Definition sendToRoom (room ev : string) (data : list (string * jsval))
    (W : World) : bool * World :=
  match getIO W with
  | None => (false, W)
  | Some _ =>
      let '(message, W) := formatMessage clock toISOString SERVER_ID data W in
      (true, emit (IoTo room) ev message W)
  end.

(** [updateLeaderboard()] *)
Definition updateLeaderboard (W : World) : bool * World :=
  broadcast clock toISOString SERVER_ID "leaderboard_update"
    [("type", JStr "LEADERBOARD_UPDATE");
     ("data", JObj [("message", JStr "Leaderboard updated!");
                    ("action", JStr "leaderboard_updated")])] W.

(** [broadcastVoteUpdate(memeId, voteType, username, newCount, memeName,
    upvotes, downvotes)] *)
Definition broadcastVoteUpdate (memeId : Z) (voteType username : string)
    (newCount : Z) (memeName : string) (upvotes downvotes : Z) (W : World)
    : bool * World :=
  broadcast clock toISOString SERVER_ID "vote_update"
    [("type", JStr "VOTE_UPDATE");
     ("data", JObj [("memeId", JNum memeId);
                    ("voteType", JStr voteType);
                    ("username", JStr username);
                    ("newCount", JNum newCount);
                    ("action", JStr "vote_cast");
                    ("message",
                     JStr ("User " +:+ username +:+ " " +:+ voteType
                           +:+ "d meme " +:+ memeName +:+ "!"));
                    ("memeName", JStr memeName);
                    ("upvotes", JNum upvotes);
                    ("downvotes", JNum downvotes)])] W.

(** [notifyUser(username, notification)] *)
Definition notifyUser (u : string) (notification : list (string * jsval))
    (W : World) : bool * World :=
  sendToUser clock toISOString SERVER_ID u "notification"
    [("type", JStr "NOTIFICATION");
     ("data", JObj (OMap.set "action" (JStr "user_notification") notification))] W.

End MessageServiceMore.

(** * The HTTP side: tokens, profiles, accounts

    [AuthService] ([src/services/auth.js]) with the method [findById],
    [findMany] and [create] it inherits from [DatabaseService]
    ([src/database/db.js]), and the two middlewares [authenticateToken]
    and [optionalAuth].  The database client, [jsonwebtoken] and
    [bcryptjs] are outside the program: they appear as the answers they
    give. *)

(** What is thrown: an [Error] (or an error object of the database
    client) with its [message], or the [TypeError] of a property read on
    [null]. *)
Inductive Thrown : Type :=
| JsError (message : string)
| JsTypeError.

Inductive Result (A : Type) : Type :=
| Return (a : A)
| Throw (e : Thrown).
Arguments Return {A} a.
Arguments Throw {A} e.

(** [{ data, error }] as the database client answers; [ans_error] holds
    the [message] of the error object. *)
Record Answer (A : Type) := mkAnswer {
  ans_data : option A;
  ans_error : option string
}.
Arguments mkAnswer {A} ans_data ans_error.
Arguments ans_data {A} a.
Arguments ans_error {A} a.

(** [String.prototype.split] with a separator of one character. *)
Fixpoint split (sep : Ascii.ascii) (s : string) : list string :=
  match s with
  | EmptyString => [EmptyString]
  | String c s' =>
      if Ascii.eqb c sep then EmptyString :: split sep s'
      else match split sep s' with
           | piece :: pieces => String c piece :: pieces
           | [] => [String c EmptyString]
           end
  end.

(** [authHeader && authHeader.split(' ')[1]]: a falsy header is the
    value of the expression; [None] is [undefined]. *)
Definition header_token (authHeader : option string) : option string :=
  match authHeader with
  | Some h => if truthy h then split Ascii.Space h !! 1%nat else Some h
  | None => None
  end.

(** [v === s] for a property [v] that may be absent and a string [s]. *)
Definition is_str (v : option jsval) (s : string) : bool :=
  match v with
  | Some (JStr s') => String.eqb s' s
  | _ => false
  end.

(** What a middleware does with a request: it answers, or it calls
    [next()], having assigned [req.user] or not. *)
Inductive Handled : Type :=
| Respond (status : Z) (body : list (string * jsval))
| Next (req_user : option (list (string * jsval))).

Section AuthService.
Variable clock : nat → Z.
Variable toISOString : Z → string.

(** [jwt.verify(token, secret)]: the payload, [None] when it throws.  A
    payload that is not an object has no property [id], as an object
    without that field. *)
Variable jwt_verify : string → option (list (string * jsval)).
(** [jwt.sign(payload, secret, { expiresIn })]; a property of the payload
    may be [undefined]. *)
Variable jwt_sign : list (string * option jsval) → string.
Variable bcrypt_hash : string → string.
(** [bcrypt.compare(password, hash)], which rejects arguments that are
    not strings. *)
Variable bcrypt_compare : string → option jsval → Result bool.
(** [from(table).select('*').eq(column, id).single()] *)
Variable db_single :
  string → string → option jsval → Answer (list (string * jsval)).
(** [from(table).select('*')] followed by the [eq] filters given. *)
Variable db_select :
  string → list (string * jsval) → Answer (list (list (string * jsval))).
(** [from('users').select('*').or(...).limit(1)] for an email and a
    username. *)
Variable db_users_or :
  string → string → Answer (list (list (string * jsval))).
(** [from(table).insert(data).select().single()] *)
Variable db_insert :
  string → list (string * jsval) → Answer (list (string * jsval)).

(** *** DatabaseService *)

(** [findById(table, id, idColumn = 'id')]: the [catch] block wraps what
    was thrown. *)
Definition findById (table : string) (id : option jsval)
    : Result (option (list (string * jsval))) :=
  let answer := db_single table "id" id in
  match ans_error answer with
  | Some msg => Throw (JsError ("Failed to find " +:+ table +:+ ": " +:+ msg))
  | None => Return (ans_data answer)
  end.

(** [findMany(table, filters)] with no options: a filter whose value is
    [undefined] or [null] is skipped. *)
Definition findMany (table : string) (filters : list (string * option jsval))
    : Result (option (list (list (string * jsval)))) :=
  let applied := omap (λ '(key, value), (λ v, (key, v)) <$> value) filters in
  let answer := db_select table applied in
  match ans_error answer with
  | Some msg => Throw (JsError ("Failed to find " +:+ table +:+ ": " +:+ msg))
  | None => Return (ans_data answer)
  end.

(** [create(table, data)] *)
Definition create (table : string) (payload : list (string * jsval))
    : Result (option (list (string * jsval))) :=
  let answer := db_insert table payload in
  match ans_error answer with
  | Some msg => Throw (JsError ("Failed to create " +:+ table +:+ ": " +:+ msg))
  | None => Return (ans_data answer)
  end.

(** *** AuthService *)

Definition tokenExpiry : string := "30d".

Definition generateToken (payload : list (string * option jsval)) : string :=
  jwt_sign payload.

Definition verifyToken (token : string) : Result (list (string * jsval)) :=
  match jwt_verify token with
  | Some decoded => Return decoded
  | None => Throw (JsError "Invalid or expired token")
  end.

(** [users.length > 0 ? users[0] : null]; reading [length] of [null]
    throws. *)
Definition first_or_null (users : option (list (list (string * jsval))))
    : Result (option (list (string * jsval))) :=
  match users with
  | None => Throw JsTypeError
  | Some [] => Return None
  | Some (user :: _) => Return (Some user)
  end.

Definition findUserByEmail (email : option string)
    : Result (option (list (string * jsval))) :=
  match findMany "users" [("email", JStr <$> email)] with
  | Throw e => Throw e
  | Return users => first_or_null users
  end.

Definition findUserByEmailOrUsername (email username : string)
    : Result (option (list (string * jsval))) :=
  let answer := db_users_or email username in
  match ans_error answer with
  | Some msg => Throw (JsError msg)
  | None => first_or_null (ans_data answer)
  end.

(** [getUserProfile(userId)]; [{ password: _, ...userResponse } = user]
    keeps the other columns in their order. *)
Definition getUserProfile (userId : option jsval)
    : Result (list (string * jsval)) :=
  match findById "users" userId with
  | Throw e => Throw e
  | Return None => Throw (JsError "User not found")
  | Return (Some user) => Return (OMap.delete "password" user)
  end.

(** The object both [registerUser] and [loginUser] return. *)
Definition auth_response (user : list (string * jsval))
    : list (string * jsval) :=
  let token := generateToken [("id", OMap.get "id" user);
                              ("email", OMap.get "email" user);
                              ("username", OMap.get "username" user)] in
  [("user", JObj (OMap.delete "password" user));
   ("token", JStr token);
   ("expiresIn", JStr tokenExpiry)].

(** [loginUser({ email, password })] *)
Definition loginUser (email : option string) (password : string)
    : Result (list (string * jsval)) :=
  match findUserByEmail email with
  | Throw e => Throw e
  | Return None => Throw (JsError "Invalid email or password")
  | Return (Some user) =>
      match bcrypt_compare password (OMap.get "password" user) with
      | Throw e => Throw e
      | Return false => Throw (JsError "Invalid email or password")
      | Return true => Return (auth_response user)
      end
  end.

(** [registerUser({ email, username, name, password })] *)
Definition registerUser (email username name password : string) (W : World)
    : Result (list (string * jsval)) * World :=
  match findUserByEmailOrUsername email username with
  | Throw e => (Throw e, W)
  | Return existingUser =>
      let clash :=
        match existingUser with
        | Some existing =>
            if is_str (OMap.get "email" existing) email
            then Some "User with this email already exists"
            else if is_str (OMap.get "username" existing) username
            then Some "Username is already taken"
            else None
        | None => None
        end in
      match clash with
      | Some msg => (Throw (JsError msg), W)
      | None =>
          let hashedPassword := bcrypt_hash password in
          let '(created_at, W) := new_Date_toISOString clock toISOString W in
          let '(updated_at, W) := new_Date_toISOString clock toISOString W in
          match create "users" [("email", JStr email);
                                ("username", JStr username);
                                ("name", JStr name);
                                ("password", JStr hashedPassword);
                                ("created_at", JStr created_at);
                                ("updated_at", JStr updated_at)] with
          | Throw e => (Throw e, W)
          | Return None => (Throw JsTypeError, W)
          | Return (Some newUser) => (Return (auth_response newUser), W)
          end
      end
  end.

(** *** The middlewares *)

Definition access_denied (message : string) : Handled :=
  Respond 401 [("error", JStr "Access denied"); ("message", JStr message)].

(** [authenticateToken(req, res, next)], from the value of
    [req.headers['authorization']].  What [getUserProfile] returns is an
    object, so the test [!user] fails. *)
Definition authenticateToken (authHeader : option string) : Handled :=
  let token := header_token authHeader in
  if negb (truthy_opt token) then access_denied "No token provided"
  else
    match verifyToken (default "" token) with
    | Throw _ => access_denied "Invalid or expired token"
    | Return decoded =>
        match getUserProfile (OMap.get "id" decoded) with
        | Throw _ => access_denied "Invalid or expired token"
        | Return user => Next (Some user)
        end
    end.

(** [optionalAuth(req, res, next)] *)
Definition optionalAuth (authHeader : option string) : Handled :=
  let token := header_token authHeader in
  if truthy_opt token then
    match verifyToken (default "" token) with
    | Throw _ => Next None
    | Return decoded =>
        match getUserProfile (OMap.get "id" decoded) with
        | Throw _ => Next None
        | Return user => Next (Some user)
        end
    end
  else Next None.
End AuthService.

(** * Voting

    [MemeService.voteOnMeme] ([src/services/auth.js]) with the method
    [create] and [update] it inherits from [DatabaseService].  The two
    tables it reads and writes are part of the state, with the columns the
    function reads and the constraints the schema puts on them; the
    database client is taken to be initialised. *)

Module Db.
(** A row of [votes] and a row of [memes]. *)
Record Vote := mkVote {
  id : Z;
  meme_id : Z;
  username : string;
  voted : Z;
  is_active : bool
}.

Record Meme := mkMeme {
  upvote_count : Z;
  downvote_count : Z;
  text : string
}.

(** [votes] in the order of insertion, [memes] by primary key, and the
    [username] column of [users]. *)
Record t := mk {
  votes : list Vote;
  memes : gmap Z Meme;
  users : gset string
}.

(** Why the database refuses. *)
Inductive Fault : Type :=
| NoRow          (* [single()] on a result that is not one row *)
| ForeignKey
| CheckViolation
| UniqueViolation.

(** [from('votes').select('*').eq('meme_id', m).eq('username', u)
     .eq('is_active', true).single()]: [data] is the row when exactly one
    row matches, and [null] otherwise. *)
Definition active_vote (m : Z) (u : string) (db : t) : option Vote :=
  match filter (λ v, meme_id v = m ∧ username v = u ∧ is_active v = true)
               (votes db) with
  | [v] => Some v
  | _ => None
  end.

(** [from('memes').select(...).eq('id', m).single()] *)
Definition meme (m : Z) (db : t) : option Meme := memes db !! m.

(** [SERIAL]: an id no row has. *)
Definition fresh_id (db : t) : Z := 1 + foldr Z.max 0 (id <$> votes db).

(** [from('votes').insert({ meme_id, username, voted, is_active: true })],
    under [CHECK (voted IN (0, 1))], the two foreign keys and
    [UNIQUE(meme_id, username, is_active)]. *)
Definition insert_vote (m : Z) (u : string) (x : Z) (db : t) : Fault + t :=
  if negb (bool_decide (x = 0 ∨ x = 1)) then inl CheckViolation
  else if negb (bool_decide (is_Some (memes db !! m))) then inl ForeignKey
  else if negb (bool_decide (u ∈ users db)) then inl ForeignKey
  else if bool_decide (Exists (λ v, meme_id v = m ∧ username v = u
                                    ∧ is_active v = true) (votes db))
  then inl UniqueViolation
  else inr (mk (votes db ++ [mkVote (fresh_id db) m u x true])
               (memes db) (users db)).

(** [from('votes').update({ voted, updated_at }).eq('id', i).select()
     .single()] *)
Definition update_vote (i : Z) (x : Z) (db : t) : Fault + t :=
  if negb (bool_decide (i ∈ id <$> votes db)) then inl NoRow
  else if negb (bool_decide (x = 0 ∨ x = 1)) then inl CheckViolation
  else inr (mk ((λ v, if bool_decide (id v = i)
                      then mkVote (id v) (meme_id v) (username v) x (is_active v)
                      else v) <$> votes db)
               (memes db) (users db)).

(** [from('memes').update(data).eq('id', m).select().single()], where
    [data] sets the columns as [f] does. *)
Definition update_meme (m : Z) (f : Meme → Meme) (db : t) : Fault + t :=
  match memes db !! m with
  | Some r => inr (mk (votes db) (<[m := f r]> (memes db)) (users db))
  | None => inl NoRow
  end.
End Db.

(** A step of the service: it returns or throws, and leaves a database
    and a world. *)
Definition Step (A : Type) : Type := Db.t * World → Result A * (Db.t * World).

#[global] Instance step_ret : MRet Step := λ A a s, (Return a, s).

#[global] Instance step_bind : MBind Step := λ A B k m s,
  match m s with
  | (Return a, s') => k a s'
  | (Throw e, s') => (Throw e, s')
  end.

Definition throw {A} (e : Thrown) : Step A := λ s, (Throw e, s).

Section MemeService.
Variable clock : nat → Z.
Variable toISOString : Z → string.
Variable SERVER_ID : option string.
(** The [message] of the error object for a refusal. *)
Variable fault_message : Db.Fault → string.
(** The answer to the trending query in a given state of the database. *)
Variable trending : Db.t → Z → option (list Meme.Row).

(** A query, which leaves the database as it is. *)
Definition ask {A} (q : Db.t → A) : Step A := λ s, (Return (q s.1), s).

(** [new Date().toISOString()] *)
Definition now : Step string :=
  λ s, let '(t, W) := new_Date_toISOString clock toISOString s.2 in
       (Return t, (s.1, W)).

(** A call of the message service, which is not awaited and cannot
    throw. *)
Definition tell {A} (f : World → A * World) : Step unit :=
  λ s, (Return (), (s.1, (f s.2).2)).

(** [this.create(table, data)] and [this.update(table, id, data)]: the
    [catch] block wraps the refusal of the database. *)
Definition written (op table : string) (w : Db.t → Db.Fault + Db.t)
    : Step unit :=
  λ s, match w s.1 with
       | inr db => (Return (), (db, s.2))
       | inl fault =>
           (Throw (JsError ("Failed to " +:+ op +:+ " " +:+ table +:+ ": "
                            +:+ fault_message fault)), s)
       end.

(** [await this.checkAndBroadcastTrendingMeme(meme_id)], which catches
    what it throws. *)
Definition await_trending (meme_id : Z) : Step unit :=
  λ s, (Return (),
        (s.1, checkAndBroadcastTrendingMeme clock toISOString SERVER_ID
                (trending s.1) meme_id s.2)).

(** [x || 0] for a number. *)
Definition or_zero (x : Z) : Z := if bool_decide (x = 0) then 0 else x.

(** [voteOnMeme({ meme_id, username, voted })] *)
Definition voteOnMeme (meme_id : Z) (username : string) (voted : Z)
    : Step unit :=
  existingVote ← ask (Db.active_vote meme_id username);
  let voteType := if bool_decide (voted = 1) then "up" else "down" in
  (match existingVote return Step unit with
   | Some existing =>
       (_ ← now;
        written "update" "votes" (Db.update_vote (Db.id existing) voted));;
       meme ← ask (Db.meme meme_id);
       let '(upvoteChange, downvoteChange) :=
         if bool_decide (Db.voted existing ≠ voted)
         then if bool_decide (voted = 1) then (1, -1) else (-1, 1)
         else (0, 0) in
       match meme return Step unit with
       | None => throw JsTypeError
       | Some meme =>
           _ ← now;
           written "update" "memes"
             (Db.update_meme meme_id (λ r,
                Db.mkMeme (Z.max 0 (Db.upvote_count meme + upvoteChange))
                          (Z.max 0 (Db.downvote_count meme + downvoteChange))
                          (Db.text r)))
       end
   | None =>
       written "create" "votes" (Db.insert_vote meme_id username voted);;
       meme ← ask (Db.meme meme_id);
       match meme return Step unit with
       | None => throw JsTypeError
       | Some meme =>
           _ ← now;
           written "update" "memes"
             (Db.update_meme meme_id (λ r,
                if bool_decide (voted = 1)
                then Db.mkMeme (or_zero (Db.upvote_count meme) + 1)
                               (Db.downvote_count r) (Db.text r)
                else Db.mkMeme (Db.upvote_count r)
                               (or_zero (Db.downvote_count meme) + 1)
                               (Db.text r)))
       end
   end);;
  updatedMeme ← ask (Db.meme meme_id);
  match updatedMeme return Step unit with
  | None => throw JsTypeError
  | Some updatedMeme =>
      tell (broadcastVoteUpdate clock toISOString SERVER_ID meme_id voteType
              username
              (if bool_decide (voted = 1) then Db.upvote_count updatedMeme
               else Db.downvote_count updatedMeme)
              (Db.text updatedMeme)
              (Db.upvote_count updatedMeme) (Db.downvote_count updatedMeme));;
      tell (updateLeaderboard clock toISOString SERVER_ID);;
      await_trending meme_id
  end.
End MemeService.

(** ** A concrete environment and a few concrete runs *)

Module Demo.
Definition clock (n : nat) : Z := 1700000000000 + Z.of_nat n.
Definition toISOString (t : Z) : string := pretty t.
Definition SERVER_ID : option string := None.

Definition as_user (u : string) : option AuthData :=
  Some (mkAuthData (Some u) None None).

Definition run (tr : list Event) : World :=
  default constructor (run clock toISOString SERVER_ID tr constructor).

(** One socket, accepted and not authenticated. *)
Definition one_anonymous : World :=
  run [EvInitialize; EvConnection "s1"].

(** One socket that authenticated twice, under two names. *)
Definition two_names : World :=
  run [EvInitialize; EvConnection "s1";
       EvAuthenticate "s1" (as_user "alice");
       EvAuthenticate "s1" (as_user "bob")].

(** [alice] on socket [s1], in the room [lobby]; a second socket [s2]. *)
Definition alice_and_s2 : World :=
  run [EvInitialize; EvConnection "s1";
       EvAuthenticate "s1" (as_user "alice");
       EvJoinRoom "s1" (mkRoomData "lobby" None);
       EvConnection "s2"].

(** Two memes updated a moment ago, ten upvotes each; a database that
    answers the trending query with the first of them. *)
Definition tied_memes : list Meme.Row :=
  [Meme.mkRow 1 10 1700000000000; Meme.mkRow 2 10 1700000000000].

Definition first_of_tied (cutoff : Z) : option (list Meme.Row) :=
  Some [Meme.mkRow 1 10 1700000000000].
End Demo.

(** A concrete token service, password hash and table of users. *)
Module DemoAuth.
Definition alice : list (string * jsval) :=
  [("id", JNum 7); ("email", JStr "alice@x.io"); ("username", JStr "alice");
   ("name", JStr "Alice"); ("password", JStr "#wonderland")].

Definition jwt_verify (token : string) : option (list (string * jsval)) :=
  if String.eqb token "t7" then Some [("id", JNum 7)] else None.

Definition jwt_sign (payload : list (string * option jsval)) : string :=
  match payload with
  | ("id", Some (JNum n)) :: _ => "t" +:+ pretty n
  | _ => "t"
  end.

Definition bcrypt_hash (password : string) : string := "#" +:+ password.

Definition bcrypt_compare (password : string) (hash : option jsval)
    : Result bool :=
  match hash with
  | Some (JStr h) => Return (String.eqb h (bcrypt_hash password))
  | _ => Throw (JsError "Illegal arguments")
  end.

Definition db_single (table column : string) (id : option jsval)
    : Answer (list (string * jsval)) :=
  match id with
  | Some (JNum 7) => mkAnswer (Some alice) None
  | _ => mkAnswer None (Some "no rows")
  end.

Definition db_select (table : string) (filters : list (string * jsval))
    : Answer (list (list (string * jsval))) :=
  match filters with
  | [] => mkAnswer (Some [alice]) None
  | (_, v) :: _ =>
      if is_str (Some v) "alice@x.io" then mkAnswer (Some [alice]) None
      else mkAnswer (Some []) None
  end.

Definition db_users_or (email username : string)
    : Answer (list (list (string * jsval))) :=
  if String.eqb email "alice@x.io" || String.eqb username "alice"
  then mkAnswer (Some [alice]) None
  else mkAnswer (Some []) None.

Definition db_insert (table : string) (payload : list (string * jsval))
    : Answer (list (string * jsval)) :=
  mkAnswer (Some (("id", JNum 8) :: payload)) None.

Definition authenticateToken : option string → Handled :=
  authenticateToken jwt_verify db_single.

Definition optionalAuth : option string → Handled :=
  optionalAuth jwt_verify db_single.

Definition loginUser : option string → string → Result (list (string * jsval)) :=
  loginUser jwt_sign bcrypt_compare db_select.

Definition registerUser (email username name password : string)
    : Result (list (string * jsval)) * World :=
  registerUser Demo.clock Demo.toISOString jwt_sign bcrypt_hash db_users_or
    db_insert email username name password constructor.
End DemoAuth.

(** A database with one meme, two users and no vote yet. *)
Module DemoVote.
Definition db : Db.t :=
  Db.mk [] {[1 := Db.mkMeme 0 0 "cat"]} {["alice"; "bob"]}.

Definition fault_message (fault : Db.Fault) : string :=
  match fault with
  | Db.NoRow => "JSON object requested, multiple (or no) rows returned"
  | Db.ForeignKey => "violates foreign key constraint"
  | Db.CheckViolation => "violates check constraint"
  | Db.UniqueViolation => "duplicate key value violates unique constraint"
  end.

(** The trending query in a database whose only meme has the id 1 and
    was updated a moment ago. *)
Definition trending (db : Db.t) (cutoff : Z) : option (list Meme.Row) :=
  match Db.memes db !! 1 with
  | Some r => Some [Meme.mkRow 1 (Db.upvote_count r) cutoff]
  | None => Some []
  end.

Definition voteOnMeme : Z → string → Z → Step unit :=
  voteOnMeme Demo.clock Demo.toISOString Demo.SERVER_ID fault_message trending.
End DemoVote.

(** ** Vocabulary of the properties *)

(** Every entry of [userSockets] is mirrored by [connectedUsers]. *)
Definition registry_inv (W : World) : Prop :=
  ∀ s u, userSockets (mgr W) !! s = Some u →
    ∃ info, connectedUsers (mgr W) !! u = Some info ∧ socketId info = s.

(** The connection [s] is bound to the identity [u] by either map. *)
Definition bound (W : World) (u s : string) : Prop :=
  (∃ info, connectedUsers (mgr W) !! u = Some info ∧ socketId info = s)
  ∨ userSockets (mgr W) !! s = Some u.

(** The number of connections accepted and not yet disconnected. *)
Definition active_connections (W : World) : nat := size (io_sockets W).

(** The number of connections ever accepted. *)
Definition accepted_connections (W : World) : nat := size (dom (sockets W)).

Definition metrics_inv (W : World) : Prop :=
  io_sockets W ⊆ dom (sockets W)
  ∧ totalConnections (connectionMetrics (mgr W)) = Z.of_nat (accepted_connections W)
  ∧ currentConnections (connectionMetrics (mgr W)) = Z.of_nat (active_connections W)
  ∧ totalDisconnections (connectionMetrics (mgr W))
    = totalConnections (connectionMetrics (mgr W))
      - currentConnections (connectionMetrics (mgr W)).

(** The packet sent to the others in [room] when [u] leaves it. *)
Definition user_left_room (sid u room : string) : Emission :=
  mkEmission (SocketTo sid room) "user_left_room"
    [("room", JStr room); ("username", JStr u)].

(** The presence packet broadcast to every connection. *)
Definition user_status (u status t : string) : Emission :=
  mkEmission IoEmit "user_status"
    [("username", JStr u); ("status", JStr status); ("timestamp", JStr t)].

(** No entry of the directory has an empty member set. *)
Definition rooms_inv (W : World) : Prop :=
  ∀ room users, (room, users) ∈ rooms (mgr W) → users ≠ [].

(** One turn of the loop of [handleDisconnection], written with the
    operations of the [Map] by key: [users] is [this.rooms.get(room)]. *)
Definition leave_room_step (sid u : string)
    (acc : list (string * list string) * list Emission)
    (entry : string * list string)
    : list (string * list string) * list Emission :=
  let room := entry.1 in
  match OMap.get room acc.1 with
  | Some users =>
      if SSet.has u users then
        let rs := OMap.alter (SSet.delete u) room acc.1 in
        let out := acc.2 ++ [user_left_room sid u room] in
        if decide (SSet.size (default [] (OMap.get room rs)) = 0%nat)
        then (OMap.delete room rs, out)
        else (rs, out)
      else acc
  | None => acc
  end.

Definition leave_all_rooms_by_key (sid u : string)
    (rs : list (string * list string))
    : list (string * list string) * list Emission :=
  fold_left (leave_room_step sid u) rs (rs, []).

(** The directory is a [Map]: no room name is listed twice. *)
Definition rooms_keys_inv (W : World) : Prop :=
  NoDup (OMap.keys (rooms (mgr W))).

(** The directory after [handleJoinRoom] by the identity [u]. *)
Definition joined_rooms (u room : string) (rs : list (string * list string))
    : list (string * list string) :=
  OMap.alter (SSet.add u) room
    (if OMap.has room rs then rs else OMap.set room [] rs).

(** The directory after [handleLeaveRoom] by the identity [u]. *)
Definition left_rooms (u room : string) (rs : list (string * list string))
    : list (string * list string) :=
  if OMap.has room rs then
    let rs' := OMap.alter (SSet.delete u) room rs in
    if decide (SSet.size (default [] (OMap.get room rs')) = 0%nat)
    then OMap.delete room rs' else rs'
  else rs.

(** The flags [isInitialized] and [io] go together, and before
    [initialize] nobody is connected or registered. *)
Definition init_inv (W : World) : Prop :=
  isInitialized (mgr W) = io (mgr W)
  ∧ (isInitialized (mgr W) = false →
     connectedUsers (mgr W) = ∅ ∧ io_sockets W = ∅).

(** *** The trending query *)

(** What the database may answer to the query of
    [checkAndBroadcastTrendingMeme] over the rows [table] with the bound
    [cutoff]: no row when none was updated since [cutoff], else one row
    updated since [cutoff] that no such row beats in upvotes.  Which one,
    among rows with equally many upvotes, is the database's choice. *)
Definition top1_answer (table : list Meme.Row) (cutoff : Z)
    (answer : option (list Meme.Row)) : Prop :=
  match answer with
  | Some [] => ∀ r, r ∈ table → ¬ cutoff ≤ Meme.updated_at r
  | Some [r] =>
      r ∈ table ∧ cutoff ≤ Meme.updated_at r
      ∧ ∀ r', r' ∈ table → cutoff ≤ Meme.updated_at r' →
              Meme.upvote_count r' ≤ Meme.upvote_count r
  | _ => False
  end.

(** The meme [m] has [count] upvotes, was updated since [cutoff], and no
    meme updated since [cutoff] has more upvotes. *)
Definition highest_in_window (table : list Meme.Row) (cutoff m count : Z) : Prop :=
  ∃ r, r ∈ table ∧ Meme.id r = m ∧ Meme.upvote_count r = count
       ∧ cutoff ≤ Meme.updated_at r
       ∧ ∀ r', r' ∈ table → cutoff ≤ Meme.updated_at r' →
               Meme.upvote_count r' ≤ count.

(** As before, and every other meme updated since [cutoff] has fewer. *)
Definition strictly_highest_in_window (table : list Meme.Row)
    (cutoff m count : Z) : Prop :=
  ∃ r, r ∈ table ∧ Meme.id r = m ∧ Meme.upvote_count r = count
       ∧ cutoff ≤ Meme.updated_at r
       ∧ ∀ r', r' ∈ table → cutoff ≤ Meme.updated_at r' → Meme.id r' ≠ m →
               Meme.upvote_count r' < count.

(** Between [W] and [W'] exactly one packet was sent: a [meme_highlight]
    to every connection. *)
Definition highlight_sent (W W' : World) : Prop :=
  ∃ p, outbox W' = outbox W ++ [mkEmission IoEmit "meme_highlight" p].

(** The test the function makes on the answer of the database. *)
Definition leading_milestone (answer : option (list Meme.Row)) (m : Z) : Prop :=
  ∃ first rest, answer = Some (first :: rest) ∧ Meme.id first = m
                ∧ Meme.upvote_count first > 0
                ∧ Z.rem (Meme.upvote_count first) 10 = 0.

(** *** Sockets, identities and rooms together *)

(** The [username] property of a socket and its entry in [userSockets]:
    an entry is mirrored by the property, and for a connected socket the
    property is mirrored by an entry. *)
Definition socket_registry_inv (W : World) : Prop :=
  (∀ s u, userSockets (mgr W) !! s = Some u → socket_username s W = Some u)
  ∧ (∀ s u, s ∈ io_sockets W → socket_username s W = Some u →
            userSockets (mgr W) !! s = Some u).

(** Only non-empty names are ever registered. *)
Definition names_inv (W : World) : Prop :=
  (∀ s u, userSockets (mgr W) !! s = Some u → truthy u = true)
  ∧ (∀ u, is_Some (connectedUsers (mgr W) !! u) → truthy u = true).

(** Every member of every room has a session. *)
Definition members_online (W : World) : Prop :=
  ∀ room users u, (room, users) ∈ rooms (mgr W) → u ∈ users →
                  is_Some (connectedUsers (mgr W) !! u).

(** A member set lists nobody twice. *)
Definition members_nodup (W : World) : Prop :=
  ∀ room users, (room, users) ∈ rooms (mgr W) → NoDup users.


(** *** Strings *)

(** The character [c] occurs in [s]. *)
Fixpoint occurs (c : Ascii.ascii) (s : string) : bool :=
  match s with
  | EmptyString => false
  | String c' s' => Ascii.eqb c' c || occurs c s'
  end.

(** *** Votes and counts *)

(** The number of active votes of kind [x] on the meme [m]. *)
Definition tally (x m : Z) (db : Db.t) : Z :=
  Z.of_nat (length (filter (λ v, Db.meme_id v = m ∧ Db.is_active v = true
                                 ∧ Db.voted v = x) (Db.votes db))).

(** The two counters of every meme are the tallies of its votes. *)
Definition counts_agree (db : Db.t) : Prop :=
  ∀ m r, Db.memes db !! m = Some r →
         Db.upvote_count r = tally 1 m db ∧ Db.downvote_count r = tally 0 m db.

(** What the schema guarantees of [votes]: the primary key, the check on
    [voted], the two foreign keys, and one active vote at most for a meme
    and a user. *)
Definition constraints (db : Db.t) : Prop :=
  NoDup (Db.id <$> Db.votes db)
  ∧ (∀ v, v ∈ Db.votes db →
          (Db.voted v = 0 ∨ Db.voted v = 1)
          ∧ is_Some (Db.memes db !! Db.meme_id v)
          ∧ Db.username v ∈ Db.users db)
  ∧ ∀ m u, (length (filter (λ v, Db.meme_id v = m ∧ Db.username v = u
                                 ∧ Db.is_active v = true) (Db.votes db))
            ≤ 1)%nat.
(** * Properties *)

(** Case analysis on the event, naming what each event carries. *)
Ltac event_cases e :=
  destruct e as [|sid|sid data|sid|sid data|sid data|sid reason
                 |sid err|u ev data|ev data].

(** ** Ordered maps and sets *)

Section OMapFacts.
Context {V : Type}.
Implicit Types (m : list (string * V)) (k : string) (v : V).

Lemma omap_get_set_eq k v m : OMap.get k (OMap.set k v m) = Some v.
Proof.
  induction m as [|[k' v'] m IH]; simpl.
  - by rewrite decide_True.
  - destruct (decide (k' = k)) as [->|Hne]; simpl.
    + by rewrite decide_True.
    + by rewrite decide_False.
Qed.

Lemma omap_get_set_ne k k' v m :
  k ≠ k' → OMap.get k' (OMap.set k v m) = OMap.get k' m.
Proof.
  intros Hne. induction m as [|[k1 v1] m IH]; simpl.
  - by rewrite decide_False.
  - destruct (decide (k1 = k)) as [->|Hne1]; simpl.
    + by rewrite !(decide_False (P := k = k')).
    + by rewrite IH.
Qed.

Lemma omap_get_alter_eq f k m : OMap.get k (OMap.alter f k m) = f <$> OMap.get k m.
Proof.
  induction m as [|[k' v'] m IH]; simpl; [done|].
  destruct (decide (k' = k)) as [->|Hne]; simpl.
  - by rewrite decide_True.
  - by rewrite decide_False.
Qed.

Lemma omap_get_alter_ne f k k' m :
  k ≠ k' → OMap.get k' (OMap.alter f k m) = OMap.get k' m.
Proof.
  intros Hne. induction m as [|[k1 v1] m IH]; simpl; [done|].
  destruct (decide (k1 = k)) as [->|Hne1]; simpl.
  - by rewrite !(decide_False (P := k = k')).
  - by rewrite IH.
Qed.

Lemma omap_get_delete_eq k m : OMap.get k (OMap.delete k m) = None.
Proof.
  unfold OMap.delete. induction m as [|[k' v'] m IH]; simpl; [done|].
  rewrite filter_cons. simpl. destruct (decide (k' ≠ k)) as [Hne|Heq]; simpl.
  - by rewrite decide_False.
  - done.
Qed.

Lemma omap_get_delete_ne k k' m :
  k ≠ k' → OMap.get k' (OMap.delete k m) = OMap.get k' m.
Proof.
  intros Hne. unfold OMap.delete.
  induction m as [|[k1 v1] m IH]; simpl; [done|].
  rewrite filter_cons. simpl. destruct (decide (k1 ≠ k)) as [Hne1|Heq]; simpl.
  - by rewrite IH.
  - apply dec_stable in Heq as ->. by rewrite decide_False.
Qed.

Lemma omap_get_Some_elem k v m : OMap.get k m = Some v → (k, v) ∈ m.
Proof.
  induction m as [|[k' v'] m IH]; simpl; [done|].
  destruct (decide (k' = k)) as [->|Hne].
  - intros [= ->]. left.
  - intros H. right. auto.
Qed.

Lemma omap_elem_keys_get k m : k ∈ OMap.keys m ↔ is_Some (OMap.get k m).
Proof.
  unfold OMap.keys. induction m as [|[k' v'] m IH]; simpl.
  - split; [by intros ?%elem_of_nil | by intros [? ?]].
  - rewrite elem_of_cons, IH. destruct (decide (k' = k)) as [->|Hne].
    + split; [eauto | by left].
    + split; [by intros [->|?] | by right].
Qed.

Lemma omap_has_true k m : OMap.has k m = true ↔ is_Some (OMap.get k m).
Proof. unfold OMap.has. apply bool_decide_eq_true. Qed.

Lemma omap_has_false k m : OMap.has k m = false ↔ OMap.get k m = None.
Proof.
  unfold OMap.has. rewrite bool_decide_eq_false.
  by rewrite eq_None_not_Some.
Qed.

Lemma omap_elem_alter f k m kv :
  kv ∈ OMap.alter f k m →
  kv ∈ m ∨ ∃ v, OMap.get k m = Some v ∧ kv = (k, f v).
Proof.
  induction m as [|[k' v'] m IH]; simpl; [by intros ?%elem_of_nil|].
  destruct (decide (k' = k)) as [->|Hne].
  - intros [->|?]%elem_of_cons.
    + right. by exists v'.
    + left. by right.
  - intros [->|?]%elem_of_cons; [left; by left|].
    destruct (IH H) as [?|(v & ? & ?)]; [left; by right|].
    right. by exists v.
Qed.

Lemma omap_set_fresh k v m : OMap.get k m = None → OMap.set k v m = m ++ [(k, v)].
Proof.
  induction m as [|[k' v'] m IH]; simpl; [done|].
  destruct (decide (k' = k)); [done|]. intros H. by rewrite IH.
Qed.

Lemma omap_alter_app_fresh f k v m :
  OMap.get k m = None → OMap.alter f k (m ++ [(k, v)]) = m ++ [(k, f v)].
Proof.
  induction m as [|[k' v'] m IH]; simpl.
  - by rewrite decide_True.
  - destruct (decide (k' = k)); [done|]. intros H. by rewrite IH.
Qed.

Lemma omap_alter_idemp f k m :
  (∀ v, f (f v) = f v) → OMap.alter f k (OMap.alter f k m) = OMap.alter f k m.
Proof.
  intros Hf. induction m as [|[k' v'] m IH]; simpl; [done|].
  destruct (decide (k' = k)) as [->|Hne]; simpl.
  - by rewrite decide_True, Hf.
  - by rewrite decide_False, IH.
Qed.

Lemma omap_keys_alter f k m : OMap.keys (OMap.alter f k m) = OMap.keys m.
Proof.
  unfold OMap.keys. induction m as [|[k' v'] m IH]; [done|].
  cbn [OMap.alter]. destruct (decide (k' = k)); [done|].
  by rewrite !fmap_cons, IH.
Qed.

Lemma omap_elem_delete k m kv : kv ∈ OMap.delete k m ↔ kv ∈ m ∧ kv.1 ≠ k.
Proof. unfold OMap.delete. rewrite list_elem_of_filter. tauto. Qed.
End OMapFacts.

Section SSetFacts.
Lemma sset_elem_add u v s : v ∈ SSet.add u s ↔ v = u ∨ v ∈ s.
Proof.
  unfold SSet.add, SSet.has. case_bool_decide.
  - split; [by right | by intros [->|?]].
  - rewrite elem_of_app, list_elem_of_singleton. tauto.
Qed.

Lemma sset_add_idemp u s : SSet.add u (SSet.add u s) = SSet.add u s.
Proof.
  unfold SSet.add at 1. unfold SSet.has.
  rewrite bool_decide_eq_true_2; [done|]. apply sset_elem_add. by left.
Qed.

Lemma sset_elem_delete u v s : v ∈ SSet.delete u s ↔ v ∈ s ∧ v ≠ u.
Proof. unfold SSet.delete. rewrite list_elem_of_filter. tauto. Qed.

Lemma sset_not_elem_delete u s : u ∉ SSet.delete u s.
Proof. rewrite sset_elem_delete. tauto. Qed.

Lemma sset_add_not_nil u s : SSet.add u s ≠ [].
Proof.
  intros H. assert (u ∈ SSet.add u s) as Hin by (apply sset_elem_add; by left).
  rewrite H in Hin. by apply elem_of_nil in Hin.
Qed.
End SSetFacts.

(** ** The registry: one connection per identity *)

Section Registry.
Variable clock : nat → Z.
Variable toISOString : Z → string.
Variable SERVER_ID : option string.

#[local] Abbreviation handleDisconnection := (handleDisconnection clock toISOString).
#[local] Abbreviation socket_disconnect := (socket_disconnect clock toISOString).
#[local] Abbreviation removeUserFromPreviousSocket :=
  (removeUserFromPreviousSocket clock toISOString).
#[local] Abbreviation handleAuthentication := (handleAuthentication clock toISOString).
#[local] Abbreviation handlePing := (handlePing clock toISOString).
#[local] Abbreviation handle := (handle clock toISOString SERVER_ID).
#[local] Abbreviation reachable := (reachable clock toISOString SERVER_ID).

Lemma handleDisconnection_userSockets sid reason W :
  userSockets (mgr (handleDisconnection sid reason W))
  = match userSockets (mgr W) !! sid with
    | Some u => if truthy u then delete sid (userSockets (mgr W))
                else userSockets (mgr W)
    | None => userSockets (mgr W)
    end.
Proof.
  unfold handleDisconnection. cbn.
  destruct (userSockets (mgr W) !! sid) as [u|]; [|done].
  destruct (truthy u); [|done]. cbn.
  by destruct (leave_all_rooms sid u (rooms (mgr W))).
Qed.

Lemma handleDisconnection_connectedUsers sid reason W :
  connectedUsers (mgr (handleDisconnection sid reason W))
  = match userSockets (mgr W) !! sid with
    | Some u => if truthy u then delete u (connectedUsers (mgr W))
                else connectedUsers (mgr W)
    | None => connectedUsers (mgr W)
    end.
Proof.
  unfold handleDisconnection. cbn.
  destruct (userSockets (mgr W) !! sid) as [u|]; [|done].
  destruct (truthy u); [|done]. cbn.
  by destruct (leave_all_rooms sid u (rooms (mgr W))).
Qed.

Lemma handleDisconnection_io_sockets sid reason W :
  io_sockets (handleDisconnection sid reason W) = io_sockets W.
Proof.
  unfold handleDisconnection. cbn.
  destruct (userSockets (mgr W) !! sid) as [u|]; [|done].
  destruct (truthy u); [|done]. cbn.
  by destruct (leave_all_rooms sid u (rooms (mgr W))).
Qed.

Lemma handleDisconnection_sockets sid reason W :
  sockets (handleDisconnection sid reason W) = sockets W.
Proof.
  unfold handleDisconnection. cbn.
  destruct (userSockets (mgr W) !! sid) as [u|]; [|done].
  destruct (truthy u); [|done]. cbn.
  by destruct (leave_all_rooms sid u (rooms (mgr W))).
Qed.

Lemma handleDisconnection_registry_inv sid reason W :
  registry_inv W → registry_inv (handleDisconnection sid reason W).
Proof.
  intros Hinv s u. rewrite handleDisconnection_userSockets,
    handleDisconnection_connectedUsers.
  destruct (userSockets (mgr W) !! sid) as [u0|] eqn:Hsid; [|by apply Hinv].
  destruct (truthy u0); [|by apply Hinv].
  intros [Hne Hs]%lookup_delete_Some.
  destruct (Hinv _ _ Hs) as (info & Hinfo & Hid).
  exists info. split; [|done]. rewrite lookup_delete_ne; [done|].
  intros ->. destruct (Hinv _ _ Hsid) as (info' & Hinfo' & Hid').
  congruence.
Qed.

Lemma registry_inv_mgr W1 W2 : mgr W1 = mgr W2 → registry_inv W1 → registry_inv W2.
Proof. unfold registry_inv. by intros ->. Qed.

Lemma socket_disconnect_registry_inv sid W :
  registry_inv W → registry_inv (socket_disconnect sid W).
Proof.
  intros Hinv. unfold socket_disconnect.
  destruct (io_sockets_get sid W); [|done].
  apply handleDisconnection_registry_inv.
  by apply (registry_inv_mgr W).
Qed.

Lemma socket_disconnect_userSockets_sub sid W s u :
  userSockets (mgr (socket_disconnect sid W)) !! s = Some u →
  userSockets (mgr W) !! s = Some u.
Proof.
  unfold socket_disconnect. destruct (io_sockets_get sid W); [|done].
  rewrite handleDisconnection_userSockets. cbn.
  destruct (userSockets (mgr W) !! sid) as [u0|]; [|done].
  destruct (truthy u0); [|done]. by intros [_ ?]%lookup_delete_Some.
Qed.

Lemma removeUserFromPreviousSocket_registry_inv u W :
  registry_inv W → registry_inv (removeUserFromPreviousSocket u W).
Proof.
  intros Hinv. unfold removeUserFromPreviousSocket.
  destruct (connectedUsers (mgr W) !! u) as [prev|]; [|done].
  set (W1 := match io_sockets_get (socketId prev) W with
             | Some _ => socket_disconnect (socketId prev) W
             | None => W
             end).
  assert (registry_inv W1) as Hinv1.
  { unfold W1. destruct (io_sockets_get (socketId prev) W); [|done].
    by apply socket_disconnect_registry_inv. }
  intros s u'. cbn. intros [Hne Hs]%lookup_delete_Some. by apply Hinv1.
Qed.

(** After the call no socket is recorded for [u] any more. *)
Lemma removeUserFromPreviousSocket_unbinds u W s :
  registry_inv W →
  userSockets (mgr (removeUserFromPreviousSocket u W)) !! s ≠ Some u.
Proof.
  intros Hinv. unfold removeUserFromPreviousSocket.
  destruct (connectedUsers (mgr W) !! u) as [prev|] eqn:Hprev.
  - cbn. intros [Hne Hs]%lookup_delete_Some.
    assert (userSockets (mgr W) !! s = Some u) as Hs0.
    { destruct (io_sockets_get (socketId prev) W); [|done].
      by eapply socket_disconnect_userSockets_sub. }
    destruct (Hinv _ _ Hs0) as (info & Hinfo & Hid). congruence.
  - intros Hs. destruct (Hinv _ _ Hs) as (info & Hinfo & _). congruence.
Qed.

(** The fields a successful authentication leaves behind. *)
Lemma handleAuthentication_ok sid d u W :
  auth_username d = Some u → truthy u = true →
  let W1 := removeUserFromPreviousSocket u W in
  let W' := handleAuthentication sid (Some d) W in
  (∃ ud, connectedUsers (mgr W')
         = <[u := mkUserInfo sid ud]> (connectedUsers (mgr W1)))
  ∧ userSockets (mgr W') = <[sid := u]> (userSockets (mgr W1))
  ∧ rooms (mgr W') = rooms (mgr W1)
  ∧ connectionMetrics (mgr W') = connectionMetrics (mgr W1)
  ∧ io (mgr W') = io (mgr W1)
  ∧ isInitialized (mgr W') = isInitialized (mgr W1)
  ∧ io_sockets W' = io_sockets W1
  ∧ dom (sockets W') = dom (sockets W1)
  ∧ hooks W'
    = hooks W1 ++ [mkHook "user_authenticated"
                     [("username", JStr u); ("socket", JStr sid);
                      ("userData", JObj (default [] (auth_userData d)))]]
  ∧ ∃ n, outbox W'
    = outbox W1 ++ [mkEmission (SocketEmit sid) "authenticated"
                      [("success", JBool true);
                       ("message", JStr "Successfully authenticated");
                       ("username", JStr u); ("connectedUsers", JNum n)];
                    mkEmission IoEmit "user_status"
                      [("username", JStr u); ("status", JStr "online");
                       ("timestamp",
                        JStr (toISOString (clock (S (S (date_reads W1))))))]].
Proof.
  intros Hu Ht. cbn zeta. unfold handleAuthentication.
  rewrite Hu. cbn [truthy_opt default]. rewrite Ht. cbn [negb].
  set (W1 := removeUserFromPreviousSocket u W).
  unfold socket_join, broadcastUserStatus. cbn.
  destruct (socket_connected sid _); cbn;
    (split; [eauto|]); repeat split;
    rewrite ?dom_alter_L, <- ?(assoc_L (++)); eauto.
Qed.

(** The two rejections: absent payload, absent or empty username. *)
Lemma handleAuthentication_reject sid data W :
  (data = None ∨ ∃ d, data = Some d ∧ truthy_opt (auth_username d) = false) →
  ∃ msg, handleAuthentication sid data W = authentication_error sid msg W.
Proof.
  intros [->|(d & -> & Hd)]; unfold handleAuthentication.
  - eauto.
  - rewrite Hd. eauto.
Qed.

Lemma handleAuthentication_cases sid data W :
  (∃ msg, handleAuthentication sid data W = authentication_error sid msg W)
  ∨ (∃ d u, data = Some d ∧ auth_username d = Some u ∧ truthy u = true).
Proof.
  destruct data as [d|]; [|left; apply handleAuthentication_reject; by left].
  destruct (auth_username d) as [u|] eqn:Hu.
  - destruct (truthy u) eqn:Ht; [right; eauto|].
    left. apply handleAuthentication_reject. right. exists d.
    by rewrite Hu.
  - left. apply handleAuthentication_reject. right. exists d. by rewrite Hu.
Qed.

Lemma handleAuthentication_registry_inv sid data W :
  registry_inv W → registry_inv (handleAuthentication sid data W).
Proof.
  intros Hinv.
  destruct (handleAuthentication_cases sid data W)
    as [[msg ->]|(d & u & -> & Hu & Ht)]; [done|].
  destruct (handleAuthentication_ok sid d u W Hu Ht)
    as ((ud & HCU) & HUS & _).
  intros s u'. rewrite HCU, HUS.
  pose proof (removeUserFromPreviousSocket_registry_inv u W Hinv) as Hinv1.
  destruct (decide (s = sid)) as [->|Hs].
  - rewrite lookup_insert_eq. intros [= <-]. rewrite lookup_insert_eq. eauto.
  - rewrite lookup_insert_ne by done. intros Hlk.
    destruct (decide (u' = u)) as [->|Hne].
    + by apply removeUserFromPreviousSocket_unbinds in Hlk.
    + rewrite lookup_insert_ne by done. by apply Hinv1.
Qed.

Lemma handlePing_mgr sid W :
  mgr (handlePing sid W)
  = match userSockets (mgr W) !! sid with
    | Some u =>
        if truthy u && bool_decide (is_Some (connectedUsers (mgr W) !! u)) then
          set_connectedUsers
            (alter (λ userInfo,
               mkUserInfo (socketId userInfo)
                 (OMap.set "lastSeen"
                    (JStr (toISOString (clock (S (S (date_reads W))))))
                    (userData userInfo))) u) (mgr W)
        else mgr W
    | None => mgr W
    end.
Proof.
  unfold handlePing. cbn.
  destruct (userSockets (mgr W) !! sid) as [u|]; [|done].
  by destruct (truthy u && _).
Qed.

Lemma handlePing_frame sid W :
  sockets (handlePing sid W) = sockets W
  ∧ io_sockets (handlePing sid W) = io_sockets W.
Proof.
  unfold handlePing. cbn.
  destruct (userSockets (mgr W) !! sid) as [u|]; [|done].
  by destruct (truthy u && _).
Qed.

Lemma handlePing_registry_inv sid W :
  registry_inv W → registry_inv (handlePing sid W).
Proof.
  intros Hinv s u. rewrite handlePing_mgr.
  destruct (userSockets (mgr W) !! sid) as [u0|]; [|by apply Hinv].
  destruct (truthy u0 && _); [|by apply Hinv].
  cbn. intros Hs. destruct (Hinv _ _ Hs) as (info & Hinfo & Hid).
  destruct (decide (u0 = u)) as [->|Hne].
  - rewrite lookup_alter_eq, Hinfo. cbn. eauto.
  - rewrite lookup_alter_ne by done. eauto.
Qed.

(** *** What the other handlers leave alone *)

Lemma handleJoinRoom_frame sid data W :
  let W' := handleJoinRoom sid data W in
  connectedUsers (mgr W') = connectedUsers (mgr W)
  ∧ userSockets (mgr W') = userSockets (mgr W)
  ∧ connectionMetrics (mgr W') = connectionMetrics (mgr W)
  ∧ io (mgr W') = io (mgr W)
  ∧ isInitialized (mgr W') = isInitialized (mgr W)
  ∧ io_sockets W' = io_sockets W
  ∧ dom (sockets W') = dom (sockets W).
Proof.
  cbn zeta. unfold handleJoinRoom.
  destruct (socket_username sid W) as [u|]; [|done].
  destruct (truthy u); [|done].
  unfold socket_join. destruct (socket_connected sid W); cbn;
    destruct (OMap.has _ _); cbn; by rewrite ?dom_alter_L.
Qed.

Lemma handleLeaveRoom_frame sid data W :
  let W' := handleLeaveRoom sid data W in
  connectedUsers (mgr W') = connectedUsers (mgr W)
  ∧ userSockets (mgr W') = userSockets (mgr W)
  ∧ connectionMetrics (mgr W') = connectionMetrics (mgr W)
  ∧ io (mgr W') = io (mgr W)
  ∧ isInitialized (mgr W') = isInitialized (mgr W)
  ∧ io_sockets W' = io_sockets W
  ∧ dom (sockets W') = dom (sockets W).
Proof.
  cbn zeta. unfold handleLeaveRoom.
  destruct (socket_username sid W) as [u|]; [|done].
  destruct (truthy u); [|done]. cbn.
  destruct (OMap.has _ _); cbn; [|by rewrite dom_alter_L].
  destruct (decide _); cbn; by rewrite dom_alter_L.
Qed.

Lemma sendToUser_frame u ev data W :
  let W' := (sendToUser clock toISOString SERVER_ID u ev data W).2 in
  mgr W' = mgr W ∧ sockets W' = sockets W ∧ io_sockets W' = io_sockets W.
Proof.
  cbn zeta. unfold sendToUser.
  destruct (getUserInfo u W); [|done]. by destruct (getIO W).
Qed.

Lemma broadcast_frame ev data W :
  let W' := (broadcast clock toISOString SERVER_ID ev data W).2 in
  mgr W' = mgr W ∧ sockets W' = sockets W ∧ io_sockets W' = io_sockets W.
Proof. cbn zeta. unfold broadcast. by destruct (getIO W). Qed.

Lemma initialize_frame W :
  let W' := initialize W in
  connectedUsers (mgr W') = connectedUsers (mgr W)
  ∧ userSockets (mgr W') = userSockets (mgr W)
  ∧ rooms (mgr W') = rooms (mgr W)
  ∧ connectionMetrics (mgr W') = connectionMetrics (mgr W)
  ∧ sockets W' = sockets W ∧ io_sockets W' = io_sockets W.
Proof. cbn zeta. unfold initialize. by destruct (isInitialized (mgr W)). Qed.

Lemma handle_registry_inv e W : registry_inv W → registry_inv (handle e W).
Proof.
  intros Hinv. event_cases e; cbn [handle].
  - destruct (initialize_frame W) as (HCU & HUS & _).
    unfold registry_inv. rewrite HCU, HUS. apply Hinv.
  - done.
  - by apply handleAuthentication_registry_inv.
  - by apply handlePing_registry_inv.
  - destruct (handleJoinRoom_frame sid data W) as (HCU & HUS & _).
    unfold registry_inv. rewrite HCU, HUS. apply Hinv.
  - destruct (handleLeaveRoom_frame sid data W) as (HCU & HUS & _).
    unfold registry_inv. rewrite HCU, HUS. apply Hinv.
  - apply handleDisconnection_registry_inv. by apply (registry_inv_mgr W).
  - done.
  - destruct (sendToUser_frame u ev data W) as (Hm & _).
    by apply (registry_inv_mgr W).
  - destruct (broadcast_frame ev data W) as (Hm & _).
    by apply (registry_inv_mgr W).
Qed.

Lemma reachable_registry_inv W : reachable W → registry_inv W.
Proof.
  induction 1 as [|e W _ IH _].
  - intros s u. cbn. by rewrite lookup_empty.
  - by apply handle_registry_inv.
Qed.

Lemma registry_inv_bound_unique W u s1 s2 :
  registry_inv W → bound W u s1 → bound W u s2 → s1 = s2.
Proof.
  intros Hinv H1 H2.
  assert (∀ s, bound W u s →
            ∃ info, connectedUsers (mgr W) !! u = Some info ∧ socketId info = s)
    as Hb.
  { intros s [?|Hs]; [done | by apply Hinv]. }
  destruct (Hb _ H1) as (i1 & Hi1 & <-), (Hb _ H2) as (i2 & Hi2 & <-).
  congruence.
Qed.

(** Running an enabled trace stays within the reachable states. *)
Lemma run_reachable tr W W' :
  reachable W → run clock toISOString SERVER_ID tr W = Some W' → reachable W'.
Proof.
  revert W. induction tr as [|e tr IH]; intros W HW; cbn.
  - by intros [= <-].
  - destruct (enabled e W) eqn:He; [|done].
    apply IH. by constructor.
Qed.
End Registry.

(** ** The connection counters *)

Section Metrics.
Variable clock : nat → Z.
Variable toISOString : Z → string.
Variable SERVER_ID : option string.

#[local] Abbreviation handleDisconnection := (handleDisconnection clock toISOString).
#[local] Abbreviation socket_disconnect := (socket_disconnect clock toISOString).
#[local] Abbreviation removeUserFromPreviousSocket :=
  (removeUserFromPreviousSocket clock toISOString).
#[local] Abbreviation handleAuthentication := (handleAuthentication clock toISOString).
#[local] Abbreviation handlePing := (handlePing clock toISOString).
#[local] Abbreviation handle := (handle clock toISOString SERVER_ID).
#[local] Abbreviation reachable := (reachable clock toISOString SERVER_ID).

Lemma metrics_inv_frame W W' :
  connectionMetrics (mgr W') = connectionMetrics (mgr W) →
  io_sockets W' = io_sockets W →
  dom (sockets W') = dom (sockets W) →
  metrics_inv W → metrics_inv W'.
Proof.
  unfold metrics_inv, active_connections, accepted_connections.
  by intros -> -> ->.
Qed.

Lemma handleDisconnection_connectionMetrics sid reason W :
  connectionMetrics (mgr (handleDisconnection sid reason W))
  = mkMetrics (totalConnections (connectionMetrics (mgr W)))
              (currentConnections (connectionMetrics (mgr W)) - 1)
              (totalDisconnections (connectionMetrics (mgr W)) + 1).
Proof.
  unfold handleDisconnection. cbn.
  destruct (userSockets (mgr W) !! sid) as [u|]; [|done].
  destruct (truthy u); [|done]. cbn.
  by destruct (leave_all_rooms sid u (rooms (mgr W))).
Qed.

Lemma handleConnection_connectionMetrics sid W :
  connectionMetrics (mgr (handleConnection sid W))
  = mkMetrics (totalConnections (connectionMetrics (mgr W)) + 1)
              (currentConnections (connectionMetrics (mgr W)) + 1)
              (totalDisconnections (connectionMetrics (mgr W))).
Proof. done. Qed.

(** Closing a connected socket and running its [disconnect] listener. *)
Lemma close_metrics_inv sid reason W :
  sid ∈ io_sockets W → metrics_inv W →
  metrics_inv (handleDisconnection sid reason (sio_close sid W)).
Proof.
  intros Hin (Hsub & Htot & Hcur & Hdis). unfold metrics_inv.
  unfold active_connections, accepted_connections in *.
  rewrite handleDisconnection_connectionMetrics,
    handleDisconnection_io_sockets, handleDisconnection_sockets.
  cbn. rewrite dom_alter_L.
  assert (size (io_sockets W ∖ {[sid]}) = (size (io_sockets W) - 1)%nat) as Hsz.
  { rewrite size_difference by set_solver. by rewrite size_singleton. }
  assert (size (io_sockets W) ≠ 0%nat) as Hpos.
  { intros Hz. apply size_empty_inv in Hz. set_solver. }
  rewrite Hsz. repeat split; [|lia..].
  intros x [Hx _]%elem_of_difference. by apply Hsub.
Qed.

Lemma socket_disconnect_metrics_inv sid W :
  metrics_inv W → metrics_inv (socket_disconnect sid W).
Proof.
  intros Hinv. unfold socket_disconnect, io_sockets_get, socket_connected.
  case_bool_decide; [|done].
  destruct (sockets W !! sid); [|done]. by apply close_metrics_inv.
Qed.

Lemma removeUserFromPreviousSocket_metrics_inv u W :
  metrics_inv W → metrics_inv (removeUserFromPreviousSocket u W).
Proof.
  intros Hinv. unfold removeUserFromPreviousSocket.
  destruct (connectedUsers (mgr W) !! u) as [prev|]; [|done].
  apply (metrics_inv_frame
           (match io_sockets_get (socketId prev) W with
            | Some _ => socket_disconnect (socketId prev) W
            | None => W
            end)); [done..|].
  destruct (io_sockets_get (socketId prev) W); [|done].
  by apply socket_disconnect_metrics_inv.
Qed.

Lemma handle_metrics_inv e W :
  enabled e W = true → metrics_inv W → metrics_inv (handle e W).
Proof.
  intros He Hinv.
  event_cases e; cbn [handle].
  - destruct (initialize_frame W) as (_ & _ & _ & Hm & Hs & Hio).
    apply (metrics_inv_frame W); by rewrite ?Hs.
  - cbn in He. apply andb_true_iff in He as [_ Hfresh%bool_decide_eq_true].
    destruct Hinv as (Hsub & Htot & Hcur & Hdis). unfold metrics_inv.
    unfold active_connections, accepted_connections in *.
    rewrite handleConnection_connectionMetrics. cbn.
    apply not_elem_of_dom in Hfresh.
    rewrite dom_insert_L, !size_union, !size_singleton by set_solver.
    repeat split; [by apply union_mono_l|lia..].
  - destruct (handleAuthentication_cases clock toISOString sid data W)
      as [[msg ->]|(d & u & -> & Hu & Ht)]; [done|].
    destruct (handleAuthentication_ok clock toISOString sid d u W Hu Ht)
      as (_ & _ & _ & Hm & _ & _ & Hio & Hdom & _).
    apply (metrics_inv_frame (removeUserFromPreviousSocket u W)); [done..|].
    by apply removeUserFromPreviousSocket_metrics_inv.
  - destruct (handlePing_frame clock toISOString sid W) as (Hs & Hio).
    apply (metrics_inv_frame W); [|by rewrite ?Hs..|done].
    rewrite handlePing_mgr.
    destruct (userSockets (mgr W) !! sid) as [u|]; [|done].
    by destruct (truthy u && _).
  - destruct (handleJoinRoom_frame sid data W) as (_ & _ & Hm & _ & _ & Hio & Hdom).
    by apply (metrics_inv_frame W).
  - destruct (handleLeaveRoom_frame sid data W) as (_ & _ & Hm & _ & _ & Hio & Hdom).
    by apply (metrics_inv_frame W).
  - cbn in He. apply bool_decide_eq_true in He. by apply close_metrics_inv.
  - done.
  - destruct (sendToUser_frame clock toISOString SERVER_ID u ev data W)
      as (Hm & Hs & Hio).
    apply (metrics_inv_frame W); by rewrite ?Hm, ?Hs.
  - destruct (broadcast_frame clock toISOString SERVER_ID ev data W)
      as (Hm & Hs & Hio).
    apply (metrics_inv_frame W); by rewrite ?Hm, ?Hs.
Qed.

Lemma reachable_metrics_inv W : reachable W → metrics_inv W.
Proof.
  induction 1 as [|e W _ IH He].
  - unfold metrics_inv, active_connections, accepted_connections. cbn.
    rewrite dom_empty_L, size_empty. done.
  - by apply handle_metrics_inv.
Qed.
End Metrics.

(** ** Disconnection in full *)

Section Disconnection.
Variable clock : nat → Z.
Variable toISOString : Z → string.

#[local] Abbreviation handleDisconnection := (handleDisconnection clock toISOString).
#[local] Abbreviation socket_disconnect := (socket_disconnect clock toISOString).
#[local] Abbreviation removeUserFromPreviousSocket :=
  (removeUserFromPreviousSocket clock toISOString).
#[local] Abbreviation handleAuthentication := (handleAuthentication clock toISOString).

(** The world a disconnection of an authenticated socket leaves behind. *)
Lemma handleDisconnection_user sid reason u W :
  userSockets (mgr W) !! sid = Some u → truthy u = true →
  handleDisconnection sid reason W
  = mkWorld
      (mkManager (io (mgr W))
         (delete u (connectedUsers (mgr W)))
         (delete sid (userSockets (mgr W)))
         (leave_all_rooms sid u (rooms (mgr W))).1
         (isInitialized (mgr W))
         (mkMetrics (totalConnections (connectionMetrics (mgr W)))
                    (currentConnections (connectionMetrics (mgr W)) - 1)
                    (totalDisconnections (connectionMetrics (mgr W)) + 1)))
      (sockets W) (io_sockets W)
      ((outbox W ++ (leave_all_rooms sid u (rooms (mgr W))).2)
         ++ [user_status u "offline" (toISOString (clock (date_reads W)))])
      (hooks W ++ [mkHook "user_disconnected"
                     [("username", JStr u); ("reason", JStr reason);
                      ("socket", JStr sid)]])
      (S (date_reads W)).
Proof.
  intros Hu Ht. unfold handleDisconnection. cbn. rewrite Hu, Ht. cbn.
  by destruct (leave_all_rooms sid u (rooms (mgr W))).
Qed.

(** The world a disconnection of an unauthenticated socket leaves behind:
    only the counters move. *)
Lemma handleDisconnection_anonymous sid reason W :
  userSockets (mgr W) !! sid = None →
  handleDisconnection sid reason W
  = with_mgr (set_connectionMetrics (λ c,
      mkMetrics (totalConnections c) (currentConnections c - 1)
                (totalDisconnections c + 1))) W.
Proof. intros Hu. unfold handleDisconnection. cbn. by rewrite Hu. Qed.

Lemma handleDisconnection_cases sid reason W :
  (∃ u, userSockets (mgr W) !! sid = Some u ∧ truthy u = true)
  ∨ handleDisconnection sid reason W
    = with_mgr (set_connectionMetrics (λ c,
        mkMetrics (totalConnections c) (currentConnections c - 1)
                  (totalDisconnections c + 1))) W.
Proof.
  destruct (userSockets (mgr W) !! sid) as [u|] eqn:Hu.
  - destruct (truthy u) eqn:Ht; [left; eauto|].
    right. unfold handleDisconnection. cbn. by rewrite Hu, Ht.
  - right. by apply handleDisconnection_anonymous.
Qed.

(** *** The loop over the rooms *)

Lemma leave_all_rooms_out sid u entries :
  (leave_all_rooms sid u entries).2
  = user_left_room sid u <$> (filter (λ kv, u ∈ kv.2) entries).*1.
Proof.
  induction entries as [|[room users] rest IH]; [done|].
  cbn [leave_all_rooms]. destruct (leave_all_rooms sid u rest) as [rest' out].
  cbn in IH. rewrite filter_cons. unfold SSet.has.
  destruct (decide (u ∈ (room, users).2)) as [Hin|Hin]; cbn in Hin.
  - rewrite bool_decide_eq_true_2 by done. cbn. by rewrite IH.
  - rewrite bool_decide_eq_false_2 by done. done.
Qed.

Lemma leave_all_rooms_elem sid u entries room users :
  (room, users) ∈ (leave_all_rooms sid u entries).1 →
  (users ≠ [] ∧ u ∉ users) ∨ ((room, users) ∈ entries ∧ u ∉ users).
Proof.
  induction entries as [|[room0 users0] rest IH]; [by intros ?%elem_of_nil|].
  cbn [leave_all_rooms]. destruct (leave_all_rooms sid u rest) as [rest' out].
  cbn in IH. unfold SSet.has. case_bool_decide as Hin; cbn.
  - destruct (decide _) as [Hz|Hnz].
    + intros H. destruct (IH H) as [?|[? ?]]; [by left|].
      right. split; [by right | done].
    + intros [[= -> ->]|H]%elem_of_cons.
      * left. split; [|apply sset_not_elem_delete].
        intros Hnil. apply Hnz. unfold SSet.size. by rewrite Hnil.
      * destruct (IH H) as [?|[? ?]]; [by left|].
        right. split; [by right | done].
  - intros [[= -> ->]|H]%elem_of_cons.
    + right. split; [by left | done].
    + destruct (IH H) as [?|[? ?]]; [by left|].
      right. split; [by right | done].
Qed.

Lemma leave_all_rooms_not_member sid u entries room users :
  (room, users) ∈ (leave_all_rooms sid u entries).1 → u ∉ users.
Proof. intros H. apply leave_all_rooms_elem in H. tauto. Qed.

(** No room lists [u] once the loop is over. *)
Lemma handleDisconnection_leaves_every_room sid reason u W room :
  userSockets (mgr W) !! sid = Some u → truthy u = true →
  u ∉ getRoomUsers room (handleDisconnection sid reason W).
Proof.
  intros Hu Ht. rewrite (handleDisconnection_user _ _ _ _ Hu Ht).
  unfold getRoomUsers. cbn.
  destruct (OMap.get room _) as [users|] eqn:Hget.
  - apply omap_get_Some_elem, leave_all_rooms_not_member in Hget.
    by destruct (OMap.has _ _); [|apply not_elem_of_nil].
  - destruct (OMap.has _ _); apply not_elem_of_nil.
Qed.
End Disconnection.

(** ** The room directory *)

Section Rooms.
Variable clock : nat → Z.
Variable toISOString : Z → string.
Variable SERVER_ID : option string.

#[local] Abbreviation handleDisconnection := (handleDisconnection clock toISOString).
#[local] Abbreviation socket_disconnect := (socket_disconnect clock toISOString).
#[local] Abbreviation removeUserFromPreviousSocket :=
  (removeUserFromPreviousSocket clock toISOString).
#[local] Abbreviation handleAuthentication := (handleAuthentication clock toISOString).
#[local] Abbreviation handlePing := (handlePing clock toISOString).
#[local] Abbreviation handle := (handle clock toISOString SERVER_ID).
#[local] Abbreviation reachable := (reachable clock toISOString SERVER_ID).

Lemma handleJoinRoom_rooms sid data u W :
  socket_username sid W = Some u → truthy u = true →
  rooms (mgr (handleJoinRoom sid data W))
  = joined_rooms u (room_name data) (rooms (mgr W)).
Proof.
  intros Hu Ht. unfold handleJoinRoom, joined_rooms. rewrite Hu, Ht.
  unfold socket_join. destruct (socket_connected sid W); cbn;
    by destruct (OMap.has _ _).
Qed.

Lemma handleJoinRoom_unauthenticated sid data W :
  truthy_opt (socket_username sid W) = false →
  mgr (handleJoinRoom sid data W) = mgr W.
Proof.
  unfold handleJoinRoom. destruct (socket_username sid W) as [u|]; [|done].
  cbn. by intros ->.
Qed.

Lemma handleLeaveRoom_rooms sid data u W :
  socket_username sid W = Some u → truthy u = true →
  rooms (mgr (handleLeaveRoom sid data W))
  = left_rooms u (room_name data) (rooms (mgr W)).
Proof.
  intros Hu Ht. unfold handleLeaveRoom, left_rooms. rewrite Hu, Ht. cbn.
  destruct (OMap.has _ _); [|done]. cbn. by destruct (decide _).
Qed.

Lemma handleLeaveRoom_unauthenticated sid data W :
  truthy_opt (socket_username sid W) = false →
  handleLeaveRoom sid data W = W.
Proof.
  unfold handleLeaveRoom. destruct (socket_username sid W) as [u|]; [|done].
  cbn. by intros ->.
Qed.

Lemma handleJoinRoom_socket_username sid sid' data W :
  socket_username sid' (handleJoinRoom sid data W) = socket_username sid' W.
Proof.
  unfold handleJoinRoom.
  destruct (socket_username sid W) as [u|] eqn:Hu; [|done].
  destruct (truthy u); [|done]. unfold socket_username, socket_join.
  destruct (socket_connected sid W); cbn; destruct (OMap.has _ _); cbn;
    try done.
  all: destruct (decide (sid = sid')) as [->|Hne];
    [rewrite lookup_alter_eq; by destruct (sockets W !! sid')
    |by rewrite lookup_alter_ne].
Qed.

Lemma joined_rooms_get u room rs :
  OMap.get room (joined_rooms u room rs)
  = Some (SSet.add u (default [] (OMap.get room rs))).
Proof.
  unfold joined_rooms. rewrite omap_get_alter_eq.
  destruct (OMap.has room rs) eqn:Hhas.
  - apply omap_has_true in Hhas as [users ->]. done.
  - apply omap_has_false in Hhas. by rewrite omap_get_set_eq, Hhas.
Qed.

Lemma joined_rooms_has u room rs : OMap.has room (joined_rooms u room rs) = true.
Proof. apply omap_has_true. rewrite joined_rooms_get. eauto. Qed.

Lemma joined_rooms_idemp u room rs :
  joined_rooms u room (joined_rooms u room rs) = joined_rooms u room rs.
Proof.
  unfold joined_rooms at 1. rewrite joined_rooms_has.
  unfold joined_rooms. apply omap_alter_idemp, sset_add_idemp.
Qed.

Lemma left_rooms_not_member u room rs :
  u ∉ default [] (OMap.get room (left_rooms u room rs)).
Proof.
  unfold left_rooms. destruct (OMap.has room rs) eqn:Hhas.
  - cbn zeta. destruct (decide _).
    + rewrite omap_get_delete_eq. apply not_elem_of_nil.
    + rewrite omap_get_alter_eq.
      apply omap_has_true in Hhas as [users ->]. cbn.
      apply sset_not_elem_delete.
  - apply omap_has_false in Hhas. rewrite Hhas. apply not_elem_of_nil.
Qed.

Lemma joined_rooms_inv u room rs :
  (∀ r us, (r, us) ∈ rs → us ≠ []) →
  ∀ r us, (r, us) ∈ joined_rooms u room rs → us ≠ [].
Proof.
  intros Hinv r us. unfold joined_rooms.
  destruct (OMap.has room rs) eqn:Hhas.
  - intros [Hin|(v & _ & [= -> ->])]%omap_elem_alter; [by eapply Hinv|].
    apply sset_add_not_nil.
  - apply omap_has_false in Hhas.
    rewrite omap_set_fresh, omap_alter_app_fresh by done.
    intros [Hin|[= -> ->]%list_elem_of_singleton]%elem_of_app;
      [by eapply Hinv | apply sset_add_not_nil].
Qed.

Lemma left_rooms_inv u room rs :
  (∀ r us, (r, us) ∈ rs → us ≠ []) →
  ∀ r us, (r, us) ∈ left_rooms u room rs → us ≠ [].
Proof.
  intros Hinv r us. unfold left_rooms.
  destruct (OMap.has room rs) eqn:Hhas; [|by apply Hinv]. cbn zeta.
  destruct (decide _) as [Hz|Hnz].
  - intros [Hin Hne]%omap_elem_delete.
    apply omap_elem_alter in Hin as [Hin|(v & _ & [= -> ->])];
      [by eapply Hinv | done].
  - intros [Hin|(v & Hv & [= -> ->])]%omap_elem_alter; [by eapply Hinv|].
    rewrite omap_get_alter_eq, Hv in Hnz. cbn in Hnz.
    intros Hnil. apply Hnz. unfold SSet.size. by rewrite Hnil.
Qed.

Lemma handleDisconnection_rooms_inv sid reason W :
  rooms_inv W → rooms_inv (handleDisconnection sid reason W).
Proof.
  intros Hinv.
  destruct (handleDisconnection_cases clock toISOString sid reason W)
    as [(u & Hu & Ht)| ->]; [|done].
  rewrite (handleDisconnection_user _ _ _ _ _ _ Hu Ht).
  intros r us Hin. cbn in Hin.
  apply leave_all_rooms_elem in Hin as [[? _]|[Hin _]]; [done|].
  by eapply Hinv.
Qed.

Lemma removeUserFromPreviousSocket_rooms_inv u W :
  rooms_inv W → rooms_inv (removeUserFromPreviousSocket u W).
Proof.
  intros Hinv. unfold removeUserFromPreviousSocket.
  destruct (connectedUsers (mgr W) !! u) as [prev|]; [|done].
  intros r us. cbn.
  destruct (io_sockets_get (socketId prev) W); [|apply Hinv].
  unfold socket_disconnect.
  destruct (io_sockets_get (socketId prev) W); [|apply Hinv].
  by apply handleDisconnection_rooms_inv.
Qed.

Lemma handle_rooms_inv e W : rooms_inv W → rooms_inv (handle e W).
Proof.
  intros Hinv. event_cases e; cbn [handle].
  - destruct (initialize_frame W) as (_ & _ & Hr & _).
    unfold rooms_inv. by rewrite Hr.
  - done.
  - destruct (handleAuthentication_cases clock toISOString sid data W)
      as [[msg ->]|(d & u & -> & Hu & Ht)]; [done|].
    destruct (handleAuthentication_ok clock toISOString sid d u W Hu Ht)
      as (_ & _ & Hr & _).
    unfold rooms_inv. rewrite Hr.
    by apply removeUserFromPreviousSocket_rooms_inv.
  - unfold rooms_inv. rewrite handlePing_mgr.
    destruct (userSockets (mgr W) !! sid) as [u|]; [|done].
    by destruct (truthy u && _).
  - destruct (socket_username sid W) as [u|] eqn:Hu.
    + destruct (truthy u) eqn:Ht.
      * unfold rooms_inv. rewrite (handleJoinRoom_rooms _ _ _ _ Hu Ht).
        by apply joined_rooms_inv.
      * unfold rooms_inv. rewrite handleJoinRoom_unauthenticated; [done|].
        by rewrite Hu.
    + unfold rooms_inv. rewrite handleJoinRoom_unauthenticated; [done|].
      by rewrite Hu.
  - destruct (socket_username sid W) as [u|] eqn:Hu.
    + destruct (truthy u) eqn:Ht.
      * unfold rooms_inv. rewrite (handleLeaveRoom_rooms _ _ _ _ Hu Ht).
        by apply left_rooms_inv.
      * rewrite handleLeaveRoom_unauthenticated; [done|]. by rewrite Hu.
    + rewrite handleLeaveRoom_unauthenticated; [done|]. by rewrite Hu.
  - by apply handleDisconnection_rooms_inv.
  - done.
  - destruct (sendToUser_frame clock toISOString SERVER_ID u ev data W) as (Hm & _).
    unfold rooms_inv. by rewrite Hm.
  - destruct (broadcast_frame clock toISOString SERVER_ID ev data W) as (Hm & _).
    unfold rooms_inv. by rewrite Hm.
Qed.

Lemma reachable_rooms_inv W : reachable W → rooms_inv W.
Proof.
  induction 1 as [|e W _ IH _].
  - intros r us Hin. by apply elem_of_nil in Hin.
  - by apply handle_rooms_inv.
Qed.

(** *** Room names stay unique *)

Lemma leave_all_rooms_keys_sublist sid u entries :
  OMap.keys (leave_all_rooms sid u entries).1 `sublist_of` OMap.keys entries.
Proof.
  unfold OMap.keys. induction entries as [|[room0 users0] rest IH]; [done|].
  cbn [leave_all_rooms]. destruct (leave_all_rooms sid u rest) as [rest' out].
  cbn [fst] in IH. rewrite fmap_cons. cbn [fst].
  destruct (SSet.has u users0); cbn [fst].
  - destruct (decide _).
    + by apply sublist_cons.
    + rewrite fmap_cons. by apply sublist_skip.
  - rewrite fmap_cons. by apply sublist_skip.
Qed.

Lemma joined_rooms_keys_nodup u room rs :
  NoDup (OMap.keys rs) → NoDup (OMap.keys (joined_rooms u room rs)).
Proof.
  intros Hnd. unfold joined_rooms. rewrite omap_keys_alter.
  destruct (OMap.has room rs) eqn:Hhas; [done|].
  apply omap_has_false in Hhas. rewrite omap_set_fresh by done.
  unfold OMap.keys. rewrite fmap_app. apply NoDup_app.
  split; [done|]. split; [|apply NoDup_singleton].
  intros r Hr Hr'. cbn in Hr'. apply list_elem_of_singleton in Hr' as ->.
  apply omap_elem_keys_get in Hr as [? ?]. congruence.
Qed.

Lemma left_rooms_keys_nodup u room rs :
  NoDup (OMap.keys rs) → NoDup (OMap.keys (left_rooms u room rs)).
Proof.
  intros Hnd. unfold left_rooms. destruct (OMap.has room rs); [|done].
  cbn zeta. destruct (decide _); [|by rewrite omap_keys_alter].
  apply (sublist_NoDup _ (OMap.keys (OMap.alter (SSet.delete u) room rs)));
    [by rewrite omap_keys_alter|].
  unfold OMap.keys, OMap.delete. apply fmap_sublist, sublist_filter.
Qed.

Lemma handleDisconnection_rooms_keys_inv sid reason W :
  rooms_keys_inv W → rooms_keys_inv (handleDisconnection sid reason W).
Proof.
  intros Hinv. unfold rooms_keys_inv.
  destruct (handleDisconnection_cases clock toISOString sid reason W)
    as [(u & Hu & Ht)| ->]; [|done].
  rewrite (handleDisconnection_user _ _ _ _ _ _ Hu Ht). cbn.
  eapply sublist_NoDup; [exact Hinv|apply leave_all_rooms_keys_sublist].
Qed.

Lemma removeUserFromPreviousSocket_rooms_keys_inv u W :
  rooms_keys_inv W → rooms_keys_inv (removeUserFromPreviousSocket u W).
Proof.
  intros Hinv. unfold removeUserFromPreviousSocket.
  destruct (connectedUsers (mgr W) !! u) as [prev|]; [|done].
  unfold rooms_keys_inv. cbn.
  destruct (io_sockets_get (socketId prev) W); [|apply Hinv].
  unfold socket_disconnect.
  destruct (io_sockets_get (socketId prev) W); [|apply Hinv].
  by apply handleDisconnection_rooms_keys_inv.
Qed.

Lemma handle_rooms_keys_inv e W : rooms_keys_inv W → rooms_keys_inv (handle e W).
Proof.
  intros Hinv. event_cases e; cbn [handle].
  - destruct (initialize_frame W) as (_ & _ & Hr & _).
    unfold rooms_keys_inv. by rewrite Hr.
  - done.
  - destruct (handleAuthentication_cases clock toISOString sid data W)
      as [[msg ->]|(d & u & -> & Hu & Ht)]; [done|].
    destruct (handleAuthentication_ok clock toISOString sid d u W Hu Ht)
      as (_ & _ & Hr & _).
    unfold rooms_keys_inv. rewrite Hr.
    by apply removeUserFromPreviousSocket_rooms_keys_inv.
  - unfold rooms_keys_inv. rewrite handlePing_mgr.
    destruct (userSockets (mgr W) !! sid) as [u|]; [|done].
    by destruct (truthy u && _).
  - destruct (socket_username sid W) as [u|] eqn:Hu.
    + destruct (truthy u) eqn:Ht.
      * unfold rooms_keys_inv. rewrite (handleJoinRoom_rooms _ _ _ _ Hu Ht).
        by apply joined_rooms_keys_nodup.
      * unfold rooms_keys_inv. rewrite handleJoinRoom_unauthenticated; [done|].
        by rewrite Hu.
    + unfold rooms_keys_inv. rewrite handleJoinRoom_unauthenticated; [done|].
      by rewrite Hu.
  - destruct (socket_username sid W) as [u|] eqn:Hu.
    + destruct (truthy u) eqn:Ht.
      * unfold rooms_keys_inv. rewrite (handleLeaveRoom_rooms _ _ _ _ Hu Ht).
        by apply left_rooms_keys_nodup.
      * rewrite handleLeaveRoom_unauthenticated; [done|]. by rewrite Hu.
    + rewrite handleLeaveRoom_unauthenticated; [done|]. by rewrite Hu.
  - by apply handleDisconnection_rooms_keys_inv.
  - done.
  - destruct (sendToUser_frame clock toISOString SERVER_ID u ev data W) as (Hm & _).
    unfold rooms_keys_inv. by rewrite Hm.
  - destruct (broadcast_frame clock toISOString SERVER_ID ev data W) as (Hm & _).
    unfold rooms_keys_inv. by rewrite Hm.
Qed.

Lemma reachable_rooms_keys_inv W : reachable W → rooms_keys_inv W.
Proof.
  induction 1 as [|e W _ IH _].
  - apply NoDup_nil_2.
  - by apply handle_rooms_keys_inv.
Qed.

(** The last member of a room is purged: the name goes with it. *)
Lemma leave_all_rooms_last_member sid u entries room :
  NoDup (OMap.keys entries) → OMap.get room entries = Some [u] →
  room ∉ OMap.keys (leave_all_rooms sid u entries).1.
Proof.
  induction entries as [|[room0 users0] rest IH]; [done|].
  unfold OMap.keys in *. rewrite fmap_cons. cbn [fst].
  intros [Hnotin Hnd]%NoDup_cons. cbn [OMap.get].
  pose proof (leave_all_rooms_keys_sublist sid u rest) as Hsub.
  cbn [leave_all_rooms]. destruct (leave_all_rooms sid u rest) as [rest' out].
  cbn [fst] in *. destruct (decide (room0 = room)) as [->|Hne].
  - intros [= ->]. unfold SSet.has.
    rewrite bool_decide_eq_true_2 by left. cbn [fst].
    assert (SSet.delete u [u] = []) as ->.
    { unfold SSet.delete. rewrite filter_cons, decide_False; [done|].
      intros H. by apply H. }
    cbn. intros Hin. apply Hnotin. eapply elem_of_sublist; [exact Hin|done].
  - intros Hget. specialize (IH Hnd Hget).
    destruct (SSet.has u users0); cbn [fst].
    + destruct (decide _); [done|].
      rewrite fmap_cons. cbn [fst]. rewrite not_elem_of_cons. done.
    + rewrite fmap_cons. cbn [fst]. rewrite not_elem_of_cons. done.
Qed.
End Rooms.

(** ** Nothing happens before [initialize] *)

Section Initialized.
Variable clock : nat → Z.
Variable toISOString : Z → string.
Variable SERVER_ID : option string.

Lemma handleDisconnection_flags sid reason W :
  io (mgr (handleDisconnection clock toISOString sid reason W)) = io (mgr W)
  ∧ isInitialized (mgr (handleDisconnection clock toISOString sid reason W))
    = isInitialized (mgr W).
Proof.
  destruct (handleDisconnection_cases clock toISOString sid reason W)
    as [(u & Hu & Ht)| ->]; [|done].
  by rewrite (handleDisconnection_user _ _ _ _ _ _ Hu Ht).
Qed.

Lemma removeUserFromPreviousSocket_flags u W :
  io (mgr (removeUserFromPreviousSocket clock toISOString u W)) = io (mgr W)
  ∧ isInitialized (mgr (removeUserFromPreviousSocket clock toISOString u W))
    = isInitialized (mgr W).
Proof.
  unfold removeUserFromPreviousSocket.
  destruct (connectedUsers (mgr W) !! u) as [prev|]; [|done]. cbn.
  destruct (io_sockets_get (socketId prev) W); [|done].
  unfold socket_disconnect.
  destruct (io_sockets_get (socketId prev) W); [|done].
  apply (handleDisconnection_flags _ _ (sio_close (socketId prev) W)).
Qed.

(** Every event but [initialize] leaves the two flags alone. *)
Lemma handle_flags e W :
  e ≠ EvInitialize →
  io (mgr (handle clock toISOString SERVER_ID e W)) = io (mgr W)
  ∧ isInitialized (mgr (handle clock toISOString SERVER_ID e W))
    = isInitialized (mgr W).
Proof.
  intros He. event_cases e; cbn [handle]; [done|..].
  - done.
  - destruct (handleAuthentication_cases clock toISOString sid data W)
      as [[msg ->]|(d & u & -> & Hu & Ht)]; [done|].
    destruct (handleAuthentication_ok clock toISOString sid d u W Hu Ht)
      as (_ & _ & _ & _ & Hio & Hinit & _).
    rewrite Hio, Hinit. apply removeUserFromPreviousSocket_flags.
  - rewrite handlePing_mgr.
    destruct (userSockets (mgr W) !! sid) as [u|]; [|done].
    by destruct (truthy u && _).
  - by destruct (handleJoinRoom_frame sid data W) as (_ & _ & _ & -> & -> & _).
  - by destruct (handleLeaveRoom_frame sid data W) as (_ & _ & _ & -> & -> & _).
  - apply (handleDisconnection_flags sid reason (sio_close sid W)).
  - done.
  - by destruct (sendToUser_frame clock toISOString SERVER_ID u ev data W)
      as (-> & _).
  - by destruct (broadcast_frame clock toISOString SERVER_ID ev data W)
      as (-> & _).
Qed.

Lemma enabled_initialized e W :
  init_inv W → e ≠ EvInitialize →
  (∀ u ev data, e ≠ EvSendToUser u ev data) → (∀ ev data, e ≠ EvBroadcast ev data) →
  enabled e W = true → isInitialized (mgr W) = true.
Proof.
  intros [Heq Hempty] He Hs Hb Hen.
  destruct (isInitialized (mgr W)) eqn:Hinit; [done|].
  destruct (Hempty eq_refl) as [_ Hlive].
  event_cases e; cbn in Hen;
    try done; try (by edestruct Hs); try (by edestruct Hb).
  1: { apply andb_true_iff in Hen as [Hio%bool_decide_eq_true _].
       unfold getIO in Hio. rewrite Hinit in Hio. cbn in Hio.
       by destruct Hio. }
  all: unfold socket_connected in Hen; apply bool_decide_eq_true in Hen;
    rewrite Hlive in Hen; by apply not_elem_of_empty in Hen.
Qed.

Lemma handle_init_inv e W :
  enabled e W = true → init_inv W → init_inv (handle clock toISOString SERVER_ID e W).
Proof.
  intros Hen Hinv.
  assert (e = EvInitialize
          ∨ (∃ u ev data, e = EvSendToUser u ev data)
          ∨ (∃ ev data, e = EvBroadcast ev data)
          ∨ (e ≠ EvInitialize ∧ isInitialized (mgr W) = true)) as Hcase.
  { destruct e; eauto 6; do 3 right; (split; [done|]);
      by apply enabled_initialized in Hen. }
  destruct Hinv as [Heq Hempty].
  destruct Hcase as [->|[(u & ev & data & ->)|[(ev & data & ->)|[He Ht]]]];
    cbn [handle].
  - unfold initialize.
    destruct (isInitialized (mgr W)) eqn:Hinit.
    + unfold init_inv. rewrite Hinit. by split.
    + split; [done|]. cbn. done.
  - destruct (sendToUser_frame clock toISOString SERVER_ID u ev data W)
      as (Hm & _ & Hlive).
    unfold init_inv. by rewrite Hm, Hlive.
  - destruct (broadcast_frame clock toISOString SERVER_ID ev data W)
      as (Hm & _ & Hlive).
    unfold init_inv. by rewrite Hm, Hlive.
  - destruct (handle_flags e W He) as [Hio Hinit].
    split; [congruence|]. rewrite Hinit, Ht. done.
Qed.

Lemma reachable_init_inv W :
  reachable clock toISOString SERVER_ID W → init_inv W.
Proof.
  induction 1 as [|e W _ IH He].
  - split; [done|]. done.
  - by apply handle_init_inv.
Qed.

(** Where an identity is online, the server has been initialised. *)
Lemma reachable_online_getIO W u :
  reachable clock toISOString SERVER_ID W →
  is_Some (connectedUsers (mgr W) !! u) → getIO W = Some ().
Proof.
  intros [Heq Hempty]%reachable_init_inv [info Hinfo]. unfold getIO.
  destruct (isInitialized (mgr W)) eqn:Hinit.
  - by rewrite <- Heq.
  - destruct (Hempty eq_refl) as [HCU _]. rewrite HCU in Hinfo.
    by rewrite lookup_empty in Hinfo.
Qed.
End Initialized.

(** ** The loop of [handleDisconnection], entry by entry and key by key *)

Section LoopByKey.
Implicit Types (rs pre suf : list (string * list string)).

Lemma omap_get_app_fresh {V} k (pre suf : list (string * V)) :
  k ∉ OMap.keys pre → OMap.get k (pre ++ suf) = OMap.get k suf.
Proof.
  unfold OMap.keys. induction pre as [|[k' v'] pre IH]; [done|].
  rewrite fmap_cons. cbn [fst]. intros [Hne Hnotin]%not_elem_of_cons.
  cbn. rewrite decide_False by done. by apply IH.
Qed.

Lemma omap_alter_app_fresh_l {V} (f : V → V) k (pre suf : list (string * V)) :
  k ∉ OMap.keys pre →
  OMap.alter f k (pre ++ suf) = pre ++ OMap.alter f k suf.
Proof.
  unfold OMap.keys. induction pre as [|[k' v'] pre IH]; [done|].
  rewrite fmap_cons. cbn [fst]. intros [Hne Hnotin]%not_elem_of_cons.
  cbn. rewrite decide_False by done. by rewrite IH.
Qed.

Lemma omap_delete_fresh {V} k (m : list (string * V)) :
  k ∉ OMap.keys m → OMap.delete k m = m.
Proof.
  unfold OMap.keys, OMap.delete. induction m as [|[k' v'] m IH]; [done|].
  rewrite fmap_cons. cbn [fst]. intros [Hne Hnotin]%not_elem_of_cons.
  rewrite filter_cons, decide_True by (cbn; congruence). by rewrite IH.
Qed.

Lemma omap_delete_middle {V} k v (pre suf : list (string * V)) :
  k ∉ OMap.keys pre → k ∉ OMap.keys suf →
  OMap.delete k (pre ++ (k, v) :: suf) = pre ++ suf.
Proof.
  intros Hpre Hsuf. unfold OMap.delete. rewrite filter_app, filter_cons.
  rewrite decide_False by (cbn; intros H; by apply H).
  fold (OMap.delete k pre) (OMap.delete k suf).
  by rewrite !omap_delete_fresh.
Qed.

(** With unique room names, visiting the entries and working on the
    directory by key gives what [leave_all_rooms] computes. *)
Lemma leave_all_rooms_by_key_from sid u pre suf out :
  NoDup (OMap.keys (pre ++ suf)) →
  fold_left (leave_room_step sid u) suf (pre ++ suf, out)
  = (pre ++ (leave_all_rooms sid u suf).1,
     out ++ (leave_all_rooms sid u suf).2).
Proof.
  revert pre out. induction suf as [|[room users] rest IH]; intros pre out Hnd.
  - cbn. by rewrite !app_nil_r.
  - unfold OMap.keys in Hnd. rewrite fmap_app, fmap_cons in Hnd. cbn [fst] in Hnd.
    apply NoDup_app in Hnd as (Hndpre & Hdisj & Hndsuf).
    apply NoDup_cons in Hndsuf as [Hrest Hndrest].
    assert (room ∉ OMap.keys pre) as Hpre.
    { intros Hin. apply (Hdisj _ Hin). left. }
    cbn [fold_left leave_all_rooms].
    destruct (leave_all_rooms sid u rest) as [rest' out'] eqn:Hrec.
    unfold leave_room_step at 2. cbn [fst snd].
    rewrite omap_get_app_fresh by done. cbn [OMap.get].
    rewrite (decide_True (P := room = room)) by done.
    destruct (SSet.has u users) eqn:Hhas; cbn [fst snd].
    + rewrite omap_alter_app_fresh_l by done. cbn [OMap.alter].
      rewrite (decide_True (P := room = room)) by done.
      rewrite omap_get_app_fresh by done. cbn [OMap.get].
      rewrite (decide_True (P := room = room)) by done.
      cbn [default from_option]. unfold id.
      destruct (decide (SSet.size (SSet.delete u users) = 0%nat)) as [Hz|Hnz].
      * rewrite omap_delete_middle by done.
        rewrite IH; cbn [fst snd].
        -- by rewrite <- (assoc_L (++)).
        -- unfold OMap.keys. rewrite fmap_app. apply NoDup_app.
           split; [done|]. split; [|done].
           intros x Hx Hx'. apply (Hdisj x Hx). by right.
      * rewrite (cons_middle _ pre rest), (assoc_L (++)).
        rewrite IH; cbn [fst snd].
        -- by rewrite <- !(assoc_L (++)).
        -- unfold OMap.keys. rewrite !fmap_app, <- (assoc_L (++)). cbn.
           apply NoDup_app. split; [done|]. split.
           ++ intros x Hx Hx'. by apply (Hdisj x Hx).
           ++ by apply NoDup_cons.
    + rewrite (cons_middle _ pre rest), (assoc_L (++)).
      rewrite IH; cbn [fst snd].
      * by rewrite <- !(assoc_L (++)).
      * unfold OMap.keys. rewrite !fmap_app, <- (assoc_L (++)). cbn.
        apply NoDup_app. split; [done|]. split.
        -- intros x Hx Hx'. by apply (Hdisj x Hx).
        -- by apply NoDup_cons.
Qed.

Lemma leave_all_rooms_by_key_eq sid u rs :
  NoDup (OMap.keys rs) →
  leave_all_rooms_by_key sid u rs = leave_all_rooms sid u rs.
Proof.
  intros Hnd. unfold leave_all_rooms_by_key.
  pose proof (leave_all_rooms_by_key_from sid u [] rs [] Hnd) as Heq.
  cbn [app] in Heq. rewrite Heq.
  by destruct (leave_all_rooms sid u rs).
Qed.
End LoopByKey.

(** In every reachable state the two readings of the loop agree. *)
Lemma reachable_leave_all_rooms_by_key clock toISOString SERVER_ID sid u W :
  reachable clock toISOString SERVER_ID W →
  leave_all_rooms_by_key sid u (rooms (mgr W))
  = leave_all_rooms sid u (rooms (mgr W)).
Proof.
  intros Hreach. apply leave_all_rooms_by_key_eq.
  by apply (reachable_rooms_keys_inv clock toISOString SERVER_ID).
Qed.

(** ** Concrete runs are reachable *)

Lemma demo_run_reachable tr W :
  run Demo.clock Demo.toISOString Demo.SERVER_ID tr constructor = Some W →
  reachable Demo.clock Demo.toISOString Demo.SERVER_ID W.
Proof. apply run_reachable. constructor. Qed.

Lemma one_anonymous_reachable :
  reachable Demo.clock Demo.toISOString Demo.SERVER_ID Demo.one_anonymous.
Proof. apply (demo_run_reachable [EvInitialize; EvConnection "s1"]). by vm_compute. Qed.

Lemma two_names_reachable :
  reachable Demo.clock Demo.toISOString Demo.SERVER_ID Demo.two_names.
Proof.
  apply (demo_run_reachable
           [EvInitialize; EvConnection "s1";
            EvAuthenticate "s1" (Demo.as_user "alice");
            EvAuthenticate "s1" (Demo.as_user "bob")]).
  by vm_compute.
Qed.

Lemma alice_and_s2_reachable :
  reachable Demo.clock Demo.toISOString Demo.SERVER_ID Demo.alice_and_s2.
Proof.
  apply (demo_run_reachable
           [EvInitialize; EvConnection "s1";
            EvAuthenticate "s1" (Demo.as_user "alice");
            EvJoinRoom "s1" (mkRoomData "lobby" None);
            EvConnection "s2"]).
  by vm_compute.
Qed.

(** ** C1: one connection per identity *)

Section Claim_C1.
Variable clock : nat → Z.
Variable toISOString : Z → string.
Variable SERVER_ID : option string.

Lemma removeUserFromPreviousSocket_supersedes u prev W :
  connectedUsers (mgr W) !! u = Some prev →
  socket_connected (socketId prev) W = true →
  is_Some (sockets W !! socketId prev) →
  let W1 := removeUserFromPreviousSocket clock toISOString u W in
  socket_connected (socketId prev) W1 = false
  ∧ userSockets (mgr W1) !! socketId prev = None.
Proof.
  intros Hprev Hlive [sock Hsock]. cbn zeta.
  assert (io_sockets_get (socketId prev) W = Some sock) as Hget.
  { unfold io_sockets_get. by rewrite Hlive. }
  unfold removeUserFromPreviousSocket, socket_disconnect.
  rewrite Hprev, Hget.
  split; [|apply lookup_delete_eq].
  unfold socket_connected. cbn [io_sockets with_mgr].
  rewrite handleDisconnection_io_sockets. cbn [io_sockets sio_close with_io_sockets].
  apply bool_decide_eq_false. intros [_ Hn]%elem_of_difference.
  apply Hn. by apply elem_of_singleton.
Qed.

(** C1. In every reachable state an identity is bound to at most one
    connection, by [connectedUsers] and [userSockets] together.  A
    successful [authenticate] for [u] on [sid] first runs
    [removeUserFromPreviousSocket]: if [u] had a session on another,
    connected socket, that socket is closed and its [userSockets] entry is
    gone before the new binding is written; afterwards both maps bind [u]
    to [sid] and to no other connection. *)
Theorem C1_one_connection_per_identity W :
  reachable clock toISOString SERVER_ID W →
  (∀ u s1 s2, bound W u s1 → bound W u s2 → s1 = s2)
  ∧ ∀ sid d u,
      auth_username d = Some u → truthy u = true →
      let W1 := removeUserFromPreviousSocket clock toISOString u W in
      let W' := handleAuthentication clock toISOString sid (Some d) W in
      (∀ prev, connectedUsers (mgr W) !! u = Some prev →
               socketId prev ≠ sid →
               socket_connected (socketId prev) W = true →
               (socket_connected (socketId prev) W1 = false
                ∧ userSockets (mgr W1) !! socketId prev = None)
               ∧ socket_connected (socketId prev) W' = false
               ∧ userSockets (mgr W') !! socketId prev = None
               ∧ ¬ bound W' u (socketId prev))
      ∧ (∃ info, connectedUsers (mgr W') !! u = Some info ∧ socketId info = sid)
      ∧ userSockets (mgr W') !! sid = Some u
      ∧ ∀ s, bound W' u s ↔ s = sid.
Proof.
  intros Hreach.
  pose proof (reachable_registry_inv _ _ _ _ Hreach) as Hreg.
  pose proof (reachable_metrics_inv _ _ _ _ Hreach) as (Hsub & _).
  split; [intros u s1 s2; by apply registry_inv_bound_unique|].
  intros sid d u Hu Ht W1 W'.
  destruct (handleAuthentication_ok clock toISOString sid d u W Hu Ht)
    as ((ud & HCU) & HUS & _ & _ & _ & _ & Hio & _).
  fold W1 W' in HCU, HUS, Hio.
  assert (registry_inv W') as Hreg'
    by by apply handleAuthentication_registry_inv.
  assert (bound W' u sid) as Hb.
  { left. rewrite HCU, lookup_insert_eq. eauto. }
  assert (∀ s, bound W' u s ↔ s = sid) as Honly.
  { intros s. split; [|by intros ->].
    intros Hs. by apply (registry_inv_bound_unique W' u). }
  split; [|split; [|split]].
  - intros prev Hprev Hne Hlive.
    assert (is_Some (sockets W !! socketId prev)) as Hsock.
    { apply elem_of_dom, Hsub. by apply bool_decide_eq_true in Hlive. }
    destruct (removeUserFromPreviousSocket_supersedes u prev W Hprev Hlive Hsock)
      as [Hclosed Hgone].
    fold W1 in Hclosed, Hgone.
    split; [done|]. split; [|split].
    + unfold socket_connected in *. by rewrite Hio.
    + rewrite HUS, lookup_insert_ne by done. done.
    + intros Hb'. apply Honly in Hb'. done.
  - rewrite HCU, lookup_insert_eq. eauto.
  - by rewrite HUS, lookup_insert_eq.
  - done.
Qed.
End Claim_C1.

Lemma C1_one_connection_per_identity_witness :
  reachable Demo.clock Demo.toISOString Demo.SERVER_ID Demo.alice_and_s2
  ∧ ∀ u s1 s2, bound Demo.alice_and_s2 u s1 → bound Demo.alice_and_s2 u s2 →
               s1 = s2.
Proof.
  split; [exact alice_and_s2_reachable|].
  exact (proj1 (C1_one_connection_per_identity Demo.clock Demo.toISOString
                  Demo.SERVER_ID Demo.alice_and_s2 alice_and_s2_reachable)).
Defined.

(** ** C2: the connection counters and the metrics snapshot *)

(** C2, as claimed, fails.  With one socket accepted and nobody
    authenticated the snapshot reports [currentConnections = 0] for one
    active connection; with one socket authenticated under two names it
    reports [currentConnections = 2] against [totalConnections = 1]. *)
Lemma C2_snapshot_counterexample :
  (reachable Demo.clock Demo.toISOString Demo.SERVER_ID Demo.one_anonymous
   ∧ Snapshot.currentConnections (getConnectionMetrics Demo.one_anonymous) = 0
   ∧ active_connections Demo.one_anonymous = 1%nat)
  ∧ (reachable Demo.clock Demo.toISOString Demo.SERVER_ID Demo.two_names
     ∧ Snapshot.totalConnections (getConnectionMetrics Demo.two_names) = 1
     ∧ Snapshot.currentConnections (getConnectionMetrics Demo.two_names) = 2
     ∧ active_connections Demo.two_names = 1%nat)
  ∧ ¬ (∀ W, reachable Demo.clock Demo.toISOString Demo.SERVER_ID W →
            Snapshot.totalConnections (getConnectionMetrics W)
              >= Snapshot.currentConnections (getConnectionMetrics W)
            ∧ Snapshot.currentConnections (getConnectionMetrics W)
              = Z.of_nat (active_connections W)).
Proof.
  split; [|split].
  - split; [exact one_anonymous_reachable|]. split; by vm_compute.
  - split; [exact two_names_reachable|]. repeat split; by vm_compute.
  - intros Hall. destruct (Hall _ one_anonymous_reachable) as [_ Heq].
    vm_compute in Heq. discriminate.
Qed.

Section Claim_C2.
Variable clock : nat → Z.
Variable toISOString : Z → string.
Variable SERVER_ID : option string.

(** C2, amended.  In every reachable state the counters kept in
    [connectionMetrics] satisfy [totalConnections >= currentConnections],
    and the counter [currentConnections] is the number of connections
    accepted and not yet disconnected, authenticated or not; a connect
    adds one to [totalConnections] and to [currentConnections], a
    disconnect takes one from [currentConnections] (and adds one to
    [totalDisconnections]).  The snapshot of [getConnectionMetrics] copies
    [totalConnections] and [totalDisconnections] but reports as
    [currentConnections] the size of [connectedUsers]. *)
Theorem C2_counters_and_snapshot W :
  reachable clock toISOString SERVER_ID W →
  totalConnections (connectionMetrics (mgr W))
    >= currentConnections (connectionMetrics (mgr W))
  ∧ currentConnections (connectionMetrics (mgr W))
    = Z.of_nat (active_connections W)
  ∧ (∀ sid,
       connectionMetrics (mgr (handle clock toISOString SERVER_ID
                                 (EvConnection sid) W))
       = mkMetrics (totalConnections (connectionMetrics (mgr W)) + 1)
                   (currentConnections (connectionMetrics (mgr W)) + 1)
                   (totalDisconnections (connectionMetrics (mgr W))))
  ∧ (∀ sid reason,
       connectionMetrics (mgr (handle clock toISOString SERVER_ID
                                 (EvDisconnect sid reason) W))
       = mkMetrics (totalConnections (connectionMetrics (mgr W)))
                   (currentConnections (connectionMetrics (mgr W)) - 1)
                   (totalDisconnections (connectionMetrics (mgr W)) + 1))
  ∧ Snapshot.totalConnections (getConnectionMetrics W)
    = totalConnections (connectionMetrics (mgr W))
  ∧ Snapshot.totalDisconnections (getConnectionMetrics W)
    = totalDisconnections (connectionMetrics (mgr W))
  ∧ Snapshot.currentConnections (getConnectionMetrics W)
    = Z.of_nat (size (connectedUsers (mgr W))).
Proof.
  intros Hreach.
  destruct (reachable_metrics_inv _ _ _ _ Hreach) as (Hsub & Htot & Hcur & Hdis).
  split; [|split; [done|split; [|split]]].
  - rewrite Htot, Hcur. unfold accepted_connections, active_connections.
    apply subseteq_size in Hsub. lia.
  - intros sid. cbn [handle]. by rewrite handleConnection_connectionMetrics.
  - intros sid reason. cbn [handle].
    by rewrite handleDisconnection_connectionMetrics.
  - done.
Qed.
End Claim_C2.

Lemma C2_counters_and_snapshot_witness :
  reachable Demo.clock Demo.toISOString Demo.SERVER_ID Demo.alice_and_s2
  ∧ totalConnections (connectionMetrics (mgr Demo.alice_and_s2))
    >= currentConnections (connectionMetrics (mgr Demo.alice_and_s2))
  ∧ currentConnections (connectionMetrics (mgr Demo.alice_and_s2))
    = Z.of_nat (active_connections Demo.alice_and_s2).
Proof.
  split; [exact alice_and_s2_reachable|].
  pose proof (C2_counters_and_snapshot Demo.clock Demo.toISOString
                Demo.SERVER_ID Demo.alice_and_s2 alice_and_s2_reachable)
    as (H1 & H2 & _).
  exact (conj H1 H2).
Defined.

(** ** C3: a rejected authentication changes nothing *)

Section Claim_C3.
Variable clock : nat → Z.
Variable toISOString : Z → string.

(** C3. When the payload of [authenticate] is absent, or its [username]
    is absent or empty, the handler sends one [authentication_error]
    packet to the calling socket and does nothing else: the manager
    ([connectedUsers], [userSockets], [rooms], [connectionMetrics]), the
    sockets and the manager's own events are as before.  The socket stays
    connected with the identity it had, [authenticate] stays enabled, and
    a retry with a proper name binds that name to the socket. *)
Theorem C3_rejected_authentication sid data W :
  data = None
  ∨ (∃ d, data = Some d
          ∧ (auth_username d = None ∨ auth_username d = Some "")) →
  let W' := handleAuthentication clock toISOString sid data W in
  (∃ msg, outbox W'
          = outbox W ++ [mkEmission (SocketEmit sid) "authentication_error"
                           [("error", JStr msg)]])
  ∧ mgr W' = mgr W
  ∧ sockets W' = sockets W
  ∧ io_sockets W' = io_sockets W
  ∧ hooks W' = hooks W
  ∧ (∀ data', enabled (EvAuthenticate sid data') W'
              = enabled (EvAuthenticate sid data') W)
  ∧ userSockets (mgr W') !! sid = userSockets (mgr W) !! sid
  ∧ socket_username sid W' = socket_username sid W
  ∧ ∀ d' u, auth_username d' = Some u → truthy u = true →
      let W'' := handleAuthentication clock toISOString sid (Some d') W' in
      (∃ info, connectedUsers (mgr W'') !! u = Some info ∧ socketId info = sid)
      ∧ userSockets (mgr W'') !! sid = Some u.
Proof.
  intros Hbad. cbn zeta.
  destruct (handleAuthentication_reject clock toISOString sid data W)
    as [msg ->].
  { destruct Hbad as [->|(d & -> & Hd)]; [by left|].
    right. exists d. split; [done|]. by destruct Hd as [->| ->]. }
  split; [by exists msg|]. do 7 (split; [done|]).
  intros d' u Hu Ht.
  destruct (handleAuthentication_ok clock toISOString sid d' u
              (authentication_error sid msg W) Hu Ht)
    as ((ud & HCU) & HUS & _).
  rewrite HCU, HUS, !lookup_insert_eq. eauto.
Qed.
End Claim_C3.

Lemma C3_rejected_authentication_witness :
  let W' := handleAuthentication Demo.clock Demo.toISOString "s2"
              (Some (mkAuthData (Some "") None None)) Demo.alice_and_s2 in
  mgr W' = mgr Demo.alice_and_s2
  ∧ ∃ msg, outbox W'
           = outbox Demo.alice_and_s2
             ++ [mkEmission (SocketEmit "s2") "authentication_error"
                   [("error", JStr msg)]].
Proof.
  pose proof (C3_rejected_authentication Demo.clock Demo.toISOString "s2"
                (Some (mkAuthData (Some "") None None)) Demo.alice_and_s2)
    as H.
  destruct H as (Hout & Hmgr & _).
  - right. exists (mkAuthData (Some "") None None). split; [reflexivity|].
    right. reflexivity.
  - exact (conj Hmgr Hout).
Defined.

(** ** C4: joining and leaving a room *)

Section Claim_C4.

(** C4. For a socket authenticated as [A]: after [join_room] for [r] the
    members of [r] contain [A]; a second [join_room] leaves the manager,
    and so every member set, as the first one left it; after [leave_room]
    for [r] the members of [r] do not contain [A]. *)
Theorem C4_join_leave_membership sid A r pw W :
  socket_username sid W = Some A → truthy A = true →
  let join := handleJoinRoom sid (mkRoomData r pw) in
  let leave := handleLeaveRoom sid (mkRoomData r pw) in
  A ∈ getRoomUsers r (join W)
  ∧ mgr (join (join W)) = mgr (join W)
  ∧ (∀ r', getRoomUsers r' (join (join W)) = getRoomUsers r' (join W))
  ∧ (A ∉ getRoomUsers r (leave W))
  ∧ (A ∉ getRoomUsers r (leave (join W))).
Proof.
  intros Hu Ht join leave.
  assert (∀ W0, socket_username sid W0 = Some A →
                A ∉ getRoomUsers r (leave W0)) as Hleave.
  { intros W0 Hu0. unfold getRoomUsers, leave.
    rewrite (handleLeaveRoom_rooms _ _ _ _ Hu0 Ht). cbn [room_name].
    destruct (OMap.has _ _); [apply left_rooms_not_member|apply not_elem_of_nil]. }
  assert (socket_username sid (join W) = Some A) as Hu'.
  { unfold join. by rewrite handleJoinRoom_socket_username. }
  assert (mgr (join (join W)) = mgr (join W)) as Hidem.
  { destruct (handleJoinRoom_frame sid (mkRoomData r pw) (join W))
      as (HCU & HUS & Hm & Hio & Hinit & _).
    fold join in HCU, HUS, Hm, Hio, Hinit.
    assert (rooms (mgr (join (join W))) = rooms (mgr (join W))) as Hr.
    { unfold join at 1. rewrite (handleJoinRoom_rooms _ _ _ _ Hu' Ht).
      unfold join. rewrite (handleJoinRoom_rooms _ _ _ _ Hu Ht).
      apply joined_rooms_idemp. }
    destruct (mgr (join (join W))), (mgr (join W)). cbn in *. congruence. }
  split; [|split; [done|split; [|split]]].
  - unfold getRoomUsers, join.
    rewrite (handleJoinRoom_rooms _ _ _ _ Hu Ht). cbn [room_name].
    rewrite joined_rooms_has, joined_rooms_get. cbn.
    apply sset_elem_add. by left.
  - intros r'. unfold getRoomUsers. by rewrite Hidem.
  - by apply Hleave.
  - by apply Hleave.
Qed.
End Claim_C4.

Lemma C4_join_leave_membership_witness :
  socket_username "s1" Demo.alice_and_s2 = Some "alice"
  ∧ "alice" ∈ getRoomUsers "den"
                (handleJoinRoom "s1" (mkRoomData "den" None) Demo.alice_and_s2)
  ∧ "alice" ∉ getRoomUsers "lobby"
                (handleLeaveRoom "s1" (mkRoomData "lobby" None) Demo.alice_and_s2).
Proof.
  assert (socket_username "s1" Demo.alice_and_s2 = Some "alice") as Hu
    by (vm_compute; reflexivity).
  split; [exact Hu|].
  split.
  - exact (proj1 (C4_join_leave_membership "s1" "alice" "den" None
                    Demo.alice_and_s2 Hu eq_refl)).
  - exact (proj1 (proj2 (proj2 (proj2
             (C4_join_leave_membership "s1" "alice" "lobby" None
                Demo.alice_and_s2 Hu eq_refl))))).
Defined.

(** ** C5: a room entry exists only while it has members *)

Section Claim_C5.
Variable clock : nat → Z.
Variable toISOString : Z → string.
Variable SERVER_ID : option string.

Lemma leave_all_rooms_keys sid u entries room :
  room ∈ OMap.keys (leave_all_rooms sid u entries).1 → room ∈ OMap.keys entries.
Proof.
  unfold OMap.keys. induction entries as [|[room0 users0] rest IH];
    [done|].
  cbn [leave_all_rooms]. destruct (leave_all_rooms sid u rest) as [rest' out].
  cbn in IH. rewrite fmap_cons. cbn [fst].
  destruct (SSet.has u users0); cbn [fst].
  - destruct (decide _); [|rewrite fmap_cons; cbn [fst]];
      rewrite ?elem_of_cons; intuition.
  - rewrite fmap_cons. cbn [fst]. rewrite !elem_of_cons. intuition.
Qed.

Lemma handleDisconnection_keys sid reason W room :
  room ∈ getAllRooms (handleDisconnection clock toISOString sid reason W) →
  room ∈ getAllRooms W.
Proof.
  unfold getAllRooms.
  destruct (handleDisconnection_cases clock toISOString sid reason W)
    as [(u & Hu & Ht)| ->]; [|done].
  rewrite (handleDisconnection_user _ _ _ _ _ _ Hu Ht). cbn.
  apply leave_all_rooms_keys.
Qed.

Lemma removeUserFromPreviousSocket_keys u W room :
  room ∈ getAllRooms (removeUserFromPreviousSocket clock toISOString u W) →
  room ∈ getAllRooms W.
Proof.
  unfold removeUserFromPreviousSocket, getAllRooms.
  destruct (connectedUsers (mgr W) !! u) as [prev|]; [|done]. cbn.
  destruct (io_sockets_get (socketId prev) W); [|done].
  unfold socket_disconnect.
  destruct (io_sockets_get (socketId prev) W); [|done].
  apply handleDisconnection_keys.
Qed.

Lemma joined_rooms_keys u room rs r :
  r ∈ OMap.keys (joined_rooms u room rs) → r ∈ OMap.keys rs ∨ r = room.
Proof.
  unfold joined_rooms. rewrite omap_keys_alter.
  destruct (OMap.has room rs) eqn:Hhas; [by left|].
  apply omap_has_false in Hhas. rewrite omap_set_fresh by done.
  unfold OMap.keys. rewrite fmap_app, elem_of_app. cbn.
  rewrite list_elem_of_singleton. tauto.
Qed.

Lemma left_rooms_keys u room rs r :
  r ∈ OMap.keys (left_rooms u room rs) → r ∈ OMap.keys rs.
Proof.
  unfold left_rooms. destruct (OMap.has room rs); [|done]. cbn zeta.
  destruct (decide _); [|by rewrite omap_keys_alter].
  unfold OMap.keys. intros ((r0 & us) & -> & Hin)%list_elem_of_fmap.
  apply omap_elem_delete in Hin as [Hin _].
  change (r0 ∈ OMap.keys rs). rewrite <- (omap_keys_alter (SSet.delete u) room).
  apply list_elem_of_fmap. by exists (r0, us).
Qed.

(** Only [join_room] adds a name to the directory. *)
Lemma handle_new_room e W room :
  room ∈ getAllRooms (handle clock toISOString SERVER_ID e W) →
  room ∈ getAllRooms W ∨ ∃ sid pw, e = EvJoinRoom sid (mkRoomData room pw).
Proof.
  event_cases e; cbn [handle]; unfold getAllRooms.
  - destruct (initialize_frame W) as (_ & _ & Hr & _). rewrite Hr. by left.
  - by left.
  - destruct (handleAuthentication_cases clock toISOString sid data W)
      as [[msg ->]|(d & u & -> & Hu & Ht)]; [by left|].
    destruct (handleAuthentication_ok clock toISOString sid d u W Hu Ht)
      as (_ & _ & Hr & _).
    rewrite Hr. intros H. left. by apply removeUserFromPreviousSocket_keys in H.
  - rewrite handlePing_mgr.
    destruct (userSockets (mgr W) !! sid) as [u|]; [|by left].
    destruct (truthy u && _); by left.
  - destruct data as [r pw].
    destruct (socket_username sid W) as [u|] eqn:Hu.
    + destruct (truthy u) eqn:Ht.
      * rewrite (handleJoinRoom_rooms _ _ _ _ Hu Ht). cbn [room_name].
        intros [?| ->]%joined_rooms_keys; [by left|right; eauto].
      * rewrite handleJoinRoom_unauthenticated; [by left|]. by rewrite Hu.
    + rewrite handleJoinRoom_unauthenticated; [by left|]. by rewrite Hu.
  - destruct (socket_username sid W) as [u|] eqn:Hu.
    + destruct (truthy u) eqn:Ht.
      * rewrite (handleLeaveRoom_rooms _ _ _ _ Hu Ht).
        intros ?%left_rooms_keys. by left.
      * rewrite handleLeaveRoom_unauthenticated; [by left|]. by rewrite Hu.
    + rewrite handleLeaveRoom_unauthenticated; [by left|]. by rewrite Hu.
  - intros H. left. by apply handleDisconnection_keys in H.
  - by left.
  - destruct (sendToUser_frame clock toISOString SERVER_ID u ev data W) as (Hm & _).
    rewrite Hm. by left.
  - destruct (broadcast_frame clock toISOString SERVER_ID ev data W) as (Hm & _).
    rewrite Hm. by left.
Qed.

(** C5. In every reachable state every room listed by [getAllRooms] has
    at least one member.  The directory starts empty; only a [join_room]
    for a room adds its name, and a [join_room] by an authenticated socket
    lists the room; when the last member leaves, or is purged on
    disconnection, the name is no longer listed. *)
Theorem C5_rooms_have_members W :
  reachable clock toISOString SERVER_ID W →
  (∀ room, room ∈ getAllRooms W → getRoomUsers room W ≠ [])
  ∧ getAllRooms constructor = []
  ∧ (∀ e room, room ∈ getAllRooms (handle clock toISOString SERVER_ID e W) →
       room ∈ getAllRooms W ∨ ∃ sid pw, e = EvJoinRoom sid (mkRoomData room pw))
  ∧ (∀ sid u room pw, socket_username sid W = Some u → truthy u = true →
       room ∈ getAllRooms (handleJoinRoom sid (mkRoomData room pw) W))
  ∧ (∀ sid u room pw, socket_username sid W = Some u → truthy u = true →
       getRoomUsers room W = [u] →
       room ∉ getAllRooms (handleLeaveRoom sid (mkRoomData room pw) W))
  ∧ (∀ sid u reason room,
       userSockets (mgr W) !! sid = Some u → truthy u = true →
       getRoomUsers room W = [u] →
       room ∉ getAllRooms (handle clock toISOString SERVER_ID
                             (EvDisconnect sid reason) W)).
Proof.
  intros Hreach.
  assert (∀ W0, rooms_inv W0 →
            ∀ room, room ∈ getAllRooms W0 → getRoomUsers room W0 ≠ []) as Hne.
  { intros W0 Hinv room Hin. unfold getAllRooms, getRoomUsers in *.
    apply omap_elem_keys_get in Hin as [users Hget].
    rewrite (proj2 (omap_has_true _ _)) by eauto. rewrite Hget. cbn.
    eapply Hinv, omap_get_Some_elem, Hget. }
  pose proof (reachable_rooms_inv _ _ _ _ Hreach) as Hinv.
  split; [by apply Hne|]. split; [done|].
  split; [intros e room; apply handle_new_room|].
  split; [|split].
  - intros sid u room pw Hu Ht. unfold getAllRooms.
    rewrite (handleJoinRoom_rooms _ _ _ _ Hu Ht). cbn [room_name].
    apply omap_elem_keys_get. rewrite joined_rooms_get. eauto.
  - intros sid u room pw Hu Ht Hmem Hin.
    assert (rooms_inv (handleLeaveRoom sid (mkRoomData room pw) W)) as Hinv'.
    { apply (handle_rooms_inv clock toISOString SERVER_ID
               (EvLeaveRoom sid (mkRoomData room pw))), Hinv. }
    apply (Hne _ Hinv') in Hin as Hnil. apply Hnil.
    pose proof (left_rooms_not_member u room (rooms (mgr W))) as Hnot.
    unfold getRoomUsers in *.
    rewrite (handleLeaveRoom_rooms _ _ _ _ Hu Ht) in *. cbn [room_name] in *.
    destruct (OMap.has room (left_rooms _ _ _)); [|done].
    unfold left_rooms in *.
    destruct (OMap.has room (rooms (mgr W))) eqn:Hhas; [|done].
    cbn zeta in *. destruct (decide _) as [Hz|Hnz].
    + by rewrite omap_get_delete_eq.
    + exfalso. apply Hnz. rewrite omap_get_alter_eq.
      apply omap_has_true in Hhas as [users Hget]. rewrite Hget in *.
      cbn in *. subst users. unfold SSet.delete.
      rewrite filter_cons, decide_False by (intros H; by apply H). done.
  - intros sid u reason room Hu Ht Hmem. cbn [handle]. unfold getAllRooms.
    rewrite (handleDisconnection_user _ _ _ _ _ (sio_close sid W) Hu Ht). cbn.
    apply leave_all_rooms_last_member;
      [apply (reachable_rooms_keys_inv _ _ _ _ Hreach)|].
    unfold getRoomUsers in Hmem.
    destruct (OMap.has room (rooms (mgr W))) eqn:Hhas; [|done].
    apply omap_has_true in Hhas as [users Hget]. rewrite Hget in *.
    cbn in Hmem. by subst.
Qed.
End Claim_C5.

Lemma C5_rooms_have_members_witness :
  reachable Demo.clock Demo.toISOString Demo.SERVER_ID Demo.alice_and_s2
  ∧ getAllRooms Demo.alice_and_s2 = ["lobby"]
  ∧ ∀ room, room ∈ getAllRooms Demo.alice_and_s2 →
            getRoomUsers room Demo.alice_and_s2 ≠ [].
Proof.
  split; [exact alice_and_s2_reachable|].
  split; [vm_compute; reflexivity|].
  exact (proj1 (C5_rooms_have_members Demo.clock Demo.toISOString
                  Demo.SERVER_ID Demo.alice_and_s2 alice_and_s2_reachable)).
Defined.

(** ** C6: what a disconnection of an authenticated socket does *)

Section Claim_C6.
Variable clock : nat → Z.
Variable toISOString : Z → string.
Variable SERVER_ID : option string.

(** The members other than [u] stay where they are. *)
Lemma leave_all_rooms_keeps_others sid u entries room users v :
  OMap.get room entries = Some users → v ∈ users → v ≠ u →
  ∃ users', OMap.get room (leave_all_rooms sid u entries).1 = Some users'
            ∧ v ∈ users'.
Proof.
  intros Hget Hv Hne. induction entries as [|[room0 users0] rest IH]; [done|].
  cbn [leave_all_rooms]. destruct (leave_all_rooms sid u rest) as [rest' out].
  cbn [fst] in IH. cbn [OMap.get] in Hget.
  destruct (decide (room0 = room)) as [->|Hroom].
  - injection Hget as ->.
    assert (v ∈ SSet.delete u users) as Hv' by by apply sset_elem_delete.
    destruct (SSet.has u users); cbn [fst].
    + destruct (decide _) as [Hz|Hnz].
      * unfold SSet.size in Hz. apply nil_length_inv in Hz.
        rewrite Hz in Hv'. by apply elem_of_nil in Hv'.
      * cbn [OMap.get]. rewrite decide_True by done. eauto.
    + cbn [OMap.get]. rewrite decide_True by done. eauto.
  - destruct (SSet.has u users0); cbn [fst].
    + destruct (decide _); [by apply IH|].
      cbn [OMap.get]. rewrite decide_False by done. by apply IH.
    + cbn [OMap.get]. rewrite decide_False by done. by apply IH.
Qed.

(** C6. When a socket bound to the identity [u] disconnects, [u] is taken
    out of every room: one [user_left_room] packet per room that listed
    [u], in the order of the directory, goes to the other sockets of that
    room ([socket.to(room)]), then [user_status] with status [offline] goes
    to every connection; the entries of [u] in [connectedUsers] and of the
    socket in [userSockets] are deleted.  Afterwards no room lists [u],
    [isUserOnline u] is false, and every other member is still listed. *)
Theorem C6_disconnect_purges_identity sid reason u W :
  userSockets (mgr W) !! sid = Some u → truthy u = true →
  let W' := handle clock toISOString SERVER_ID (EvDisconnect sid reason) W in
  (∀ room, u ∉ getRoomUsers room W')
  ∧ (∀ room v, v ≠ u → v ∈ getRoomUsers room W → v ∈ getRoomUsers room W')
  ∧ outbox W'
    = (outbox W
       ++ (user_left_room sid u
             <$> (filter (λ kv, u ∈ kv.2) (rooms (mgr W))).*1))
      ++ [user_status u "offline" (toISOString (clock (date_reads W)))]
  ∧ connectedUsers (mgr W') = delete u (connectedUsers (mgr W))
  ∧ userSockets (mgr W') = delete sid (userSockets (mgr W))
  ∧ isUserOnline u W' = false
  ∧ hooks W'
    = hooks W ++ [mkHook "user_disconnected"
                    [("username", JStr u); ("reason", JStr reason);
                     ("socket", JStr sid)]].
Proof.
  intros Hu Ht. cbn zeta. cbn [handle].
  split; [|split].
  - intros room. by apply handleDisconnection_leaves_every_room.
  - intros room v Hne.
    rewrite (handleDisconnection_user _ _ _ _ _ (sio_close sid W) Hu Ht).
    unfold getRoomUsers. cbn.
    destruct (OMap.has room (rooms (mgr W))) eqn:Hhas;
      [|by intros ?%elem_of_nil].
    apply omap_has_true in Hhas as [users Hget]. rewrite Hget. cbn.
    intros Hv.
    destruct (leave_all_rooms_keeps_others sid u _ _ _ _ Hget Hv Hne)
      as (users' & Hget' & Hv').
    rewrite (proj2 (omap_has_true _ _)) by eauto. by rewrite Hget'.
  - rewrite (handleDisconnection_user _ _ _ _ _ (sio_close sid W) Hu Ht).
    cbn. rewrite leave_all_rooms_out. repeat split.
    unfold isUserOnline. cbn. apply bool_decide_eq_false.
    rewrite lookup_delete_eq. by intros [? ?].
Qed.
End Claim_C6.

Lemma C6_disconnect_purges_identity_witness :
  userSockets (mgr Demo.alice_and_s2) !! "s1" = Some "alice"
  ∧ let W' := handle Demo.clock Demo.toISOString Demo.SERVER_ID
                (EvDisconnect "s1" "transport close") Demo.alice_and_s2 in
    (∀ room, "alice" ∉ getRoomUsers room W') ∧ isUserOnline "alice" W' = false.
Proof.
  assert (userSockets (mgr Demo.alice_and_s2) !! "s1" = Some "alice") as Hu
    by (vm_compute; reflexivity).
  split; [exact Hu|].
  pose proof (C6_disconnect_purges_identity Demo.clock Demo.toISOString
                Demo.SERVER_ID "s1" "transport close" "alice"
                Demo.alice_and_s2 Hu eq_refl) as (H1 & _ & _ & _ & _ & H2 & _).
  exact (conj H1 H2).
Defined.

(** ** C7: sending to one identity *)

Section Claim_C7.
Variable clock : nat → Z.
Variable toISOString : Z → string.
Variable SERVER_ID : option string.

Lemma formatMessage_envelope data W :
  let message := (formatMessage clock toISOString SERVER_ID data W).1 in
  OMap.get "timestamp" message = Some (JStr (toISOString (clock (date_reads W))))
  ∧ OMap.get "serverId" message = Some (JStr (serverId SERVER_ID))
  ∧ ∀ k, k ≠ "timestamp" → k ≠ "serverId" →
         OMap.get k message = OMap.get k data.
Proof.
  cbn. split; [|split].
  - by rewrite omap_get_set_ne, omap_get_set_eq.
  - by rewrite omap_get_set_eq.
  - intros k Ht Hs. by rewrite !omap_get_set_ne.
Qed.

(** C7. [sendToUser] for an identity that is not online returns [false]
    and leaves the world as it is: nothing is sent.  For an identity that
    is online it returns [true] and sends exactly one packet, to the room
    named by the socket id of the identity's session (the one connection
    bound to it); the packet carries the fields of the payload other than
    [timestamp] and [serverId], the time of sending as [timestamp], and
    the [serverId] tag.  The manager and the sockets are untouched. *)
Theorem C7_sendToUser u ev data W :
  reachable clock toISOString SERVER_ID W →
  let r := sendToUser clock toISOString SERVER_ID u ev data W in
  (isUserOnline u W = false → r = (false, W))
  ∧ ∀ info, getUserInfo u W = Some info →
      isUserOnline u W = true
      ∧ r.1 = true
      ∧ (∃ message,
           outbox r.2 = outbox W ++ [mkEmission (IoTo (socketId info)) ev message]
           ∧ OMap.get "timestamp" message
             = Some (JStr (toISOString (clock (date_reads W))))
           ∧ OMap.get "serverId" message = Some (JStr (serverId SERVER_ID))
           ∧ ∀ k, k ≠ "timestamp" → k ≠ "serverId" →
                  OMap.get k message = OMap.get k data)
      ∧ mgr r.2 = mgr W ∧ sockets r.2 = sockets W ∧ io_sockets r.2 = io_sockets W
      ∧ ∀ s, bound W u s → s = socketId info.
Proof.
  intros Hreach r. split.
  - unfold isUserOnline. intros Hoff%bool_decide_eq_false.
    unfold r, sendToUser, getUserInfo.
    destruct (connectedUsers (mgr W) !! u); [|done].
    exfalso. apply Hoff. eauto.
  - intros info Hinfo. unfold getUserInfo in Hinfo.
    pose proof (reachable_online_getIO _ _ _ W u Hreach (mk_is_Some _ _ Hinfo))
      as Hio.
    split; [unfold isUserOnline; apply bool_decide_eq_true; eauto|].
    unfold r, sendToUser, getUserInfo. rewrite Hinfo, Hio.
    destruct (formatMessage_envelope data W) as (Ht & Hs & Hk).
    cbn [fst snd]. split; [done|]. split.
    + exists (formatMessage clock toISOString SERVER_ID data W).1.
      split; [done|]. by split.
    + do 3 (split; [done|]).
      intros s Hs'. apply (registry_inv_bound_unique W u); [|done|].
      * by apply (reachable_registry_inv clock toISOString SERVER_ID).
      * left. eauto.
Qed.
End Claim_C7.

Lemma C7_sendToUser_witness :
  reachable Demo.clock Demo.toISOString Demo.SERVER_ID Demo.alice_and_s2
  ∧ (sendToUser Demo.clock Demo.toISOString Demo.SERVER_ID "bob" "notification"
       [("text", JStr "hi")] Demo.alice_and_s2 = (false, Demo.alice_and_s2))
  ∧ (sendToUser Demo.clock Demo.toISOString Demo.SERVER_ID "alice" "notification"
       [("text", JStr "hi")] Demo.alice_and_s2).1 = true.
Proof.
  split; [exact alice_and_s2_reachable|]. split.
  - refine (proj1 (C7_sendToUser Demo.clock Demo.toISOString Demo.SERVER_ID
                     "bob" "notification" [("text", JStr "hi")]
                     Demo.alice_and_s2 alice_and_s2_reachable) _).
    vm_compute. reflexivity.
  - refine (proj1 (proj2 (proj2 (C7_sendToUser Demo.clock Demo.toISOString
                     Demo.SERVER_ID "alice" "notification" [("text", JStr "hi")]
                     Demo.alice_and_s2 alice_and_s2_reachable)
                     (default (mkUserInfo "" [])
                        (connectedUsers (mgr Demo.alice_and_s2) !! "alice")) _))).
    vm_compute. reflexivity.
Defined.

(** ** C8: the heartbeat *)

Section Claim_C8.
Variable clock : nat → Z.
Variable toISOString : Z → string.

(** C8. [handlePing] answers [pong] to the socket and, when the socket is
    bound to an identity with a session, rewrites the field [lastSeen] of
    that session's [userData] with the time of the call.  The session keeps
    its [socketId] and every other field of [userData]; the sessions of
    all other identities, [userSockets], the rooms, the counters, the
    flags and the sockets are as before.  For a socket without an entry in
    [userSockets] the manager is unchanged. *)
Theorem C8_heartbeat_frame sid W :
  let W' := handlePing clock toISOString sid W in
  userSockets (mgr W') = userSockets (mgr W)
  ∧ rooms (mgr W') = rooms (mgr W)
  ∧ connectionMetrics (mgr W') = connectionMetrics (mgr W)
  ∧ io (mgr W') = io (mgr W)
  ∧ isInitialized (mgr W') = isInitialized (mgr W)
  ∧ sockets W' = sockets W
  ∧ io_sockets W' = io_sockets W
  ∧ hooks W' = hooks W
  ∧ (∀ u, userSockets (mgr W) !! sid ≠ Some u →
          connectedUsers (mgr W') !! u = connectedUsers (mgr W) !! u)
  ∧ (∀ u, connectedUsers (mgr W) !! u = None →
          connectedUsers (mgr W') !! u = None)
  ∧ (∀ u info, userSockets (mgr W) !! sid = Some u →
       connectedUsers (mgr W) !! u = Some info →
       ∃ info', connectedUsers (mgr W') !! u = Some info'
                ∧ socketId info' = socketId info
                ∧ (∀ k, k ≠ "lastSeen" →
                        OMap.get k (userData info') = OMap.get k (userData info))
                ∧ (truthy u = true →
                   OMap.get "lastSeen" (userData info')
                   = Some (JStr (toISOString (clock (S (S (date_reads W))))))))
  ∧ (userSockets (mgr W) !! sid = None → mgr W' = mgr W).
Proof.
  cbn zeta. destruct (handlePing_frame clock toISOString sid W) as [Hs Hl].
  assert (hooks (handlePing clock toISOString sid W) = hooks W) as Hh.
  { unfold handlePing. cbn.
    destruct (userSockets (mgr W) !! sid) as [u|]; [|done].
    by destruct (truthy u && _). }
  rewrite handlePing_mgr.
  destruct (userSockets (mgr W) !! sid) as [u0|] eqn:Hu0.
  - destruct (truthy u0 && bool_decide (is_Some (connectedUsers (mgr W) !! u0)))
      eqn:Hcond; cbn.
    + do 8 (split; [done|]). split; [|split; [|split; [|done]]].
      * intros u Hne. rewrite lookup_alter_ne; [done|congruence].
      * intros u Hnone. destruct (decide (u0 = u)) as [->|Hne].
        -- by rewrite lookup_alter_eq, Hnone.
        -- by rewrite lookup_alter_ne.
      * intros u info [= ->] Hinfo. rewrite lookup_alter_eq, Hinfo. cbn.
        eexists. split; [done|]. cbn. split; [done|]. split.
        -- intros k Hk. by rewrite omap_get_set_ne.
        -- intros _. by rewrite omap_get_set_eq.
    + do 8 (split; [done|]). split; [done|]. split; [done|]. split; [|done].
      intros u info [= ->] Hinfo. exists info. do 3 (split; [done|]).
      intros Ht. rewrite Ht in Hcond. cbn in Hcond.
      apply bool_decide_eq_false in Hcond. exfalso. apply Hcond. eauto.
  - do 8 (split; [done|]). split; [done|]. split; [done|]. split; [done|]. done.
Qed.
End Claim_C8.

Lemma C8_heartbeat_frame_witness :
  let W' := handlePing Demo.clock Demo.toISOString "s1" Demo.alice_and_s2 in
  userSockets (mgr Demo.alice_and_s2) !! "s1" = Some "alice"
  ∧ rooms (mgr W') = rooms (mgr Demo.alice_and_s2)
  ∧ connectionMetrics (mgr W') = connectionMetrics (mgr Demo.alice_and_s2).
Proof.
  split; [vm_compute; reflexivity|].
  pose proof (C8_heartbeat_frame Demo.clock Demo.toISOString "s1"
                Demo.alice_and_s2) as (_ & H1 & H2 & _).
  exact (conj H1 H2).
Defined.

(** ** C9: the trending highlight *)

Section Claim_C9.
Variable clock : nat → Z.
Variable toISOString : Z → string.
Variable SERVER_ID : option string.

#[local] Abbreviation check :=
  (checkAndBroadcastTrendingMeme clock toISOString SERVER_ID).

Lemma not_highlight_sent_same W W' : outbox W' = outbox W → ¬ highlight_sent W W'.
Proof.
  intros Heq [p Hp]. rewrite Heq in Hp.
  apply (f_equal length) in Hp. rewrite length_app in Hp. cbn in Hp. lia.
Qed.

Lemma leading_milestone_dec answer m :
  leading_milestone answer m ∨ ¬ leading_milestone answer m.
Proof.
  destruct answer as [[|first rest]|].
  2: destruct (decide (Meme.id first = m)) as [Hid|Hid];
    [destruct (decide (Meme.upvote_count first > 0)) as [Hpos|Hpos];
     [destruct (decide (Z.rem (Meme.upvote_count first) 10 = 0)) as [Hrem|Hrem];
      [left; by exists first, rest|]|]|].
  all: right; intros (f & r & [= <- <-] & ? & ? & ?); done.
Qed.

(** Rows with a primary key: equal ids, equal rows. *)
Lemma unique_ids (table : list Meme.Row) r1 r2 :
  NoDup (Meme.id <$> table) → r1 ∈ table → r2 ∈ table →
  Meme.id r1 = Meme.id r2 → r1 = r2.
Proof.
  induction table as [|r table IH]; [by intros _ ?%elem_of_nil|].
  rewrite fmap_cons. intros [Hnotin Hnd]%NoDup_cons.
  intros [->|H1]%elem_of_cons [->|H2]%elem_of_cons Heq; [done| | |by apply IH].
  - exfalso. apply Hnotin. rewrite Heq. apply list_elem_of_fmap. eauto.
  - exfalso. apply Hnotin. rewrite <- Heq. apply list_elem_of_fmap. eauto.
Qed.

Lemma check_sends query m W :
  getIO W = Some () →
  leading_milestone (query (clock (date_reads W) - 10 * 60 * 1000)) m →
  highlight_sent W (check query m W).
Proof.
  intros Hio (first & rest & Hq & Hid & Hpos & Hrem).
  unfold checkAndBroadcastTrendingMeme. cbn. rewrite Hq.
  rewrite !bool_decide_eq_true_2 by done. cbn.
  unfold broadcastMemeHighlight, broadcast.
  assert (getIO (mkWorld (mgr W) (sockets W) (io_sockets W) (outbox W)
                   (hooks W) (S (date_reads W))) = Some ()) as -> by done.
  cbn. eexists. reflexivity.
Qed.

Lemma check_silent query m W :
  ¬ leading_milestone (query (clock (date_reads W) - 10 * 60 * 1000)) m →
  outbox (check query m W) = outbox W.
Proof.
  intros Hno. unfold checkAndBroadcastTrendingMeme. cbn.
  destruct (query _) as [[|first rest]|] eqn:Hq; try done.
  case_bool_decide as Hid; [|done].
  case_bool_decide as Hpos; [|done].
  case_bool_decide as Hrem; [|done].
  exfalso. apply Hno. by exists first, rest.
Qed.

(** C9, amended.  With the socket server initialised, a vote on the meme
    [m] is followed by a [meme_highlight] broadcast exactly when the one
    row the database returns for the most-upvoted meme updated in the last
    ten minutes is [m] and its upvote count is a positive multiple of 10;
    otherwise nothing is sent.  So a broadcast implies that [m] has the
    highest upvote count among the memes updated in the window and that
    this count is a positive multiple of 10; and when [m] has strictly
    more upvotes than every other meme updated in the window, and that
    count is a positive multiple of 10, the broadcast does happen.  Among
    memes that tie for the highest count the database decides. *)
Theorem C9_trending_highlight table query m W :
  getIO W = Some () →
  NoDup (Meme.id <$> table) →
  let cutoff := clock (date_reads W) - 10 * 60 * 1000 in
  top1_answer table cutoff (query cutoff) →
  let W' := check query m W in
  (highlight_sent W W' ↔ leading_milestone (query cutoff) m)
  ∧ (¬ highlight_sent W W' → outbox W' = outbox W)
  ∧ (highlight_sent W W' →
     ∃ count, highest_in_window table cutoff m count
              ∧ count > 0 ∧ count mod 10 = 0)
  ∧ (∀ count, strictly_highest_in_window table cutoff m count →
              count > 0 → count mod 10 = 0 → highlight_sent W W').
Proof.
  intros Hio Hnd cutoff Hans W'.
  assert (highlight_sent W W' ↔ leading_milestone (query cutoff) m) as Hiff.
  { split; [|by apply check_sends].
    intros Hsent. destruct (leading_milestone_dec (query cutoff) m)
      as [?|Hno]; [done|].
    by apply check_silent, not_highlight_sent_same in Hno. }
  split; [done|]. split; [|split].
  - intros Hno. apply check_silent. intros Hl. apply Hno. by apply Hiff.
  - intros (first & rest & Hq & Hid & Hpos & Hrem)%Hiff.
    rewrite Hq in Hans. cbn in Hans. destruct rest; [|done].
    destruct Hans as (Hin & Hwin & Hmax).
    exists (Meme.upvote_count first). split; [by exists first|].
    split; [done|]. rewrite <- Z.rem_mod_nonneg by lia. done.
  - intros count (r & Hin & Hid & Hcount & Hwin & Hstrict) Hpos Hmod.
    apply Hiff. unfold top1_answer in Hans.
    destruct (query cutoff) as [[|first [|? ?]]|] eqn:Hq; try done.
    + by destruct (Hans r Hin).
    + destruct Hans as (Hin' & Hwin' & Hmax).
      assert (Meme.id first = m) as Hfirst.
      { destruct (decide (Meme.id first = m)) as [|Hne]; [done|].
        specialize (Hstrict first Hin' Hwin' Hne).
        specialize (Hmax r Hin Hwin). lia. }
      assert (first = r) as ->.
      { apply (unique_ids table); [done..|]. by rewrite Hfirst, Hid. }
      exists r, []. split; [done|]. split; [done|].
      rewrite Hcount. split; [done|]. rewrite Z.rem_mod_nonneg by lia. done.
Qed.
End Claim_C9.

Lemma one_anonymous_getIO : getIO Demo.one_anonymous = Some ().
Proof. by vm_compute. Qed.

Lemma tied_memes_ids : NoDup (Meme.id <$> Demo.tied_memes).
Proof.
  cbn. apply NoDup_cons. split; [|apply NoDup_singleton].
  intros H%list_elem_of_singleton. discriminate.
Qed.

Lemma tied_memes_at_most_ten r :
  r ∈ Demo.tied_memes → Meme.upvote_count r ≤ 10.
Proof.
  unfold Demo.tied_memes. intros [->|Hr]%elem_of_cons; [cbn; lia|].
  apply list_elem_of_singleton in Hr as ->. cbn. lia.
Qed.

Lemma first_of_tied_answer :
  let cutoff := Demo.clock (date_reads Demo.one_anonymous) - 10 * 60 * 1000 in
  top1_answer Demo.tied_memes cutoff (Demo.first_of_tied cutoff).
Proof.
  cbn. split; [left|]. split; [vm_compute; discriminate|].
  intros r' Hr' _. by apply tied_memes_at_most_ten.
Qed.

Lemma first_of_tied_leads :
  leading_milestone
    (Demo.first_of_tied
       (Demo.clock (date_reads Demo.one_anonymous) - 10 * 60 * 1000)) 1.
Proof. eexists _, _. split; [reflexivity|]. cbn. repeat split; lia. Qed.

Lemma C9_trending_highlight_witness :
  let W := Demo.one_anonymous in
  let cutoff := Demo.clock (date_reads W) - 10 * 60 * 1000 in
  getIO W = Some ()
  ∧ top1_answer Demo.tied_memes cutoff (Demo.first_of_tied cutoff)
  ∧ highlight_sent W
      (checkAndBroadcastTrendingMeme Demo.clock Demo.toISOString Demo.SERVER_ID
         Demo.first_of_tied 1 W).
Proof.
  cbn zeta.
  split; [exact one_anonymous_getIO|]. split; [exact first_of_tied_answer|].
  apply (proj1 (C9_trending_highlight Demo.clock Demo.toISOString Demo.SERVER_ID
                  Demo.tied_memes Demo.first_of_tied 1 Demo.one_anonymous
                  one_anonymous_getIO tied_memes_ids first_of_tied_answer)).
  exact first_of_tied_leads.
Defined.

(** C9, as claimed, fails on a tie.  Two memes updated in the window have
    ten upvotes each and the database returns the first.  A vote on the
    second is followed by no broadcast, though no meme in the window has
    more upvotes than it and ten is a positive multiple of 10.  A vote on
    the first is followed by a broadcast, though it is not the only meme
    with the highest count. *)
Lemma C9_tie_counterexample :
  let W := Demo.one_anonymous in
  let cutoff := Demo.clock (date_reads W) - 10 * 60 * 1000 in
  let vote m := checkAndBroadcastTrendingMeme Demo.clock Demo.toISOString
                  Demo.SERVER_ID Demo.first_of_tied m W in
  getIO W = Some ()
  ∧ top1_answer Demo.tied_memes cutoff (Demo.first_of_tied cutoff)
  ∧ ¬ (highlight_sent W (vote 2)
       ↔ ∃ count, highest_in_window Demo.tied_memes cutoff 2 count
                  ∧ count > 0 ∧ count mod 10 = 0)
  ∧ ¬ (highlight_sent W (vote 1)
       ↔ ∃ count, strictly_highest_in_window Demo.tied_memes cutoff 1 count
                  ∧ count > 0 ∧ count mod 10 = 0).
Proof.
  cbn zeta.
  split; [exact one_anonymous_getIO|]. split; [exact first_of_tied_answer|].
  split.
  - intros [_ Hback].
    assert (highlight_sent Demo.one_anonymous
              (checkAndBroadcastTrendingMeme Demo.clock Demo.toISOString
                 Demo.SERVER_ID Demo.first_of_tied 2 Demo.one_anonymous))
      as Hsent.
    { apply Hback. exists 10. split; [|done].
      exists (Meme.mkRow 2 10 1700000000000).
      split; [right; left|]. do 3 (split; [done|]).
      intros r' Hr' _. by apply tied_memes_at_most_ten. }
    revert Hsent. apply not_highlight_sent_same, check_silent.
    intros (first & rest & [= <- <-] & Hid & _). discriminate.
  - intros [Hfwd _].
    destruct Hfwd as (count & (r & Hr & Hid & Hcount & _ & Hstrict) & _).
    { apply check_sends; [exact one_anonymous_getIO|exact first_of_tied_leads]. }
    specialize (Hstrict (Meme.mkRow 2 10 1700000000000)).
    unfold Demo.tied_memes in Hr.
    apply elem_of_cons in Hr as [->|Hr].
    + cbn in Hcount. subst count. cbn in Hstrict.
      assert (10 < 10); [|lia].
      apply Hstrict; [right; left|vm_compute; discriminate|done].
    + apply list_elem_of_singleton in Hr as ->. discriminate.
Qed.

(** ** C10: authenticating again under one's own name *)

Section Claim_C10.
Variable clock : nat → Z.
Variable toISOString : Z → string.

(** C10. A connected socket [sid] that holds the session of [u] and sends
    [authenticate] for [u] again is taken by
    [removeUserFromPreviousSocket] for the previous connection of [u]: it
    is disconnected (its [disconnect] listener runs, [u] leaves its rooms
    and is announced offline, the counters move) and only then is the
    binding of [u] to [sid] written again, now to a closed socket. *)
Theorem C10_reauthentication_closes_own_socket sid d u info W :
  auth_username d = Some u → truthy u = true →
  connectedUsers (mgr W) !! u = Some info → socketId info = sid →
  userSockets (mgr W) !! sid = Some u →
  socket_connected sid W = true → is_Some (sockets W !! sid) →
  let W' := handleAuthentication clock toISOString sid (Some d) W in
  socket_connected sid W' = false
  ∧ io_sockets_get sid W' = None
  ∧ hooks W'
    = hooks W ++ [mkHook "user_disconnected"
                    [("username", JStr u);
                     ("reason", JStr "server namespace disconnect");
                     ("socket", JStr sid)];
                  mkHook "user_authenticated"
                    [("username", JStr u); ("socket", JStr sid);
                     ("userData", JObj (default [] (auth_userData d)))]]
  ∧ connectionMetrics (mgr W')
    = mkMetrics (totalConnections (connectionMetrics (mgr W)))
                (currentConnections (connectionMetrics (mgr W)) - 1)
                (totalDisconnections (connectionMetrics (mgr W)) + 1)
  ∧ (∀ room, u ∉ getRoomUsers room W')
  ∧ (∃ info', connectedUsers (mgr W') !! u = Some info' ∧ socketId info' = sid)
  ∧ userSockets (mgr W') !! sid = Some u.
Proof.
  intros Hu Ht Hinfo Hid Hus Hlive [sock Hsock]. cbn zeta. subst sid.
  destruct (handleAuthentication_ok clock toISOString (socketId info) d u W Hu Ht)
    as ((ud & HCU) & HUS & Hr & Hm & _ & _ & Hio & _ & Hh & _).
  remember (handleAuthentication clock toISOString (socketId info) (Some d) W)
    as W' eqn:HW'. clear HW'.
  assert (io_sockets_get (socketId info) W = Some sock) as Hget.
  { unfold io_sockets_get. by rewrite Hlive. }
  assert (removeUserFromPreviousSocket clock toISOString u W
          = with_mgr (set_userSockets (delete (socketId info)))
              (handleDisconnection clock toISOString (socketId info)
                 "server namespace disconnect" (sio_close (socketId info) W)))
    as Hrem.
  { unfold removeUserFromPreviousSocket, socket_disconnect.
    by rewrite Hinfo, Hget. }
  rewrite Hrem in *. clear Hrem.
  rewrite (handleDisconnection_user _ _ _ _ _ (sio_close (socketId info) W)
             Hus Ht) in *.
  cbn in HCU, HUS, Hr, Hm, Hio, Hh.
  assert (socket_connected (socketId info) W' = false) as Hclosed.
  { unfold socket_connected. rewrite Hio. apply bool_decide_eq_false.
    intros [_ Hn]%elem_of_difference. apply Hn. by apply elem_of_singleton. }
  split; [done|]. split; [unfold io_sockets_get; by rewrite Hclosed|].
  split; [by rewrite Hh, <- (assoc_L (++))|]. split; [done|].
  split; [|split].
  - intros room. unfold getRoomUsers. rewrite Hr.
    destruct (OMap.get room _) as [users|] eqn:Hg.
    + apply omap_get_Some_elem, leave_all_rooms_not_member in Hg.
      by destruct (OMap.has _ _); [|apply not_elem_of_nil].
    + destruct (OMap.has _ _); apply not_elem_of_nil.
  - rewrite HCU, lookup_insert_eq. eauto.
  - by rewrite HUS, lookup_insert_eq.
Qed.
End Claim_C10.

Lemma C10_reauthentication_closes_own_socket_witness :
  socket_connected "s1" Demo.alice_and_s2 = true
  ∧ userSockets (mgr Demo.alice_and_s2) !! "s1" = Some "alice"
  ∧ socket_connected "s1"
      (handleAuthentication Demo.clock Demo.toISOString "s1"
         (Demo.as_user "alice") Demo.alice_and_s2) = false.
Proof.
  assert (socket_connected "s1" Demo.alice_and_s2 = true) as Hlive
    by (vm_compute; reflexivity).
  assert (userSockets (mgr Demo.alice_and_s2) !! "s1" = Some "alice") as Hus
    by (vm_compute; reflexivity).
  split; [exact Hlive|]. split; [exact Hus|].
  refine (proj1 (C10_reauthentication_closes_own_socket
                   Demo.clock Demo.toISOString "s1"
                   (mkAuthData (Some "alice") None None) "alice"
                   (default (mkUserInfo "" [])
                      (connectedUsers (mgr Demo.alice_and_s2) !! "alice"))
                   Demo.alice_and_s2 eq_refl eq_refl _ _ Hus Hlive _)).
  - vm_compute; reflexivity.
  - vm_compute; reflexivity.
  - vm_compute. eexists. reflexivity.
Defined.

(** ** Scenarios *)

(** [alice] authenticates on [c1], then on [c2]: [c1] is closed, [alice]
    stays online and her session is on [c2]. *)
Example scenario_superseded :
  let W := Demo.run [EvInitialize;
                     EvConnection "c1"; EvAuthenticate "c1" (Demo.as_user "alice");
                     EvConnection "c2"; EvAuthenticate "c2" (Demo.as_user "alice")] in
  socket_connected "c1" W = false
  ∧ socket_connected "c2" W = true
  ∧ isUserOnline "alice" W = true
  ∧ socketId <$> getUserInfo "alice" W = Some "c2"
  ∧ userSockets (mgr W) !! "c1" = None
  ∧ connectionMetrics (mgr W) = mkMetrics 2 1 1.
Proof. cbn zeta. repeat split; by vm_compute. Qed.

(** [alice] sits in two rooms, [bob] in one of them; when [alice]
    disconnects both rooms hear of it, and the room she was alone in goes. *)
Example scenario_disconnect_two_rooms :
  let before := Demo.run [EvInitialize;
                          EvConnection "s1"; EvAuthenticate "s1" (Demo.as_user "alice");
                          EvJoinRoom "s1" (mkRoomData "R1" None);
                          EvJoinRoom "s1" (mkRoomData "R2" None);
                          EvConnection "s2"; EvAuthenticate "s2" (Demo.as_user "bob");
                          EvJoinRoom "s2" (mkRoomData "R1" None)] in
  let after := handle Demo.clock Demo.toISOString Demo.SERVER_ID
                 (EvDisconnect "s1" "transport close") before in
  rooms (mgr before) = [("R1", ["alice"; "bob"]); ("R2", ["alice"])]
  ∧ rooms (mgr after) = [("R1", ["bob"])]
  ∧ drop (length (outbox before)) (outbox after)
    = [user_left_room "s1" "alice" "R1"; user_left_room "s1" "alice" "R2";
       user_status "alice" "offline" "1700000000006"].
Proof. cbn zeta. repeat split; by vm_compute. Qed.

(** A socket that authenticated as [alice] and then as [bob] is recorded
    for [bob] only; when it disconnects [alice] is still listed online. *)
Example scenario_two_names_disconnect :
  let after := handle Demo.clock Demo.toISOString Demo.SERVER_ID
                 (EvDisconnect "s1" "transport close") Demo.two_names in
  userSockets (mgr Demo.two_names) !! "s1" = Some "bob"
  ∧ isUserOnline "bob" after = false
  ∧ isUserOnline "alice" after = true
  ∧ active_connections after = 0%nat.
Proof. cbn zeta. repeat split; by vm_compute. Qed.

(** * Further properties of the presence layer *)

(** ** What each handler does to the sockets *)

Section SocketFacts.
Variable clock : nat → Z.
Variable toISOString : Z → string.
Variable SERVER_ID : option string.

Lemma socket_username_alter_joined sid s (f : gset string → gset string)
    (m : gmap string Socket) :
  (match alter (λ x, mkSocket (username x) (f (joined x))) sid m !! s with
   | Some x => username x | None => None end)
  = match m !! s with Some x => username x | None => None end.
Proof.
  destruct (decide (sid = s)) as [->|Hne].
  - rewrite lookup_alter_eq. by destruct (m !! s).
  - by rewrite lookup_alter_ne.
Qed.

Lemma sio_close_socket_username sid s W :
  socket_username s (sio_close sid W) = socket_username s W.
Proof.
  unfold socket_username, sio_close. cbn.
  apply (socket_username_alter_joined sid s (λ _, ∅)).
Qed.

Lemma handleDisconnection_socket_username sid reason s W :
  socket_username s (handleDisconnection clock toISOString sid reason W)
  = socket_username s W.
Proof. unfold socket_username. by rewrite handleDisconnection_sockets. Qed.

(** What [removeUserFromPreviousSocket] leaves of a state in which the
    connected sockets are known to socket.io. *)
Lemma removeUserFromPreviousSocket_session u prev W :
  io_sockets W ⊆ dom (sockets W) →
  connectedUsers (mgr W) !! u = Some prev →
  let W1 := removeUserFromPreviousSocket clock toISOString u W in
  io_sockets W1 = io_sockets W ∖ {[socketId prev]}
  ∧ userSockets (mgr W1) = delete (socketId prev) (userSockets (mgr W))
  ∧ ∀ s, socket_username s W1 = socket_username s W.
Proof.
  intros Hsub Hprev. cbn zeta. unfold removeUserFromPreviousSocket.
  rewrite Hprev. unfold socket_disconnect, io_sockets_get, socket_connected.
  case_bool_decide as Hlive.
  - destruct (sockets W !! socketId prev) as [sock|] eqn:Hsock.
    + cbn [io_sockets with_mgr mgr userSockets set_userSockets].
      rewrite handleDisconnection_io_sockets, handleDisconnection_userSockets.
      cbn [io_sockets sio_close with_io_sockets with_sockets mgr].
      split; [done|]. split.
      * destruct (userSockets (mgr W) !! socketId prev) as [u0|]; [|done].
        destruct (truthy u0); [|done]. apply delete_delete_eq.
      * intros s. unfold socket_username at 1.
        cbn [sockets with_mgr]. rewrite handleDisconnection_sockets.
        apply (sio_close_socket_username (socketId prev) s W).
    + apply Hsub, elem_of_dom in Hlive as [? ?]. congruence.
  - cbn. split; [|done].
    apply set_eq. intros x. rewrite elem_of_difference, elem_of_singleton.
    split; [|tauto]. intros Hx. split; [done|]. by intros ->.
Qed.

Lemma removeUserFromPreviousSocket_absent u W :
  connectedUsers (mgr W) !! u = None →
  removeUserFromPreviousSocket clock toISOString u W = W.
Proof. intros Hu. unfold removeUserFromPreviousSocket. by rewrite Hu. Qed.

(** The [username] properties after a successful authentication. *)
Lemma handleAuthentication_socket_username sid d u s W :
  auth_username d = Some u → truthy u = true →
  socket_username s (handleAuthentication clock toISOString sid (Some d) W)
  = if decide (s = sid)
    then (if decide (is_Some (sockets W !! sid)) then Some u else None)
    else socket_username s W.
Proof.
  intros Hu Ht. unfold handleAuthentication. rewrite Hu.
  change (default "" (Some u)) with u.
  cbn [truthy_opt]. rewrite Ht. cbn [negb].
  set (W1 := removeUserFromPreviousSocket clock toISOString u W).
  assert (∀ s0, socket_username s0 W1 = socket_username s0 W) as Hsame.
  { intros s0. unfold W1, removeUserFromPreviousSocket.
    destruct (connectedUsers (mgr W) !! u) as [prev|]; [|done].
    unfold socket_username at 1. cbn [sockets with_mgr].
    destruct (io_sockets_get (socketId prev) W); [|done].
    unfold socket_disconnect.
    destruct (io_sockets_get (socketId prev) W); [|done].
    rewrite handleDisconnection_sockets.
    apply (sio_close_socket_username (socketId prev) s0 W). }
  assert (is_Some (sockets W1 !! sid) ↔ is_Some (sockets W !! sid)) as Hdom.
  { rewrite <- !elem_of_dom. unfold W1, removeUserFromPreviousSocket.
    destruct (connectedUsers (mgr W) !! u) as [prev|]; [|done].
    cbn [sockets with_mgr].
    destruct (io_sockets_get (socketId prev) W); [|done].
    unfold socket_disconnect.
    destruct (io_sockets_get (socketId prev) W); [|done].
    rewrite handleDisconnection_sockets. cbn. by rewrite dom_alter_L. }
  clearbody W1.
  unfold socket_username, socket_join, broadcastUserStatus. cbn.
  destruct (socket_connected sid _); cbn.
  - destruct (decide (s = sid)) as [->|Hne].
    + rewrite !lookup_alter_eq.
      destruct (sockets W1 !! sid) as [x|] eqn:Hx; cbn.
      * rewrite decide_True; [done|]. apply Hdom. eauto.
      * rewrite decide_False; [done|]. intros H%Hdom. by destruct H.
    + rewrite !lookup_alter_ne by done. apply Hsame.
  - destruct (decide (s = sid)) as [->|Hne].
    + rewrite !lookup_alter_eq.
      destruct (sockets W1 !! sid) as [x|] eqn:Hx; cbn.
      * rewrite decide_True; [done|]. apply Hdom. eauto.
      * rewrite decide_False; [done|]. intros H%Hdom. by destruct H.
    + rewrite !lookup_alter_ne by done. apply Hsame.
Qed.

Lemma handleLeaveRoom_socket_username sid sid' data W :
  socket_username sid' (handleLeaveRoom sid data W) = socket_username sid' W.
Proof.
  unfold handleLeaveRoom.
  destruct (socket_username sid W) as [u|] eqn:Hu; [|done].
  destruct (truthy u); [|done]. unfold socket_username. cbn.
  destruct (OMap.has _ _); cbn; [destruct (decide _); cbn|];
    apply (socket_username_alter_joined sid sid' (λ j, j ∖ {[room_name data]})).
Qed.

Lemma handlePing_socket_username sid s W :
  socket_username s (handlePing clock toISOString sid W) = socket_username s W.
Proof.
  unfold socket_username.
  by destruct (handlePing_frame clock toISOString sid W) as [-> _].
Qed.
End SocketFacts.

(** ** Where the entries of the directory come from *)

Section DirectoryShape.
Implicit Types (rs : list (string * list string)).

Lemma sset_delete_absent u s : u ∉ s → SSet.delete u s = s.
Proof.
  unfold SSet.delete. induction s as [|x s IH]; [done|].
  intros [Hne Hnot]%not_elem_of_cons.
  rewrite filter_cons, decide_True by done. by rewrite IH.
Qed.

Lemma sset_add_absent u s : u ∉ s → SSet.add u s = s ++ [u].
Proof.
  intros Hnot. unfold SSet.add, SSet.has. by rewrite bool_decide_eq_false_2.
Qed.

Lemma sset_add_present u s : u ∈ s → SSet.add u s = s.
Proof.
  intros Hin. unfold SSet.add, SSet.has. by rewrite bool_decide_eq_true_2.
Qed.

Lemma sset_add_nodup u s : NoDup s → NoDup (SSet.add u s).
Proof.
  intros Hnd. destruct (decide (u ∈ s)) as [Hin|Hnot].
  - by rewrite sset_add_present.
  - rewrite sset_add_absent by done. apply NoDup_app.
    split; [done|]. split; [|apply NoDup_singleton].
    intros x Hx Hx'. apply list_elem_of_singleton in Hx'. by subst.
Qed.

Lemma sset_delete_nodup u s : NoDup s → NoDup (SSet.delete u s).
Proof. apply NoDup_filter. Qed.

Lemma omap_alter_same {V} (f : V → V) k (m : list (string * V)) :
  (∀ v, OMap.get k m = Some v → f v = v) → OMap.alter f k m = m.
Proof.
  induction m as [|[k' v'] m IH]; [done|]. cbn.
  destruct (decide (k' = k)) as [->|Hne]; intros Hf.
  - by rewrite Hf.
  - by rewrite IH.
Qed.

(** An entry after a join is an old entry, or the entry of the room with
    the newcomer added to its former members (none for a new room). *)
Lemma joined_rooms_elem u room rs r us :
  (r, us) ∈ joined_rooms u room rs →
  (r, us) ∈ rs
  ∨ (r = room ∧ us = SSet.add u (default [] (OMap.get room rs))
     ∧ ∀ v, OMap.get room rs = Some v → (room, v) ∈ rs).
Proof.
  unfold joined_rooms. destruct (OMap.has room rs) eqn:Hhas.
  - intros [Hin|(v & Hv & [= -> ->])]%omap_elem_alter; [by left|].
    right. rewrite Hv. split; [done|]. split; [done|].
    intros v' [= <-]. by apply omap_get_Some_elem.
  - apply omap_has_false in Hhas.
    rewrite omap_set_fresh, omap_alter_app_fresh by done.
    intros [Hin|Heq]%elem_of_app; [by left|].
    apply list_elem_of_singleton in Heq as [= -> ->].
    right. rewrite Hhas. split; [done|]. split; [done|]. by intros v [=].
Qed.

(** An entry after a leave is an old entry, or the entry of the room
    without the leaver. *)
Lemma left_rooms_elem u room rs r us :
  (r, us) ∈ left_rooms u room rs →
  (r, us) ∈ rs
  ∨ (r = room ∧ ∃ v, (room, v) ∈ rs ∧ us = SSet.delete u v).
Proof.
  unfold left_rooms. destruct (OMap.has room rs); [|by left]. cbn zeta.
  assert ((r, us) ∈ OMap.alter (SSet.delete u) room rs →
          (r, us) ∈ rs
          ∨ (r = room ∧ ∃ v, (room, v) ∈ rs ∧ us = SSet.delete u v)) as Halt.
  { intros [Hin|(v & Hv & [= -> ->])]%omap_elem_alter; [by left|].
    right. split; [done|]. exists v. split; [|done].
    by apply omap_get_Some_elem. }
  destruct (decide _); [|done].
  intros [Hin _]%omap_elem_delete. by apply Halt.
Qed.

(** An entry after the loop of [handleDisconnection] is an old entry
    without the identity that left. *)
Lemma leave_all_rooms_origin sid u entries r us :
  (r, us) ∈ (leave_all_rooms sid u entries).1 →
  ∃ us0, (r, us0) ∈ entries ∧ us = SSet.delete u us0.
Proof.
  induction entries as [|[room0 users0] rest IH]; [by intros ?%elem_of_nil|].
  cbn [leave_all_rooms]. destruct (leave_all_rooms sid u rest) as [rest' out].
  cbn [fst] in IH.
  assert ((r, us) ∈ rest' →
          ∃ us0, (r, us0) ∈ (room0, users0) :: rest ∧ us = SSet.delete u us0)
    as Hrest.
  { intros (us0 & Hin & ->)%IH. exists us0. split; [by right|done]. }
  unfold SSet.has. case_bool_decide as Hin; cbn [fst].
  - destruct (decide _); [done|].
    intros [[= -> ->]|H]%elem_of_cons; [|by apply Hrest].
    exists users0. split; [left|done].
  - intros [[= -> ->]|H]%elem_of_cons; [|by apply Hrest].
    exists users0. split; [left|]. by rewrite sset_delete_absent.
Qed.
End DirectoryShape.

(** ** Sockets, identities and rooms stay in step *)

Section Presence.
Variable clock : nat → Z.
Variable toISOString : Z → string.
Variable SERVER_ID : option string.

#[local] Abbreviation handleDisconnection := (handleDisconnection clock toISOString).
#[local] Abbreviation removeUserFromPreviousSocket :=
  (removeUserFromPreviousSocket clock toISOString).
#[local] Abbreviation handleAuthentication := (handleAuthentication clock toISOString).
#[local] Abbreviation handlePing := (handlePing clock toISOString).
#[local] Abbreviation handle := (handle clock toISOString SERVER_ID).
#[local] Abbreviation reachable := (reachable clock toISOString SERVER_ID).

Lemma removeUserFromPreviousSocket_shrinks u W :
  let W1 := removeUserFromPreviousSocket u W in
  (∀ s x, userSockets (mgr W1) !! s = Some x → userSockets (mgr W) !! s = Some x)
  ∧ (∀ x i, connectedUsers (mgr W1) !! x = Some i →
            connectedUsers (mgr W) !! x = Some i).
Proof.
  cbn zeta. unfold removeUserFromPreviousSocket.
  destruct (connectedUsers (mgr W) !! u) as [prev|]; [|done].
  cbn [mgr with_mgr userSockets connectedUsers set_userSockets].
  split.
  - intros s x [_ Hs]%lookup_delete_Some.
    destruct (io_sockets_get (socketId prev) W); [|done].
    by apply (socket_disconnect_userSockets_sub clock toISOString) in Hs.
  - intros x i. destruct (io_sockets_get (socketId prev) W); [|done].
    unfold socket_disconnect.
    destruct (io_sockets_get (socketId prev) W); [|done].
    rewrite handleDisconnection_connectedUsers. cbn.
    destruct (userSockets (mgr W) !! socketId prev) as [u0|]; [|done].
    destruct (truthy u0); [|done]. by intros [_ ?]%lookup_delete_Some.
Qed.

(** *** The [username] property and [userSockets] *)

Lemma socket_registry_inv_frame W W' :
  userSockets (mgr W') = userSockets (mgr W) → io_sockets W' = io_sockets W →
  (∀ s, socket_username s W' = socket_username s W) →
  socket_registry_inv W → socket_registry_inv W'.
Proof.
  intros HUS Hio Hname [K1 K2]. split.
  - intros s u. rewrite HUS, Hname. apply K1.
  - intros s u. rewrite HUS, Hio, Hname. apply K2.
Qed.

Lemma handle_socket_registry_inv e W :
  enabled e W = true → io_sockets W ⊆ dom (sockets W) →
  socket_registry_inv W → socket_registry_inv (handle e W).
Proof.
  intros Hen Hsub Hinv. event_cases e; cbn [handle].
  - destruct (initialize_frame W) as (_ & HUS & _ & _ & Hs & Hio).
    apply (socket_registry_inv_frame W); [done..| |done].
    intros s. unfold socket_username. by rewrite Hs.
  - cbn in Hen. apply andb_true_iff in Hen as [_ Hfresh%bool_decide_eq_true].
    destruct Hinv as [K1 K2].
    assert (socket_username sid W = None) as Hnone.
    { unfold socket_username. by rewrite Hfresh. }
    assert (∀ s, s ≠ sid →
              socket_username s (handleConnection sid (sio_open sid W))
              = socket_username s W) as Hother.
    { intros s Hne. unfold socket_username. cbn. by rewrite lookup_insert_ne. }
    split.
    + intros s u Hs. cbn in Hs. rewrite Hother; [by apply K1|].
      intros ->. apply K1 in Hs. congruence.
    + intros s u. cbn [io_sockets handleConnection sio_open with_io_sockets
                       with_sockets with_mgr this_emit].
      intros [->%elem_of_singleton|Hlive]%elem_of_union.
      * unfold socket_username. cbn. by rewrite lookup_insert_eq.
      * destruct (decide (s = sid)) as [->|Hne].
        -- unfold socket_username. cbn. by rewrite lookup_insert_eq.
        -- rewrite Hother by done. by apply K2.
  - destruct (handleAuthentication_cases clock toISOString sid data W)
      as [[msg ->]|(d & u & -> & Hu & Ht)]; [done|].
    cbn in Hen. apply bool_decide_eq_true in Hen.
    assert (is_Some (sockets W !! sid)) as Hobj by by apply elem_of_dom, Hsub.
    destruct (handleAuthentication_ok clock toISOString sid d u W Hu Ht)
      as (_ & HUS & _ & _ & _ & _ & Hio & _).
    pose proof (handleAuthentication_socket_username clock toISOString
                  sid d u) as Hname.
    destruct (removeUserFromPreviousSocket_shrinks u W) as [Hshrink _].
    assert (∀ s, s ∈ io_sockets (removeUserFromPreviousSocket u W) →
              s ∈ io_sockets W
              ∧ userSockets (mgr (removeUserFromPreviousSocket u W)) !! s
                = userSockets (mgr W) !! s) as Hlive1.
    { destruct (connectedUsers (mgr W) !! u) as [prev|] eqn:Hprev.
      - destruct (removeUserFromPreviousSocket_session clock toISOString
                    u prev W Hsub Hprev) as (Hl & Hus & _).
        intros s. rewrite Hl, Hus.
        intros [Hs Hne%not_elem_of_singleton]%elem_of_difference.
        split; [done|]. by rewrite lookup_delete_ne.
      - by rewrite (removeUserFromPreviousSocket_absent _ _ _ _ Hprev). }
    destruct Hinv as [K1 K2]. split.
    + intros s x. rewrite HUS, (Hname s W Hu Ht).
      destruct (decide (s = sid)) as [->|Hne].
      * rewrite lookup_insert_eq. intros [= <-]. by rewrite decide_True.
      * rewrite lookup_insert_ne by done. intros Hs. by apply K1, Hshrink.
    + intros s x. rewrite HUS, Hio, (Hname s W Hu Ht).
      destruct (decide (s = sid)) as [->|Hne].
      * rewrite decide_True by done. intros _ [= <-].
        by rewrite lookup_insert_eq.
      * rewrite lookup_insert_ne by done. intros Hs Hx.
        destruct (Hlive1 s Hs) as [Hs' ->]. by apply K2.
  - destruct (handlePing_frame clock toISOString sid W) as [Hs Hio].
    apply (socket_registry_inv_frame W); [|done| |done].
    + rewrite handlePing_mgr.
      destruct (userSockets (mgr W) !! sid) as [u|]; [|done].
      by destruct (truthy u && _).
    + intros s. apply handlePing_socket_username.
  - destruct (handleJoinRoom_frame sid data W) as (_ & HUS & _ & _ & _ & Hio & _).
    apply (socket_registry_inv_frame W); [done..| |done].
    intros s. apply handleJoinRoom_socket_username.
  - destruct (handleLeaveRoom_frame sid data W) as (_ & HUS & _ & _ & _ & Hio & _).
    apply (socket_registry_inv_frame W); [done..| |done].
    intros s. apply handleLeaveRoom_socket_username.
  - destruct Hinv as [K1 K2].
    assert (∀ s, socket_username s (handleDisconnection sid reason (sio_close sid W))
                 = socket_username s W) as Hname.
    { intros s. rewrite handleDisconnection_socket_username.
      apply sio_close_socket_username. }
    assert (∀ s x, userSockets (mgr (handleDisconnection sid reason
                                       (sio_close sid W))) !! s = Some x →
                   userSockets (mgr W) !! s = Some x) as Hsubmap.
    { intros s x. rewrite handleDisconnection_userSockets. cbn.
      destruct (userSockets (mgr W) !! sid) as [u0|]; [|done].
      destruct (truthy u0); [|done]. by intros [_ ?]%lookup_delete_Some. }
    split.
    + intros s x Hs. rewrite Hname. by apply K1, Hsubmap.
    + intros s x. rewrite handleDisconnection_io_sockets, Hname. cbn.
      intros [Hs Hne%not_elem_of_singleton]%elem_of_difference Hx.
      rewrite handleDisconnection_userSockets. cbn.
      destruct (userSockets (mgr W) !! sid) as [u0|]; [|by apply K2].
      destruct (truthy u0); [|by apply K2].
      rewrite lookup_delete_ne by done. by apply K2.
  - done.
  - destruct (sendToUser_frame clock toISOString SERVER_ID u ev data W)
      as (Hm & Hs & Hio).
    apply (socket_registry_inv_frame W); [by rewrite Hm|done| |done].
    intros s. unfold socket_username. by rewrite Hs.
  - destruct (broadcast_frame clock toISOString SERVER_ID ev data W)
      as (Hm & Hs & Hio).
    apply (socket_registry_inv_frame W); [by rewrite Hm|done| |done].
    intros s. unfold socket_username. by rewrite Hs.
Qed.

Lemma reachable_socket_registry_inv W : reachable W → socket_registry_inv W.
Proof.
  induction 1 as [|e W Hreach IH He].
  - split; intros s u; cbn; [by rewrite lookup_empty|].
    by intros ?%not_elem_of_empty.
  - apply handle_socket_registry_inv; [done| |done].
    by destruct (reachable_metrics_inv _ _ _ _ Hreach) as [? _].
Qed.

(** *** Registered names are non-empty *)

Lemma names_inv_shrink W W' :
  (∀ s x, userSockets (mgr W') !! s = Some x → userSockets (mgr W) !! s = Some x) →
  (∀ x, is_Some (connectedUsers (mgr W') !! x) →
        is_Some (connectedUsers (mgr W) !! x)) →
  names_inv W → names_inv W'.
Proof. intros HUS HCU [N1 N2]. split; eauto. Qed.

Lemma handleDisconnection_shrinks sid reason W :
  let W' := handleDisconnection sid reason W in
  (∀ s x, userSockets (mgr W') !! s = Some x → userSockets (mgr W) !! s = Some x)
  ∧ (∀ x i, connectedUsers (mgr W') !! x = Some i →
            connectedUsers (mgr W) !! x = Some i).
Proof.
  cbn zeta. rewrite handleDisconnection_userSockets,
    handleDisconnection_connectedUsers.
  destruct (userSockets (mgr W) !! sid) as [u0|]; [|done].
  destruct (truthy u0); [|done].
  split; intros ? ?; by intros [_ ?]%lookup_delete_Some.
Qed.

Lemma handle_names_inv e W : names_inv W → names_inv (handle e W).
Proof.
  intros Hinv. event_cases e; cbn [handle].
  - destruct (initialize_frame W) as (HCU & HUS & _).
    apply (names_inv_shrink W); [by rewrite HUS|by rewrite HCU|done].
  - done.
  - destruct (handleAuthentication_cases clock toISOString sid data W)
      as [[msg ->]|(d & u & -> & Hu & Ht)]; [done|].
    destruct (handleAuthentication_ok clock toISOString sid d u W Hu Ht)
      as ((ud & HCU) & HUS & _).
    destruct (removeUserFromPreviousSocket_shrinks u W) as [HsU HsC].
    destruct Hinv as [N1 N2]. split.
    + intros s x. rewrite HUS. destruct (decide (s = sid)) as [->|Hne].
      * rewrite lookup_insert_eq. by intros [= <-].
      * rewrite lookup_insert_ne by done. intros Hs. eapply N1, HsU, Hs.
    + intros x. rewrite HCU. destruct (decide (x = u)) as [->|Hne]; [done|].
      rewrite lookup_insert_ne by done. intros [i Hi]. apply N2.
      exists i. by apply HsC.
  - apply (names_inv_shrink W); [| |done]; rewrite handlePing_mgr;
      destruct (userSockets (mgr W) !! sid) as [u|]; try done;
      destruct (truthy u && _); try done.
    intros x. cbn. destruct (decide (u = x)) as [->|Hne].
    + rewrite lookup_alter_eq. by destruct (connectedUsers (mgr W) !! x).
    + by rewrite lookup_alter_ne.
  - destruct (handleJoinRoom_frame sid data W) as (HCU & HUS & _).
    apply (names_inv_shrink W); [by rewrite HUS|by rewrite HCU|done].
  - destruct (handleLeaveRoom_frame sid data W) as (HCU & HUS & _).
    apply (names_inv_shrink W); [by rewrite HUS|by rewrite HCU|done].
  - destruct (handleDisconnection_shrinks sid reason (sio_close sid W))
      as [HsU HsC].
    apply (names_inv_shrink W); [done| |done].
    intros x [i Hi]. exists i. by apply HsC.
  - done.
  - destruct (sendToUser_frame clock toISOString SERVER_ID u ev data W) as (Hm & _).
    apply (names_inv_shrink W); [by rewrite Hm|by rewrite Hm|done].
  - destruct (broadcast_frame clock toISOString SERVER_ID ev data W) as (Hm & _).
    apply (names_inv_shrink W); [by rewrite Hm|by rewrite Hm|done].
Qed.

Lemma reachable_names_inv W : reachable W → names_inv W.
Proof.
  induction 1 as [|e W _ IH _].
  - split; [intros s u|intros u [i Hi]; revert Hi]; cbn; by rewrite lookup_empty.
  - by apply handle_names_inv.
Qed.

(** *** Members of rooms have sessions *)

Lemma handleDisconnection_members_online sid reason W :
  members_online W → members_online (handleDisconnection sid reason W).
Proof.
  intros Hinv.
  destruct (handleDisconnection_cases clock toISOString sid reason W)
    as [(u & Hu & Ht)| ->]; [|done].
  rewrite (handleDisconnection_user _ _ _ _ _ _ Hu Ht).
  intros room users x Hin Hx. cbn in Hin |- *.
  apply leave_all_rooms_origin in Hin as (us0 & Hin & ->).
  apply sset_elem_delete in Hx as [Hx Hne].
  rewrite lookup_delete_ne by done. by eapply Hinv.
Qed.

Lemma removeUserFromPreviousSocket_members_online u W :
  members_online W → members_online (removeUserFromPreviousSocket u W).
Proof.
  intros Hinv. unfold removeUserFromPreviousSocket.
  destruct (connectedUsers (mgr W) !! u) as [prev|]; [|done].
  destruct (io_sockets_get (socketId prev) W); [|done].
  unfold socket_disconnect.
  destruct (io_sockets_get (socketId prev) W); [|done].
  by apply (handleDisconnection_members_online _ _ (sio_close (socketId prev) W)).
Qed.

Lemma handle_members_online e W :
  enabled e W = true → registry_inv W → socket_registry_inv W →
  members_online W → members_online (handle e W).
Proof.
  intros Hen Hreg [K1 K2] Hinv. event_cases e; cbn [handle].
  - destruct (initialize_frame W) as (HCU & _ & Hr & _).
    unfold members_online. by rewrite HCU, Hr.
  - done.
  - destruct (handleAuthentication_cases clock toISOString sid data W)
      as [[msg ->]|(d & u & -> & Hu & Ht)]; [done|].
    destruct (handleAuthentication_ok clock toISOString sid d u W Hu Ht)
      as ((ud & HCU) & _ & Hr & _).
    pose proof (removeUserFromPreviousSocket_members_online u W Hinv) as Hinv1.
    intros room users x. rewrite HCU, Hr. intros Hin Hx.
    destruct (decide (x = u)) as [->|Hne]; [by rewrite lookup_insert_eq|].
    rewrite lookup_insert_ne by done. by eapply Hinv1.
  - intros room users x. rewrite handlePing_mgr.
    destruct (userSockets (mgr W) !! sid) as [u|]; [|apply Hinv].
    destruct (truthy u && _); [|apply Hinv]. cbn. intros Hin Hx.
    destruct (Hinv _ _ _ Hin Hx) as [i Hi].
    destruct (decide (u = x)) as [->|Hne].
    + rewrite lookup_alter_eq, Hi. eauto.
    + rewrite lookup_alter_ne by done. eauto.
  - destruct (handleJoinRoom_frame sid data W) as (HCU & _).
    destruct (socket_username sid W) as [u|] eqn:Hu.
    2: { unfold members_online.
         rewrite handleJoinRoom_unauthenticated; [done|]. by rewrite Hu. }
    destruct (truthy u) eqn:Ht.
    2: { unfold members_online.
         rewrite handleJoinRoom_unauthenticated; [done|]. by rewrite Hu. }
    cbn in Hen. apply bool_decide_eq_true in Hen.
    destruct (Hreg _ _ (K2 _ _ Hen Hu)) as (info & Hinfo & _).
    intros room users x. rewrite HCU, (handleJoinRoom_rooms _ _ _ _ Hu Ht).
    intros [Hin|(-> & -> & Hold)]%joined_rooms_elem Hx; [by eapply Hinv|].
    apply sset_elem_add in Hx as [->|Hx]; [eauto|].
    destruct (OMap.get (room_name data) (rooms (mgr W))) as [v|] eqn:Hget.
    + cbn in Hx. eapply Hinv; [by apply Hold|done].
    + by apply elem_of_nil in Hx.
  - destruct (handleLeaveRoom_frame sid data W) as (HCU & _).
    destruct (socket_username sid W) as [u|] eqn:Hu.
    2: { rewrite handleLeaveRoom_unauthenticated; [done|]. by rewrite Hu. }
    destruct (truthy u) eqn:Ht.
    2: { rewrite handleLeaveRoom_unauthenticated; [done|]. by rewrite Hu. }
    intros room users x. rewrite HCU, (handleLeaveRoom_rooms _ _ _ _ Hu Ht).
    intros [Hin|(-> & v & Hv & ->)]%left_rooms_elem Hx; [by eapply Hinv|].
    apply sset_elem_delete in Hx as [Hx _]. by eapply Hinv.
  - by apply handleDisconnection_members_online.
  - done.
  - destruct (sendToUser_frame clock toISOString SERVER_ID u ev data W) as (Hm & _).
    unfold members_online. by rewrite Hm.
  - destruct (broadcast_frame clock toISOString SERVER_ID ev data W) as (Hm & _).
    unfold members_online. by rewrite Hm.
Qed.

Lemma reachable_members_online W : reachable W → members_online W.
Proof.
  induction 1 as [|e W Hreach IH He].
  - intros room users x Hin. by apply elem_of_nil in Hin.
  - apply handle_members_online; [done| | |done].
    + by apply (reachable_registry_inv clock toISOString SERVER_ID).
    + by apply reachable_socket_registry_inv.
Qed.

(** *** Member sets list nobody twice *)

Lemma handle_members_nodup e W :
  members_nodup W → members_nodup (handle e W).
Proof.
  intros Hinv.
  assert (∀ sid reason W0, members_nodup W0 →
            members_nodup (handleDisconnection sid reason W0)) as Hdis.
  { intros sid reason W0 Hinv0.
    destruct (handleDisconnection_cases clock toISOString sid reason W0)
      as [(u & Hu & Ht)| ->]; [|done].
    rewrite (handleDisconnection_user _ _ _ _ _ _ Hu Ht).
    intros room users Hin. cbn in Hin.
    apply leave_all_rooms_origin in Hin as (us0 & Hin & ->).
    eapply sset_delete_nodup, Hinv0, Hin. }
  event_cases e; cbn [handle].
  - destruct (initialize_frame W) as (_ & _ & Hr & _).
    unfold members_nodup. by rewrite Hr.
  - done.
  - destruct (handleAuthentication_cases clock toISOString sid data W)
      as [[msg ->]|(d & u & -> & Hu & Ht)]; [done|].
    destruct (handleAuthentication_ok clock toISOString sid d u W Hu Ht)
      as (_ & _ & Hr & _).
    unfold members_nodup. rewrite Hr. unfold removeUserFromPreviousSocket.
    destruct (connectedUsers (mgr W) !! u) as [prev|]; [|done]. cbn.
    destruct (io_sockets_get (socketId prev) W); [|done].
    unfold socket_disconnect.
    destruct (io_sockets_get (socketId prev) W); [|done].
    by apply (Hdis _ _ (sio_close (socketId prev) W)).
  - unfold members_nodup. rewrite handlePing_mgr.
    destruct (userSockets (mgr W) !! sid) as [u|]; [|done].
    by destruct (truthy u && _).
  - destruct (socket_username sid W) as [u|] eqn:Hu.
    2: { unfold members_nodup.
         rewrite handleJoinRoom_unauthenticated; [done|]. by rewrite Hu. }
    destruct (truthy u) eqn:Ht.
    2: { unfold members_nodup.
         rewrite handleJoinRoom_unauthenticated; [done|]. by rewrite Hu. }
    intros room users. rewrite (handleJoinRoom_rooms _ _ _ _ Hu Ht).
    intros [Hin|(-> & -> & Hold)]%joined_rooms_elem; [by eapply Hinv|].
    apply sset_add_nodup.
    destruct (OMap.get (room_name data) (rooms (mgr W))) as [v|] eqn:Hget.
    + cbn. eapply Hinv. by apply Hold.
    + apply NoDup_nil_2.
  - destruct (socket_username sid W) as [u|] eqn:Hu.
    2: { rewrite handleLeaveRoom_unauthenticated; [done|]. by rewrite Hu. }
    destruct (truthy u) eqn:Ht.
    2: { rewrite handleLeaveRoom_unauthenticated; [done|]. by rewrite Hu. }
    intros room users. rewrite (handleLeaveRoom_rooms _ _ _ _ Hu Ht).
    intros [Hin|(-> & v & Hv & ->)]%left_rooms_elem; [by eapply Hinv|].
    eapply sset_delete_nodup, Hinv, Hv.
  - by apply Hdis.
  - done.
  - destruct (sendToUser_frame clock toISOString SERVER_ID u ev data W) as (Hm & _).
    unfold members_nodup. by rewrite Hm.
  - destruct (broadcast_frame clock toISOString SERVER_ID ev data W) as (Hm & _).
    unfold members_nodup. by rewrite Hm.
Qed.

Lemma reachable_members_nodup W : reachable W → members_nodup W.
Proof.
  induction 1 as [|e W _ IH _].
  - intros room users Hin. by apply elem_of_nil in Hin.
  - by apply handle_members_nodup.
Qed.
End Presence.

(** ** Connections, authentication and rooms: further properties *)

Section MorePresence.
Variable clock : nat → Z.
Variable toISOString : Z → string.
Variable SERVER_ID : option string.

#[local] Abbreviation handle := (handle clock toISOString SERVER_ID).
#[local] Abbreviation reachable := (reachable clock toISOString SERVER_ID).

(** X1. A socket that has no entry in [userSockets] disconnects quietly:
    [currentConnections] goes down by one and [totalDisconnections] up by
    one, and that is all; no packet is sent, no event is emitted on the
    manager, and the registry and the rooms are as before. *)
Theorem X1_anonymous_disconnect sid reason W :
  userSockets (mgr W) !! sid = None →
  let W' := handle (EvDisconnect sid reason) W in
  outbox W' = outbox W
  ∧ hooks W' = hooks W
  ∧ date_reads W' = date_reads W
  ∧ connectedUsers (mgr W') = connectedUsers (mgr W)
  ∧ userSockets (mgr W') = userSockets (mgr W)
  ∧ rooms (mgr W') = rooms (mgr W)
  ∧ connectionMetrics (mgr W')
    = mkMetrics (totalConnections (connectionMetrics (mgr W)))
                (currentConnections (connectionMetrics (mgr W)) - 1)
                (totalDisconnections (connectionMetrics (mgr W)) + 1)
  ∧ socket_connected sid W' = false.
Proof.
  intros Hu. cbn zeta. cbn [handle].
  rewrite (handleDisconnection_anonymous clock toISOString sid reason
             (sio_close sid W)) by done.
  cbn. do 7 (split; [done|]). unfold socket_connected. cbn.
  apply bool_decide_eq_false. intros [_ Hn]%elem_of_difference.
  apply Hn. by apply elem_of_singleton.
Qed.


Lemma getRoomUsers_get room W :
  getRoomUsers room W = default [] (OMap.get room (rooms (mgr W))).
Proof.
  unfold getRoomUsers. destruct (OMap.has _ _) eqn:Hhas; [done|].
  apply omap_has_false in Hhas. by rewrite Hhas.
Qed.

(** X3. What [join_room] and [leave_room] by an authenticated socket do to
    the directory.  Joining [r] puts the identity last in the member list
    of [r] unless it is already there, in which case the list is as it
    was; leaving [r] takes the identity out and keeps the order of the
    others.  No other room's member list changes. *)
Theorem X3_join_leave_directory sid u r pw W :
  socket_username sid W = Some u → truthy u = true →
  let join := handleJoinRoom sid (mkRoomData r pw) W in
  let leave := handleLeaveRoom sid (mkRoomData r pw) W in
  getRoomUsers r join
  = (if decide (u ∈ getRoomUsers r W) then getRoomUsers r W
     else getRoomUsers r W ++ [u])
  ∧ getRoomUsers r leave = filter (λ x, x ≠ u) (getRoomUsers r W)
  ∧ ∀ r', r' ≠ r →
      getRoomUsers r' join = getRoomUsers r' W
      ∧ getRoomUsers r' leave = getRoomUsers r' W.
Proof.
  intros Hu Ht join leave. unfold join, leave.
  rewrite !getRoomUsers_get.
  rewrite (handleJoinRoom_rooms _ _ _ _ Hu Ht),
    (handleLeaveRoom_rooms _ _ _ _ Hu Ht). cbn [room_name].
  split; [|split].
  - rewrite joined_rooms_get. cbn.
    destruct (decide _) as [Hin|Hnot].
    + by apply sset_add_present.
    + by apply sset_add_absent.
  - unfold left_rooms. destruct (OMap.has r (rooms (mgr W))) eqn:Hhas.
    + cbn zeta. apply omap_has_true in Hhas as [v Hv].
      rewrite omap_get_alter_eq, Hv. cbn.
      destruct (decide _) as [Hz|Hnz].
      * rewrite omap_get_delete_eq. cbn. unfold SSet.size in Hz.
        apply nil_length_inv in Hz. by rewrite <- Hz.
      * by rewrite omap_get_alter_eq, Hv.
    + apply omap_has_false in Hhas. by rewrite Hhas.
  - intros r' Hne. rewrite !getRoomUsers_get.
    rewrite (handleJoinRoom_rooms _ _ _ _ Hu Ht),
      (handleLeaveRoom_rooms _ _ _ _ Hu Ht). cbn [room_name]. split.
    + unfold joined_rooms. rewrite omap_get_alter_ne by done.
      destruct (OMap.has r (rooms (mgr W))); [done|].
      by rewrite omap_get_set_ne.
    + unfold left_rooms. destruct (OMap.has r (rooms (mgr W))); [|done].
      cbn zeta. destruct (decide _).
      * by rewrite omap_get_delete_ne, omap_get_alter_ne.
      * by rewrite omap_get_alter_ne.
Qed.

Lemma handleLeaveRoom_outbox sid data u W :
  socket_username sid W = Some u → truthy u = true →
  outbox (handleLeaveRoom sid data W)
  = outbox W ++ [mkEmission (SocketEmit sid) "room_left"
                   [("room", JStr (room_name data))];
                 user_left_room sid u (room_name data)].
Proof.
  intros Hu Ht. unfold handleLeaveRoom. rewrite Hu, Ht. cbn.
  destruct (OMap.has _ _); cbn; [destruct (decide _); cbn|];
    by rewrite <- (assoc_L (++)).
Qed.

(** X4. Leaving a room one is not a member of is no error: the directory
    is left as it is, yet the socket is told [room_left] and the other
    sockets of the room are told [user_left_room], as for a real leave. *)
Theorem X4_leave_room_never_joined sid u r pw W :
  reachable W → socket_username sid W = Some u → truthy u = true →
  u ∉ getRoomUsers r W →
  let W' := handleLeaveRoom sid (mkRoomData r pw) W in
  rooms (mgr W') = rooms (mgr W)
  ∧ outbox W'
    = outbox W ++ [mkEmission (SocketEmit sid) "room_left" [("room", JStr r)];
                   user_left_room sid u r].
Proof.
  intros Hreach Hu Ht Hnot. cbn zeta.
  split; [|by rewrite (handleLeaveRoom_outbox _ _ _ _ Hu Ht)].
  pose proof (reachable_rooms_inv _ _ _ _ Hreach) as Hne.
  rewrite (handleLeaveRoom_rooms _ _ _ _ Hu Ht). cbn [room_name].
  rewrite getRoomUsers_get in Hnot.
  unfold left_rooms. destruct (OMap.has r (rooms (mgr W))) eqn:Hhas; [|done].
  apply omap_has_true in Hhas as [v Hv]. rewrite Hv in Hnot. cbn in Hnot.
  cbn zeta.
  rewrite (omap_alter_same (SSet.delete u) r (rooms (mgr W))).
  2: { intros v' Hv'. rewrite Hv in Hv'. injection Hv' as <-.
       by apply sset_delete_absent. }
  rewrite Hv. cbn. rewrite decide_False; [done|].
  unfold SSet.size. intros Hz%nil_length_inv. subst v.
  apply (Hne r []); [by apply omap_get_Some_elem|done].
Qed.

(** X5. Member lists are sets and the directory is a map: in every
    reachable state no room lists an identity twice and no room name is
    listed twice. *)
Theorem X5_rooms_list_nobody_twice W :
  reachable W →
  (∀ r, NoDup (getRoomUsers r W)) ∧ NoDup (getAllRooms W).
Proof.
  intros Hreach. split.
  - intros r. rewrite getRoomUsers_get.
    destruct (OMap.get r (rooms (mgr W))) as [v|] eqn:Hv; [|apply NoDup_nil_2].
    cbn. eapply (reachable_members_nodup _ _ _ _ Hreach), omap_get_Some_elem, Hv.
  - by apply (reachable_rooms_keys_inv clock toISOString SERVER_ID).
Qed.

(** X6. For a connected socket the three records of its identity agree:
    its [username] property is [u] exactly when [userSockets] maps it to
    [u]; then [u] is non-empty and online, and the session of [u] names
    this socket. *)
Theorem X6_socket_identity_agrees sid u W :
  reachable W → socket_connected sid W = true →
  (socket_username sid W = Some u ↔ userSockets (mgr W) !! sid = Some u)
  ∧ (userSockets (mgr W) !! sid = Some u →
     truthy u = true ∧ isUserOnline u W = true
     ∧ socketId <$> getUserInfo u W = Some sid).
Proof.
  intros Hreach Hlive%bool_decide_eq_true.
  destruct (reachable_socket_registry_inv _ _ _ _ Hreach) as [K1 K2].
  destruct (reachable_names_inv _ _ _ _ Hreach) as [N1 _].
  pose proof (reachable_registry_inv _ _ _ _ Hreach) as Hreg.
  split; [split; [by apply K2|by apply K1]|].
  intros Hus. destruct (Hreg _ _ Hus) as (info & Hinfo & Hid).
  split; [by eapply N1|]. unfold isUserOnline, getUserInfo. rewrite Hinfo.
  split; [by apply bool_decide_eq_true|]. cbn. by rewrite Hid.
Qed.

(** X7. In every reachable state every member of every room is online:
    an identity listed in a room has an entry in [connectedUsers]. *)
Theorem X7_room_members_are_online r u W :
  reachable W → u ∈ getRoomUsers r W → isUserOnline u W = true.
Proof.
  intros Hreach. rewrite getRoomUsers_get.
  destruct (OMap.get r (rooms (mgr W))) as [v|] eqn:Hv;
    [|by intros ?%elem_of_nil].
  cbn. intros Hin. apply bool_decide_eq_true.
  eapply (reachable_members_online _ _ _ _ Hreach); [|exact Hin].
  by eapply omap_get_Some_elem.
Qed.

(** X8. [initialize] is idempotent and touches only the two flags; called
    in any reachable state it leaves a manager whose [getIO] succeeds,
    while [getIO] fails on a manager fresh from the constructor. *)
Theorem X8_initialize_once W :
  reachable W →
  initialize (initialize W) = initialize W
  ∧ getIO (initialize W) = Some ()
  ∧ getIO constructor = None
  ∧ (getIO W = Some () → initialize W = W)
  ∧ connectedUsers (mgr (initialize W)) = connectedUsers (mgr W)
  ∧ userSockets (mgr (initialize W)) = userSockets (mgr W)
  ∧ rooms (mgr (initialize W)) = rooms (mgr W)
  ∧ connectionMetrics (mgr (initialize W)) = connectionMetrics (mgr W)
  ∧ outbox (initialize W) = outbox W.
Proof.
  intros Hreach.
  destruct (reachable_init_inv _ _ _ _ Hreach) as [Heq _].
  unfold initialize, getIO.
  destruct (isInitialized (mgr W)) eqn:Hinit; cbn.
  - rewrite Hinit, <- Heq. done.
  - repeat split; done.
Qed.

(** X14. The counters account for every socket: in every reachable state
    [totalConnections] is the number of sockets ever accepted,
    [totalDisconnections] is [totalConnections - currentConnections], and
    none of the three is negative. *)
Theorem X14_counters_account_for_sockets W :
  reachable W →
  totalConnections (connectionMetrics (mgr W)) = Z.of_nat (accepted_connections W)
  ∧ totalDisconnections (connectionMetrics (mgr W))
    = totalConnections (connectionMetrics (mgr W))
      - currentConnections (connectionMetrics (mgr W))
  ∧ 0 ≤ currentConnections (connectionMetrics (mgr W))
  ∧ 0 ≤ totalDisconnections (connectionMetrics (mgr W))
  ∧ io_sockets W ⊆ dom (sockets W).
Proof.
  intros Hreach.
  destruct (reachable_metrics_inv _ _ _ _ Hreach) as (Hsub & Htot & Hcur & Hdis).
  split; [done|]. split; [done|]. split; [lia|]. split; [|done].
  rewrite Hdis, Htot, Hcur. unfold accepted_connections, active_connections.
  apply subseteq_size in Hsub. lia.
Qed.

(** The session, the packets and the clock after a successful
    authentication, from the state [removeUserFromPreviousSocket] left. *)
Lemma handleAuthentication_detail sid d u W :
  auth_username d = Some u → truthy u = true →
  let W1 := removeUserFromPreviousSocket clock toISOString u W in
  let W' := handleAuthentication clock toISOString sid (Some d) W in
  let t n := toISOString (clock (n + date_reads W1)%nat) in
  connectedUsers (mgr W')
  = <[u := mkUserInfo sid
             (OMap.set "lastSeen" (JStr (t 1%nat))
                (OMap.set "connectedAt" (JStr (t 0%nat))
                   (default [] (auth_userData d))))]>
      (connectedUsers (mgr W1))
  ∧ outbox W'
    = outbox W1
      ++ [mkEmission (SocketEmit sid) "authenticated"
            [("success", JBool true);
             ("message", JStr "Successfully authenticated");
             ("username", JStr u);
             ("connectedUsers",
              JNum (Z.of_nat (size (connectedUsers (mgr W')))))];
          user_status u "online" (t 2%nat)]
  ∧ date_reads W' = (3 + date_reads W1)%nat.
Proof.
  intros Hu Ht. cbn zeta. unfold handleAuthentication. rewrite Hu.
  change (default "" (Some u)) with u.
  cbn [truthy_opt]. rewrite Ht. cbn [negb].
  set (W1 := removeUserFromPreviousSocket clock toISOString u W).
  clearbody W1.
  unfold socket_join, broadcastUserStatus, user_status. cbn.
  destruct (socket_connected sid _); cbn;
    rewrite <- ?(assoc_L (++)); done.
Qed.

(** X9. The first authentication of an identity that is not online closes
    nobody and counts nobody out: the connection counters, the connected
    sockets, the rooms and every other session are as before;
    [connectedUsers] gains the identity, the [authenticated] answer
    reports the new number of connected users, and the [online] status is
    broadcast after it. *)
Theorem X9_first_authentication sid d u W :
  auth_username d = Some u → truthy u = true →
  connectedUsers (mgr W) !! u = None →
  let W' := handleAuthentication clock toISOString sid (Some d) W in
  isUserOnline u W' = true
  ∧ socketId <$> getUserInfo u W' = Some sid
  ∧ userSockets (mgr W') = <[sid := u]> (userSockets (mgr W))
  ∧ (∀ v, v ≠ u → connectedUsers (mgr W') !! v = connectedUsers (mgr W) !! v)
  ∧ size (connectedUsers (mgr W')) = S (size (connectedUsers (mgr W)))
  ∧ connectionMetrics (mgr W') = connectionMetrics (mgr W)
  ∧ io_sockets W' = io_sockets W
  ∧ rooms (mgr W') = rooms (mgr W)
  ∧ outbox W'
    = outbox W
      ++ [mkEmission (SocketEmit sid) "authenticated"
            [("success", JBool true);
             ("message", JStr "Successfully authenticated");
             ("username", JStr u);
             ("connectedUsers",
              JNum (Z.of_nat (size (connectedUsers (mgr W))) + 1))];
          user_status u "online"
            (toISOString (clock (2 + date_reads W)%nat))]
  ∧ hooks W'
    = hooks W ++ [mkHook "user_authenticated"
                    [("username", JStr u); ("socket", JStr sid);
                     ("userData", JObj (default [] (auth_userData d)))]].
Proof.
  intros Hu Ht Hnone. cbn zeta.
  destruct (handleAuthentication_ok clock toISOString sid d u W Hu Ht)
    as (_ & HUS & Hr & Hm & _ & _ & Hio & _ & Hh & _).
  destruct (handleAuthentication_detail sid d u W Hu Ht) as (HCU & Hout & _).
  rewrite (removeUserFromPreviousSocket_absent _ _ _ _ Hnone) in *.
  assert (size (connectedUsers (mgr (handleAuthentication clock toISOString
                                       sid (Some d) W)))
          = S (size (connectedUsers (mgr W)))) as Hsize.
  { rewrite HCU. by apply map_size_insert_None. }
  unfold isUserOnline, getUserInfo. rewrite Hout, Hsize, HCU.
  rewrite lookup_insert_eq. split; [by apply bool_decide_eq_true|].
  split; [done|]. split; [done|].
  split; [intros v Hne; by rewrite lookup_insert_ne|].
  split; [done|]. do 3 (split; [done|]).
  split; [|done]. by rewrite Nat2Z.inj_succ, <- Z.add_1_r.
Qed.

(** X10. The metadata of a new session: [connectedAt] and [lastSeen] are
    two successive readings of the clock taken by the server, also when
    the client sends fields of these names; every other field the client
    sends is stored as sent; the session names the authenticating
    socket. *)
Theorem X10_session_metadata sid d u W :
  auth_username d = Some u → truthy u = true →
  let W1 := removeUserFromPreviousSocket clock toISOString u W in
  let W' := handleAuthentication clock toISOString sid (Some d) W in
  ∃ info,
    getUserInfo u W' = Some info
    ∧ socketId info = sid
    ∧ OMap.get "connectedAt" (userData info)
      = Some (JStr (toISOString (clock (date_reads W1))))
    ∧ OMap.get "lastSeen" (userData info)
      = Some (JStr (toISOString (clock (S (date_reads W1)))))
    ∧ ∀ k, k ≠ "connectedAt" → k ≠ "lastSeen" →
           OMap.get k (userData info)
           = OMap.get k (default [] (auth_userData d)).
Proof.
  intros Hu Ht. cbn zeta.
  destruct (handleAuthentication_detail sid d u W Hu Ht) as (HCU & _).
  unfold getUserInfo. rewrite HCU, lookup_insert_eq.
  eexists. split; [done|]. cbn. split; [done|]. split; [|split].
  - by rewrite omap_get_set_ne, omap_get_set_eq.
  - by rewrite omap_get_set_eq.
  - intros k Hc Hl. by rewrite !omap_get_set_ne.
Qed.


(** X12. The room part of the metrics snapshot: [rooms] is the number of
    rooms, and [roomUsers] lists every room once, in the order of the
    directory, with the size of its member list, which is never 0. *)
Theorem X12_snapshot_rooms W :
  reachable W →
  Snapshot.rooms (getConnectionMetrics W) = length (getAllRooms W)
  ∧ Snapshot.roomUsers (getConnectionMetrics W)
    = (λ r, (r, length (getRoomUsers r W))) <$> getAllRooms W
  ∧ NoDup (Snapshot.roomUsers (getConnectionMetrics W)).*1
  ∧ ∀ r n, (r, n) ∈ Snapshot.roomUsers (getConnectionMetrics W) → (0 < n)%nat.
Proof.
  intros Hreach.
  pose proof (reachable_rooms_keys_inv _ _ _ _ Hreach) as Hnd.
  pose proof (reachable_rooms_inv _ _ _ _ Hreach) as Hne.
  unfold rooms_keys_inv, rooms_inv in *.
  unfold getConnectionMetrics, getAllRooms, OMap.keys, SSet.size. cbn.
  assert (∀ r us, (r, us) ∈ rooms (mgr W) →
            OMap.get r (rooms (mgr W)) = Some us) as Hget.
  { revert Hnd. unfold OMap.keys. generalize (rooms (mgr W)).
    induction l as [|[r0 us0] l IH]; [by intros _ ? ? ?%elem_of_nil|].
    rewrite fmap_cons. cbn [fst]. intros [Hnotin Hnd]%NoDup_cons r us.
    cbn [OMap.get]. intros [[= -> ->]|Hin]%elem_of_cons.
    - by rewrite decide_True.
    - rewrite decide_False; [by apply IH|].
      intros ->. apply Hnotin. apply list_elem_of_fmap. by exists (r, us). }
  split; [by rewrite length_fmap|]. split; [|split].
  - rewrite <- list_fmap_compose. apply list_fmap_ext.
    intros i [r us] Hi. cbn. rewrite getRoomUsers_get.
    by rewrite (Hget r us) by (eapply list_elem_of_lookup_2, Hi).
  - rewrite <- list_fmap_compose.
    erewrite list_fmap_ext; [exact Hnd|]. by intros i [r us] _.
  - intros r n ((r0 & us) & [= -> ->] & Hin)%list_elem_of_fmap.
    specialize (Hne _ _ Hin). destruct us; [done|cbn; lia].
Qed.
End MorePresence.

(** *** Instances on the concrete run *)

Lemma X1_anonymous_disconnect_witness :
  userSockets (mgr Demo.alice_and_s2) !! "s2" = None
  ∧ outbox (handle Demo.clock Demo.toISOString Demo.SERVER_ID
              (EvDisconnect "s2" "transport close") Demo.alice_and_s2)
    = outbox Demo.alice_and_s2.
Proof.
  assert (userSockets (mgr Demo.alice_and_s2) !! "s2" = None) as Hu
    by (vm_compute; reflexivity).
  split; [exact Hu|].
  exact (proj1 (X1_anonymous_disconnect Demo.clock Demo.toISOString
                  Demo.SERVER_ID "s2" "transport close" Demo.alice_and_s2 Hu)).
Defined.


Lemma alice_on_s1 : socket_username "s1" Demo.alice_and_s2 = Some "alice".
Proof. by vm_compute. Qed.

Lemma X3_join_leave_directory_witness :
  socket_username "s1" Demo.alice_and_s2 = Some "alice"
  ∧ getRoomUsers "lobby"
      (handleLeaveRoom "s1" (mkRoomData "lobby" None) Demo.alice_and_s2)
    = filter (λ x, x ≠ "alice") (getRoomUsers "lobby" Demo.alice_and_s2).
Proof.
  split; [exact alice_on_s1|].
  exact (proj1 (proj2 (X3_join_leave_directory "s1" "alice" "lobby" None
                         Demo.alice_and_s2 alice_on_s1 eq_refl))).
Defined.

Lemma X4_leave_room_never_joined_witness :
  ("alice" ∉ getRoomUsers "den" Demo.alice_and_s2)
  ∧ rooms (mgr (handleLeaveRoom "s1" (mkRoomData "den" None) Demo.alice_and_s2))
    = rooms (mgr Demo.alice_and_s2).
Proof.
  assert ("alice" ∉ getRoomUsers "den" Demo.alice_and_s2) as Hnot.
  { vm_compute. intros H. inversion H. }
  split; [exact Hnot|].
  exact (proj1 (X4_leave_room_never_joined Demo.clock Demo.toISOString
                  Demo.SERVER_ID "s1" "alice" "den" None Demo.alice_and_s2
                  alice_and_s2_reachable alice_on_s1 eq_refl Hnot)).
Defined.

Lemma X5_rooms_list_nobody_twice_witness :
  reachable Demo.clock Demo.toISOString Demo.SERVER_ID Demo.alice_and_s2
  ∧ NoDup (getAllRooms Demo.alice_and_s2).
Proof.
  split; [exact alice_and_s2_reachable|].
  exact (proj2 (X5_rooms_list_nobody_twice Demo.clock Demo.toISOString
                  Demo.SERVER_ID Demo.alice_and_s2 alice_and_s2_reachable)).
Defined.

Lemma X6_socket_identity_agrees_witness :
  socket_connected "s1" Demo.alice_and_s2 = true
  ∧ (socket_username "s1" Demo.alice_and_s2 = Some "alice"
     ↔ userSockets (mgr Demo.alice_and_s2) !! "s1" = Some "alice").
Proof.
  assert (socket_connected "s1" Demo.alice_and_s2 = true) as Hlive
    by (vm_compute; reflexivity).
  split; [exact Hlive|].
  exact (proj1 (X6_socket_identity_agrees Demo.clock Demo.toISOString
                  Demo.SERVER_ID "s1" "alice" Demo.alice_and_s2
                  alice_and_s2_reachable Hlive)).
Defined.

Lemma X7_room_members_are_online_witness :
  "alice" ∈ getRoomUsers "lobby" Demo.alice_and_s2
  ∧ isUserOnline "alice" Demo.alice_and_s2 = true.
Proof.
  assert ("alice" ∈ getRoomUsers "lobby" Demo.alice_and_s2) as Hin.
  { vm_compute. left. }
  split; [exact Hin|].
  exact (X7_room_members_are_online Demo.clock Demo.toISOString Demo.SERVER_ID
           "lobby" "alice" Demo.alice_and_s2 alice_and_s2_reachable Hin).
Defined.

Lemma X8_initialize_once_witness :
  reachable Demo.clock Demo.toISOString Demo.SERVER_ID constructor
  ∧ getIO (initialize constructor) = Some ().
Proof.
  split; [apply reachable_init|].
  exact (proj1 (proj2 (X8_initialize_once Demo.clock Demo.toISOString
                         Demo.SERVER_ID constructor
                         (reachable_init _ _ _)))).
Defined.

Lemma X9_first_authentication_witness :
  connectedUsers (mgr Demo.alice_and_s2) !! "bob" = None
  ∧ isUserOnline "bob"
      (handleAuthentication Demo.clock Demo.toISOString "s2"
         (Demo.as_user "bob") Demo.alice_and_s2) = true.
Proof.
  assert (connectedUsers (mgr Demo.alice_and_s2) !! "bob" = None) as Hnone
    by (vm_compute; reflexivity).
  split; [exact Hnone|].
  exact (proj1 (X9_first_authentication Demo.clock Demo.toISOString "s2"
                  (mkAuthData (Some "bob") None None) "bob"
                  Demo.alice_and_s2 eq_refl eq_refl Hnone)).
Defined.

Lemma X10_session_metadata_witness :
  ∃ info,
    getUserInfo "bob"
      (handleAuthentication Demo.clock Demo.toISOString "s2"
         (Some (mkAuthData (Some "bob") None
                  (Some [("lastSeen", JStr "never"); ("team", JStr "red")])))
         Demo.alice_and_s2) = Some info
    ∧ socketId info = "s2".
Proof.
  destruct (X10_session_metadata Demo.clock Demo.toISOString "s2"
              (mkAuthData (Some "bob") None
                 (Some [("lastSeen", JStr "never"); ("team", JStr "red")]))
              "bob" Demo.alice_and_s2 eq_refl eq_refl)
    as (info & Hinfo & Hid & _).
  exists info. exact (conj Hinfo Hid).
Defined.


Lemma X12_snapshot_rooms_witness :
  reachable Demo.clock Demo.toISOString Demo.SERVER_ID Demo.alice_and_s2
  ∧ Snapshot.rooms (getConnectionMetrics Demo.alice_and_s2)
    = length (getAllRooms Demo.alice_and_s2).
Proof.
  split; [exact alice_and_s2_reachable|].
  exact (proj1 (X12_snapshot_rooms Demo.clock Demo.toISOString Demo.SERVER_ID
                  Demo.alice_and_s2 alice_and_s2_reachable)).
Defined.

Lemma X14_counters_account_for_sockets_witness :
  reachable Demo.clock Demo.toISOString Demo.SERVER_ID Demo.alice_and_s2
  ∧ totalConnections (connectionMetrics (mgr Demo.alice_and_s2))
    = Z.of_nat (accepted_connections Demo.alice_and_s2).
Proof.
  split; [exact alice_and_s2_reachable|].
  exact (proj1 (X14_counters_account_for_sockets Demo.clock Demo.toISOString
                  Demo.SERVER_ID Demo.alice_and_s2 alice_and_s2_reachable)).
Defined.

(** ** MessageService: who is sent what *)

Section OMapKeys.
Context {V : Type}.
Implicit Types (m : list (string * V)) (k : string) (v : V).

Lemma omap_keys_set_present k v m :
  k ∈ OMap.keys m → OMap.keys (OMap.set k v m) = OMap.keys m.
Proof.
  unfold OMap.keys. induction m as [|[k' v'] m IH]; [by intros ?%elem_of_nil|].
  cbn [OMap.set]. rewrite !fmap_cons. cbn [fst].
  destruct (decide (k' = k)) as [->|Hne]; [done|].
  intros [?|Hin]%elem_of_cons; [congruence|].
  rewrite fmap_cons. cbn [fst]. by rewrite IH.
Qed.

Lemma omap_keys_absent k m : k ∉ OMap.keys m ↔ OMap.get k m = None.
Proof. rewrite omap_elem_keys_get. symmetry. apply eq_None_not_Some. Qed.

Lemma omap_keys_set_absent k v m :
  k ∉ OMap.keys m → OMap.keys (OMap.set k v m) = OMap.keys m ++ [k].
Proof.
  intros Hk%omap_keys_absent. rewrite omap_set_fresh by done.
  unfold OMap.keys. by rewrite fmap_app.
Qed.

Lemma omap_keys_set_nodup k v m :
  NoDup (OMap.keys m) → NoDup (OMap.keys (OMap.set k v m)).
Proof.
  intros Hnd. destruct (decide (k ∈ OMap.keys m)) as [Hin|Hnot].
  - by rewrite omap_keys_set_present.
  - rewrite omap_keys_set_absent by done. apply NoDup_app.
    split; [done|]. split; [|apply NoDup_singleton].
    intros x Hx Hx'. apply list_elem_of_singleton in Hx'. by subst.
Qed.
End OMapKeys.

Section Senders.
Variable clock : nat → Z.
Variable toISOString : Z → string.
Variable SERVER_ID : option string.

#[local] Abbreviation reachable := (reachable clock toISOString SERVER_ID).
#[local] Abbreviation formatMessage := (formatMessage clock toISOString SERVER_ID).
#[local] Abbreviation sendToUser := (sendToUser clock toISOString SERVER_ID).
#[local] Abbreviation sendToUsers := (sendToUsers clock toISOString SERVER_ID).
#[local] Abbreviation sendToUsers_results :=
  (sendToUsers_results clock toISOString SERVER_ID).
#[local] Abbreviation sendToRoom := (sendToRoom clock toISOString SERVER_ID).
#[local] Abbreviation broadcast := (broadcast clock toISOString SERVER_ID).

(** X18. The envelope.  [formatMessage] keeps the fields of the payload in
    their order; a payload without fields named [timestamp] and
    [serverId] gets the two appended, in this order, and a payload that
    has such fields gets their values replaced where they stand.  No field
    name is doubled, and [serverId] is the environment's [SERVER_ID], or
    [server-1] when that is unset or empty. *)
Theorem X18_envelope data W :
  let message := (formatMessage data W).1 in
  let t := JStr (toISOString (clock (date_reads W))) in
  let s := JStr (serverId SERVER_ID) in
  ("timestamp" ∉ OMap.keys data → "serverId" ∉ OMap.keys data →
   message = data ++ [("timestamp", t); ("serverId", s)])
  ∧ ("timestamp" ∈ OMap.keys data → "serverId" ∈ OMap.keys data →
     OMap.keys message = OMap.keys data
     ∧ OMap.get "timestamp" message = Some t
     ∧ OMap.get "serverId" message = Some s)
  ∧ (NoDup (OMap.keys data) → NoDup (OMap.keys message))
  ∧ (SERVER_ID = None ∨ SERVER_ID = Some "" → serverId SERVER_ID = "server-1")
  ∧ (∀ id, SERVER_ID = Some id → id ≠ "" → serverId SERVER_ID = id).
Proof.
  cbn zeta. unfold formatMessage. cbn.
  set (t := JStr (toISOString (clock (date_reads W)))).
  set (s := JStr (serverId SERVER_ID)).
  split; [|split; [|split; [|split]]].
  - intros Ht Hs.
    rewrite (omap_set_fresh "timestamp" t data) by by apply omap_keys_absent.
    rewrite omap_set_fresh.
    + by rewrite <- app_assoc.
    + apply omap_keys_absent. unfold OMap.keys. rewrite fmap_app.
      intros [?|Hin]%elem_of_app; [done|].
      cbn in Hin. by apply list_elem_of_singleton in Hin.
  - intros Ht Hs. split; [|split].
    + assert (OMap.keys (OMap.set "timestamp" t data) = OMap.keys data) as Hk
        by by apply omap_keys_set_present.
      etrans; [apply omap_keys_set_present; by rewrite Hk|exact Hk].
    + by rewrite omap_get_set_ne, omap_get_set_eq.
    + by rewrite omap_get_set_eq.
  - intros Hnd. by do 2 apply omap_keys_set_nodup.
  - by intros [->| ->].
  - intros id -> Hid. cbn. unfold truthy.
    destruct (String.eqb_spec id ""); [done|done].
Qed.

Lemma sendToUser_online u ev data W info :
  getUserInfo u W = Some info → getIO W = Some () →
  sendToUser u ev data W
  = (true, emit (IoTo (socketId info)) ev (formatMessage data W).1
             (formatMessage data W).2).
Proof. intros Hinfo Hio. unfold sendToUser. by rewrite Hinfo, Hio. Qed.

Lemma sendToUser_offline u ev data W :
  getUserInfo u W = None → sendToUser u ev data W = (false, W).
Proof. intros Hinfo. unfold sendToUser. by rewrite Hinfo. Qed.

Lemma sendToUser_uninitialised u ev data W :
  getIO W = None → sendToUser u ev data W = (false, W).
Proof.
  intros Hio. unfold sendToUser. rewrite Hio. by destruct (getUserInfo u W).
Qed.

Lemma sendToUsers_results_uninitialised us ev data W :
  getIO W = None →
  sendToUsers_results us ev data W = (replicate (length us) false, W).
Proof.
  intros Hio. induction us as [|u us IH]; [done|].
  cbn [length replicate].
  change (sendToUsers_results (u :: us) ev data W)
    with (let '(b, W1) := sendToUser u ev data W in
          let '(bs, W2) := sendToUsers_results us ev data W1 in (b :: bs, W2)).
  rewrite sendToUser_uninitialised by done. by rewrite IH.
Qed.

(** X13. Before [initialize] every sender fails closed: [getIO] throws,
    the [catch] of the sender answers [false] ([0] for [sendToUsers]),
    and nothing has happened; in particular the clock has not been
    read and no packet was handed to socket.io. *)
Theorem X13_senders_before_initialize u us room ev data W :
  getIO W = None →
  sendToUser u ev data W = (false, W)
  ∧ sendToUsers us ev data W = (0%nat, W)
  ∧ broadcast ev data W = (false, W)
  ∧ sendToRoom room ev data W = (false, W).
Proof.
  intros Hio. split; [by apply sendToUser_uninitialised|]. split; [|split].
  - unfold sendToUsers. rewrite sendToUsers_results_uninitialised by done.
    f_equal. induction us as [|? us IH]; [done|]. cbn [length replicate].
    rewrite filter_cons_False by done. exact IH.
  - unfold broadcast. by rewrite Hio.
  - unfold sendToRoom. by rewrite Hio.
Qed.

(** X15. [broadcast] answers [true] exactly when the server has been
    initialised, whether or not anybody is connected.  It then hands one
    packet to [io.emit], the enveloped payload under the given event name,
    and reads the clock once; the manager and the sockets are untouched. *)
Theorem X15_broadcast ev data W :
  let r := broadcast ev data W in
  ((r.1 = true ↔ getIO W = Some ()))
  ∧ (getIO W = Some () →
     outbox r.2 = outbox W ++ [mkEmission IoEmit ev (formatMessage data W).1]
     ∧ date_reads r.2 = S (date_reads W))
  ∧ mgr r.2 = mgr W ∧ sockets r.2 = sockets W ∧ io_sockets r.2 = io_sockets W
  ∧ hooks r.2 = hooks W.
Proof.
  cbn zeta. unfold broadcast. destruct (getIO W) as [[]|]; cbn.
  - by repeat split.
  - repeat split; done.
Qed.

(** X16. [sendToRoom] does not consult the room directory: once the
    server is initialised it answers [true] and hands one packet to
    [io.to(room)] for every room name, also one that [getAllRooms] does
    not list and [getRoomUsers] reports empty.  The directory is as
    before. *)
Theorem X16_sendToRoom_any_name room ev data W :
  let r := sendToRoom room ev data W in
  ((r.1 = true ↔ getIO W = Some ()))
  ∧ (getIO W = Some () →
     outbox r.2 = outbox W ++ [mkEmission (IoTo room) ev (formatMessage data W).1]
     ∧ date_reads r.2 = S (date_reads W))
  ∧ mgr r.2 = mgr W ∧ sockets r.2 = sockets W ∧ io_sockets r.2 = io_sockets W
  ∧ hooks r.2 = hooks W
  ∧ getRoomUsers room r.2 = getRoomUsers room W.
Proof.
  cbn zeta. unfold sendToRoom. destruct (getIO W) as [[]|]; cbn.
  - by repeat split.
  - repeat split; done.
Qed.
Lemma sendToUsers_results_spec us ev data W :
  (∀ u, is_Some (connectedUsers (mgr W) !! u) → getIO W = Some ()) →
  let r := sendToUsers_results us ev data W in
  r.1 = (λ u, isUserOnline u W) <$> us
  ∧ mgr r.2 = mgr W ∧ sockets r.2 = sockets W ∧ io_sockets r.2 = io_sockets W
  ∧ hooks r.2 = hooks W
  ∧ ∃ new, outbox r.2 = outbox W ++ new
      ∧ target <$> new
        = omap (λ u, (λ info, IoTo (socketId info)) <$> getUserInfo u W) us
      ∧ Forall (λ e, event e = ev) new
      ∧ date_reads r.2 = (date_reads W + length new)%nat.
Proof.
  revert W. induction us as [|u us IH]; intros W Hio; cbn zeta.
  - cbn. do 5 (split; [done|]). exists []. rewrite app_nil_r.
    split; [done|]. split; [done|]. split; [by apply Forall_nil|cbn; lia].
  - change (sendToUsers_results (u :: us) ev data W)
      with (let '(b, W1) := sendToUser u ev data W in
            let '(bs, W2) := sendToUsers_results us ev data W1 in (b :: bs, W2)).
    rewrite fmap_cons. cbn [omap list_omap].
    destruct (getUserInfo u W) as [info|] eqn:Hinfo;
      cbn [fmap option_fmap option_map].
    + assert (isUserOnline u W = true) as ->.
      { unfold isUserOnline. apply bool_decide_eq_true.
        unfold getUserInfo in Hinfo. eauto. }
      rewrite (sendToUser_online u ev data W info Hinfo)
        by (apply (Hio u); unfold getUserInfo in Hinfo; eauto).
      set (W1 := emit _ _ _ _).
      assert (mgr W1 = mgr W) as Hm by done.
      assert (∀ u', is_Some (connectedUsers (mgr W1) !! u') → getIO W1 = Some ())
        as Hio1 by (intros u'; unfold getIO; rewrite Hm; apply Hio).
      specialize (IH W1 Hio1).
      destruct (sendToUsers_results us ev data W1) as [bs W2].
      destruct IH as (Hbs & Hm2 & Hs2 & Hi2 & Hh2 & new & Ho & Ht & Hev & Hd).
      cbn [fst snd] in *. split.
      { rewrite Hbs. unfold isUserOnline. by rewrite Hm. }
      split; [by rewrite Hm2|]. do 3 (split; [by etrans|]).
      exists (mkEmission (IoTo (socketId info)) ev (formatMessage data W).1 :: new).
      split; [|split; [|split]].
      * rewrite Ho. subst W1. cbn. by rewrite <- app_assoc.
      * rewrite fmap_cons. cbn [fmap option_fmap option_map target].
        f_equal.
        rewrite Ht. unfold getUserInfo. by rewrite Hm.
      * by constructor.
      * rewrite Hd. subst W1. cbn. lia.
    + assert (isUserOnline u W = false) as ->.
      { unfold isUserOnline. apply bool_decide_eq_false.
        unfold getUserInfo in Hinfo. rewrite Hinfo. by intros [? ?]. }
      rewrite (sendToUser_offline u ev data W Hinfo).
      specialize (IH W Hio).
      destruct (sendToUsers_results us ev data W) as [bs W2].
      destruct IH as (Hbs & Hm2 & Hs2 & Hi2 & Hh2 & new & Ho & Ht & Hev & Hd).
      cbn [fst snd] in *. split; [by rewrite Hbs|]. do 4 (split; [done|]).
      by exists new.
Qed.

Lemma count_true_fmap {A} (f : A → bool) (l : list A) :
  length (filter (λ b, b = true) (f <$> l))
  = length (filter (λ x, f x = true) l).
Proof.
  induction l as [|x l IH]; [done|]. rewrite fmap_cons.
  destruct (f x) eqn:Hx.
  - rewrite (filter_cons_True (λ b, b = true)) by done.
    rewrite (filter_cons_True (λ x, f x = true)) by done.
    cbn. by rewrite IH.
  - rewrite (filter_cons_False (λ b, b = true)) by done.
    rewrite (filter_cons_False (λ x, f x = true)) by (by rewrite Hx).
    exact IH.
Qed.

Lemma omap_length_online (us : list string) W :
  length (omap (λ u, (λ info, IoTo (socketId info)) <$> getUserInfo u W) us)
  = length (filter (λ u, isUserOnline u W = true) us).
Proof.
  induction us as [|u us IH]; [done|]. cbn [omap list_omap].
  destruct (getUserInfo u W) as [info|] eqn:Hu;
    cbn [fmap option_fmap option_map]; unfold getUserInfo in Hu.
  - rewrite (filter_cons_True (λ u, isUserOnline u W = true)).
    + cbn [length]. f_equal. exact IH.
    + unfold isUserOnline. apply bool_decide_eq_true. eauto.
  - rewrite (filter_cons_False (λ u, isUserOnline u W = true)); [exact IH|].
    unfold isUserOnline. rewrite Hu. intros [? ?]%bool_decide_eq_true. done.
Qed.

(** X17. [sendToUsers] in a reachable state: the number it returns is the
    number of listed names that are online, a name listed twice counting
    twice.  One packet per such name is handed to socket.io, in the order
    of the list, each to the socket id of the name's session, all under
    the given event; the clock is read once per packet.  Names that are
    not online are skipped without a packet.  The manager and the sockets
    are untouched. *)
Theorem X17_sendToUsers us ev data W :
  reachable W →
  let r := sendToUsers us ev data W in
  let online := filter (λ u, isUserOnline u W = true) us in
  r.1 = length online
  ∧ (∃ new, outbox r.2 = outbox W ++ new
       ∧ target <$> new
         = omap (λ u, (λ info, IoTo (socketId info)) <$> getUserInfo u W) us
       ∧ Forall (λ e, event e = ev) new
       ∧ length new = length online)
  ∧ date_reads r.2 = (date_reads W + length online)%nat
  ∧ mgr r.2 = mgr W ∧ sockets r.2 = sockets W ∧ io_sockets r.2 = io_sockets W.
Proof.
  intros Hreach. cbn zeta. unfold sendToUsers.
  assert (∀ u, is_Some (connectedUsers (mgr W) !! u) → getIO W = Some ())
    as Hio
    by (intros u Hu;
        by apply (reachable_online_getIO clock toISOString SERVER_ID W u)).
  pose proof (sendToUsers_results_spec us ev data W Hio) as Hspec.
  destruct (sendToUsers_results us ev data W) as [bs W2].
  destruct Hspec as (Hbs & Hm & Hs & Hi & _ & new & Ho & Ht & Hev & Hd).
  cbn [fst snd] in *.
  assert (length new = length (filter (λ u, isUserOnline u W = true) us)) as Hlen.
  { rewrite <- omap_length_online, <- Ht. by rewrite length_fmap. }
  split; [by rewrite Hbs, count_true_fmap|]. split.
  - exists new. by repeat split.
  - split; [by rewrite Hd, Hlen|done].
Qed.

(** X19. A notification carries the action [user_notification] whatever
    the caller put under [action]: in the packet of [notifyUser] the
    object under [data] has the caller's other fields unchanged and
    [action] set by the service, and the outer [type] is [NOTIFICATION].
    The packet goes out under the event [notification]; for a name that is
    not online nothing is sent. *)
Theorem X19_notifyUser_action u notification W :
  let r := notifyUser clock toISOString SERVER_ID u notification W in
  let inner := OMap.set "action" (JStr "user_notification") notification in
  (OMap.get "action" inner = Some (JStr "user_notification")
   ∧ ∀ k, k ≠ "action" → OMap.get k inner = OMap.get k notification)
  ∧ (getUserInfo u W = None → r = (false, W))
  ∧ (∀ info, getUserInfo u W = Some info → getIO W = Some () →
       r.1 = true
       ∧ ∃ message,
           outbox r.2
           = outbox W ++ [mkEmission (IoTo (socketId info)) "notification" message]
           ∧ OMap.get "type" message = Some (JStr "NOTIFICATION")
           ∧ OMap.get "data" message = Some (JObj inner)).
Proof.
  cbn zeta. split; [|split].
  - split; [by rewrite omap_get_set_eq|].
    intros k Hk. by rewrite omap_get_set_ne.
  - intros Hinfo. unfold notifyUser. by apply sendToUser_offline.
  - intros info Hinfo Hio. unfold notifyUser.
    rewrite (sendToUser_online _ _ _ _ info Hinfo Hio). cbn [fst snd].
    split; [done|]. eexists. split; [reflexivity|].
    destruct (formatMessage_envelope clock toISOString SERVER_ID
                [("type", JStr "NOTIFICATION");
                 ("data", JObj (OMap.set "action" (JStr "user_notification")
                                  notification))] W) as (_ & _ & Hk).
    cbn zeta in Hk. rewrite !Hk by done. by cbn.
Qed.
End Senders.

(** *** Instances for the senders *)

Lemma X13_senders_before_initialize_witness :
  getIO constructor = None
  ∧ sendToUsers Demo.clock Demo.toISOString Demo.SERVER_ID ["alice"; "bob"]
      "notification" [("text", JStr "hi")] constructor = (0%nat, constructor).
Proof.
  assert (getIO constructor = None) as Hio by (vm_compute; reflexivity).
  split; [exact Hio|].
  exact (proj1 (proj2 (X13_senders_before_initialize Demo.clock
                         Demo.toISOString Demo.SERVER_ID "alice"
                         ["alice"; "bob"] "lobby" "notification"
                         [("text", JStr "hi")] constructor Hio))).
Defined.

Lemma X15_broadcast_witness :
  getIO Demo.alice_and_s2 = Some ()
  ∧ (broadcast Demo.clock Demo.toISOString Demo.SERVER_ID "news"
       [("text", JStr "hi")] Demo.alice_and_s2).1 = true.
Proof.
  assert (getIO Demo.alice_and_s2 = Some ()) as Hio by (vm_compute; reflexivity).
  split; [exact Hio|].
  exact (proj2 (proj1 (X15_broadcast Demo.clock Demo.toISOString Demo.SERVER_ID
                         "news" [("text", JStr "hi")] Demo.alice_and_s2)) Hio).
Defined.

Lemma X16_sendToRoom_any_name_witness :
  getIO Demo.alice_and_s2 = Some ()
  ∧ getRoomUsers "den" Demo.alice_and_s2 = []
  ∧ (sendToRoom Demo.clock Demo.toISOString Demo.SERVER_ID "den" "news"
       [("text", JStr "hi")] Demo.alice_and_s2).1 = true.
Proof.
  assert (getIO Demo.alice_and_s2 = Some ()) as Hio by (vm_compute; reflexivity).
  split; [exact Hio|]. split; [vm_compute; reflexivity|].
  exact (proj2 (proj1 (X16_sendToRoom_any_name Demo.clock Demo.toISOString
                         Demo.SERVER_ID "den" "news" [("text", JStr "hi")]
                         Demo.alice_and_s2)) Hio).
Defined.

Lemma X17_sendToUsers_witness :
  reachable Demo.clock Demo.toISOString Demo.SERVER_ID Demo.alice_and_s2
  ∧ (sendToUsers Demo.clock Demo.toISOString Demo.SERVER_ID
       ["bob"; "alice"; "alice"] "notification" [("text", JStr "hi")]
       Demo.alice_and_s2).1
    = length (filter (λ u, isUserOnline u Demo.alice_and_s2 = true)
                ["bob"; "alice"; "alice"]).
Proof.
  split; [exact alice_and_s2_reachable|].
  exact (proj1 (X17_sendToUsers Demo.clock Demo.toISOString Demo.SERVER_ID
                  ["bob"; "alice"; "alice"] "notification" [("text", JStr "hi")]
                  Demo.alice_and_s2 alice_and_s2_reachable)).
Defined.

Lemma X18_envelope_witness :
  ("timestamp" ∉ OMap.keys [("text", JStr "hi")])
  ∧ ("serverId" ∉ OMap.keys [("text", JStr "hi")])
  ∧ (formatMessage Demo.clock Demo.toISOString Demo.SERVER_ID
       [("text", JStr "hi")] constructor).1
    = [("text", JStr "hi")]
      ++ [("timestamp", JStr (Demo.toISOString (Demo.clock 0%nat)));
          ("serverId", JStr (serverId Demo.SERVER_ID))].
Proof.
  assert ("timestamp" ∉ OMap.keys [("text", JStr "hi")]) as Ht.
  { intros H. apply list_elem_of_singleton in H. discriminate H. }
  assert ("serverId" ∉ OMap.keys [("text", JStr "hi")]) as Hs.
  { intros H. apply list_elem_of_singleton in H. discriminate H. }
  split; [exact Ht|]. split; [exact Hs|].
  exact (proj1 (X18_envelope Demo.clock Demo.toISOString Demo.SERVER_ID
                  [("text", JStr "hi")] constructor) Ht Hs).
Defined.

Lemma X19_notifyUser_action_witness :
  getUserInfo "bob" Demo.alice_and_s2 = None
  ∧ notifyUser Demo.clock Demo.toISOString Demo.SERVER_ID "bob"
      [("action", JStr "mine")] Demo.alice_and_s2
    = (false, Demo.alice_and_s2).
Proof.
  assert (getUserInfo "bob" Demo.alice_and_s2 = None) as Hoff
    by (vm_compute; reflexivity).
  split; [exact Hoff|].
  exact (proj1 (proj2 (X19_notifyUser_action Demo.clock Demo.toISOString
                         Demo.SERVER_ID "bob" [("action", JStr "mine")]
                         Demo.alice_and_s2)) Hoff).
Defined.

(** ** The HTTP side: who gets in, and what is given out *)

Section SplitFacts.
Implicit Types (sep : Ascii.ascii) (a b : string).

Lemma split_not_nil sep a : split sep a ≠ [].
Proof.
  destruct a as [|c a]; cbn [split]; [done|].
  destruct (Ascii.eqb c sep); [done|]. by destruct (split sep a).
Qed.

Lemma split_without sep a : occurs sep a = false → split sep a = [a].
Proof.
  induction a as [|c a IH]; cbn [split occurs]; [done|].
  destruct (Ascii.eqb c sep); cbn [orb]; [done|]. intros Ha. by rewrite IH.
Qed.

Lemma split_at_first sep a b :
  occurs sep a = false →
  split sep (a +:+ String sep b) = a :: split sep b.
Proof.
  induction a as [|c a IH].
  - intros _. change ("" +:+ String sep b) with (String sep b).
    cbn [split]. by rewrite Ascii.eqb_refl.
  - change (String c a +:+ String sep b) with (String c (a +:+ String sep b)).
    cbn [split occurs].
    destruct (Ascii.eqb c sep); cbn [orb]; [done|]. intros Ha. by rewrite IH.
Qed.

Lemma truthy_append_sep sep a b : truthy (a +:+ String sep b) = true.
Proof. by destruct a. Qed.
End SplitFacts.

Section AuthFacts.
Variable clock : nat → Z.
Variable toISOString : Z → string.
Variable jwt_verify : string → option (list (string * jsval)).
Variable jwt_sign : list (string * option jsval) → string.
Variable bcrypt_hash : string → string.
Variable bcrypt_compare : string → option jsval → Result bool.
Variable db_single :
  string → string → option jsval → Answer (list (string * jsval)).
Variable db_select :
  string → list (string * jsval) → Answer (list (list (string * jsval))).
Variable db_users_or :
  string → string → Answer (list (list (string * jsval))).
Variable db_insert :
  string → list (string * jsval) → Answer (list (string * jsval)).

#[local] Abbreviation getUserProfile := (getUserProfile db_single).
#[local] Abbreviation authenticateToken := (authenticateToken jwt_verify db_single).
#[local] Abbreviation optionalAuth := (optionalAuth jwt_verify db_single).
#[local] Abbreviation auth_response := (auth_response jwt_sign).
#[local] Abbreviation findUserByEmail := (findUserByEmail db_select).
#[local] Abbreviation loginUser := (loginUser jwt_sign bcrypt_compare db_select).
#[local] Abbreviation registerUser :=
  (registerUser clock toISOString jwt_sign bcrypt_hash db_users_or db_insert).

Lemma getUserProfile_Return userId user :
  getUserProfile userId = Return user
  ↔ ∃ row, ans_error (db_single "users" "id" userId) = None
           ∧ ans_data (db_single "users" "id" userId) = Some row
           ∧ user = OMap.delete "password" row.
Proof.
  unfold getUserProfile, findById.
  destruct (ans_error _) as [msg|]; [split; [done|by intros (? & ? & _)]|].
  destruct (ans_data _) as [row|].
  - split.
    + intros [= <-]. by exists row.
    + intros (row' & _ & [= <-] & ->). done.
  - split; [done|by intros (? & _ & ? & _)].
Qed.

Lemma authenticateToken_cases authHeader :
  authenticateToken authHeader
  = match header_token authHeader with
    | Some token =>
        if truthy token then
          match jwt_verify token with
          | Some decoded =>
              match getUserProfile (OMap.get "id" decoded) with
              | Return user => Next (Some user)
              | Throw _ => access_denied "Invalid or expired token"
              end
          | None => access_denied "Invalid or expired token"
          end
        else access_denied "No token provided"
    | None => access_denied "No token provided"
    end.
Proof.
  unfold authenticateToken, verifyToken.
  destruct (header_token authHeader) as [token|]; cbn [truthy_opt]; [|done].
  destruct (truthy token); cbn [negb default from_option]; [|done].
  unfold id. by destruct (jwt_verify token).
Qed.

(** X20. [authenticateToken] has three outcomes and no other.  It answers
    401 [No token provided] exactly when the header yields no non-empty
    token; it lets the request through exactly when the token verifies
    and the database has the row of the [id] in its payload, and then
    [req.user] is that row without its [password]; in every other case it
    answers 401 [Invalid or expired token].  The answer [Invalid token]
    of the source is never given, and the request never goes on without
    [req.user]. *)
Theorem X20_authenticateToken_outcomes authHeader :
  let out := authenticateToken authHeader in
  (out = access_denied "No token provided"
   ↔ truthy_opt (header_token authHeader) = false)
  ∧ (∀ user, out = Next (Some user)
       ↔ ∃ token decoded row,
           header_token authHeader = Some token ∧ truthy token = true
           ∧ jwt_verify token = Some decoded
           ∧ ans_error (db_single "users" "id" (OMap.get "id" decoded)) = None
           ∧ ans_data (db_single "users" "id" (OMap.get "id" decoded)) = Some row
           ∧ user = OMap.delete "password" row)
  ∧ (out = access_denied "No token provided"
     ∨ out = access_denied "Invalid or expired token"
     ∨ ∃ user, out = Next (Some user))
  ∧ out ≠ access_denied "Invalid token"
  ∧ out ≠ Next None.
Proof.
  cbn zeta. rewrite authenticateToken_cases.
  destruct (header_token authHeader) as [token|] eqn:Htok; cbn [truthy_opt];
    [destruct (truthy token) eqn:Htruthy|].
  - destruct (jwt_verify token) as [decoded|] eqn:Hv.
    + destruct (getUserProfile (OMap.get "id" decoded)) as [user|e] eqn:Hp.
      * apply getUserProfile_Return in Hp as (row & He & Hd & ->).
        split; [by split|]. split; [|split; [|done]].
        -- intros user. split.
           ++ intros [= <-]. by exists token, decoded, row.
           ++ intros (token' & decoded' & row' & [= <-] & _ & Hv' & _ & Hd' & ->).
              rewrite Hv in Hv'. injection Hv' as <-.
              rewrite Hd in Hd'. by injection Hd' as <-.
        -- right. right. eauto.
      * split; [by split|]. split; [|split; [by right; left|done]].
        intros user. split; [done|].
        intros (token' & decoded' & row' & [= <-] & _ & Hv' & He & Hd & ->).
        rewrite Hv in Hv'. injection Hv' as <-.
        assert (getUserProfile (OMap.get "id" decoded)
                = Return (OMap.delete "password" row')) as Hp'
          by (apply getUserProfile_Return; eauto).
        by rewrite Hp in Hp'.
    + split; [by split|]. split; [|split; [by right; left|done]].
      intros user. split; [done|].
      intros (token' & decoded' & row' & [= <-] & _ & Hv' & _). by rewrite Hv in Hv'.
  - split; [by split|]. split; [|split; [by left|done]].
    intros user. split; [done|].
    intros (token' & ? & ? & [= <-] & Ht & _). by rewrite Htruthy in Ht.
  - split; [by split|]. split; [|split; [by left|done]].
    intros user. split; [done|]. by intros (? & ? & ? & ? & _).
Qed.

(** X21. [optionalAuth] never answers.  It lets through, with the same
    [req.user], every request that [authenticateToken] lets through, and
    it lets through without [req.user] every request that
    [authenticateToken] turns away: a token that does not verify is
    treated as no token. *)
Theorem X21_optionalAuth_never_answers authHeader :
  optionalAuth authHeader
  = match authenticateToken authHeader with
    | Next req_user => Next req_user
    | Respond _ _ => Next None
    end.
Proof.
  unfold optionalAuth, authenticateToken.
  destruct (truthy_opt (header_token authHeader)); cbn [negb]; [|done].
  destruct (verifyToken jwt_verify _); [|done].
  by destruct (getUserProfile _).
Qed.

(** X22. The scheme word of the header is not looked at.  The token is
    what stands between the first and the second space: a header of two
    words yields its second word whatever the first is, also when the
    first is empty, and anything after a second space is dropped.  A
    header without a space, and a header with two spaces after the first
    word, yield no token.  So two headers that differ in the scheme only
    are treated alike. *)
Theorem X22_scheme_not_checked scheme scheme' tok rest :
  occurs Ascii.Space scheme = false →
  occurs Ascii.Space scheme' = false →
  occurs Ascii.Space tok = false →
  header_token (Some (scheme +:+ " " +:+ tok)) = Some tok
  ∧ header_token (Some (scheme +:+ " " +:+ tok +:+ " " +:+ rest)) = Some tok
  ∧ truthy_opt (header_token (Some scheme)) = false
  ∧ truthy_opt (header_token (Some (scheme +:+ "  " +:+ rest))) = false
  ∧ authenticateToken (Some (scheme +:+ " " +:+ tok))
    = authenticateToken (Some (scheme' +:+ " " +:+ tok)).
Proof.
  intros Hs Hs' Ht.
  assert (∀ s, occurs Ascii.Space s = false →
               header_token (Some (s +:+ " " +:+ tok)) = Some tok) as Htwo.
  { intros s Hsp. unfold header_token.
    change (s +:+ " " +:+ tok) with (s +:+ String Ascii.Space tok).
    rewrite truthy_append_sep, split_at_first by done.
    by rewrite split_without. }
  split; [by apply Htwo|]. split; [|split; [|split]].
  - unfold header_token.
    change (scheme +:+ " " +:+ tok +:+ " " +:+ rest)
      with (scheme +:+ String Ascii.Space (tok +:+ String Ascii.Space rest)).
    rewrite truthy_append_sep, split_at_first by done.
    by rewrite split_at_first.
  - unfold header_token. destruct (truthy scheme) eqn:Hne.
    + by rewrite split_without.
    + cbn. exact Hne.
  - unfold header_token.
    change (scheme +:+ "  " +:+ rest)
      with (scheme +:+ String Ascii.Space (String Ascii.Space rest)).
    rewrite truthy_append_sep, split_at_first by done.
    done.
  - unfold authenticateToken. by rewrite !Htwo.
Qed.

(** X23. No answer of the service carries a password.  The profile
    [getUserProfile] returns, the [req.user] the middlewares assign, and
    the [user] in what [loginUser] and [registerUser] return have no
    field [password], whatever row the database hands over. *)
Theorem X23_password_never_given_out :
  (∀ userId user, getUserProfile userId = Return user →
                  OMap.get "password" user = None)
  ∧ (∀ authHeader user,
       authenticateToken authHeader = Next (Some user)
       ∨ optionalAuth authHeader = Next (Some user) →
       OMap.get "password" user = None)
  ∧ (∀ email password response,
       loginUser email password = Return response →
       ∃ user, OMap.get "user" response = Some (JObj user)
               ∧ OMap.get "password" user = None
               ∧ OMap.keys response = ["user"; "token"; "expiresIn"])
  ∧ (∀ email username name password W response,
       (registerUser email username name password W).1 = Return response →
       ∃ user, OMap.get "user" response = Some (JObj user)
               ∧ OMap.get "password" user = None
               ∧ OMap.keys response = ["user"; "token"; "expiresIn"]).
Proof.
  assert (∀ userId user, getUserProfile userId = Return user →
                         OMap.get "password" user = None) as Hprofile.
  { intros userId user (row & _ & _ & ->)%getUserProfile_Return.
    apply omap_get_delete_eq. }
  assert (∀ authHeader user, authenticateToken authHeader = Next (Some user) →
                             OMap.get "password" user = None) as Hmw.
  { intros authHeader user. unfold authenticateToken.
    destruct (negb _); [done|]. destruct (verifyToken jwt_verify _); [|done].
    destruct (getUserProfile _) as [user'|] eqn:Hp; [|done].
    intros [= <-]. by apply (Hprofile _ _ Hp). }
  assert (∀ row response, response = auth_response row →
            ∃ user, OMap.get "user" response = Some (JObj user)
                    ∧ OMap.get "password" user = None
                    ∧ OMap.keys response = ["user"; "token"; "expiresIn"])
    as Hresp.
  { intros row response ->. exists (OMap.delete "password" row).
    split; [done|]. split; [apply omap_get_delete_eq|done]. }
  split; [exact Hprofile|]. split; [|split].
  - intros authHeader user [H|H]; [by apply (Hmw authHeader)|].
    revert H. unfold optionalAuth.
    destruct (truthy_opt _); [|done].
    destruct (verifyToken jwt_verify _); [|done].
    destruct (getUserProfile _) as [user'|] eqn:Hp; [|done].
    intros [= <-]. by apply (Hprofile _ _ Hp).
  - intros email password response. unfold loginUser.
    destruct (findUserByEmail email) as [[user|]|]; [|done|done].
    destruct (bcrypt_compare _ _) as [[]|]; [|done|done].
    intros [= <-]. by apply (Hresp user).
  - intros email username name password W response. unfold registerUser.
    destruct (findUserByEmailOrUsername _ _ _) as [existing|]; [|done].
    destruct (match existing with Some _ => _ | None => _ end); [done|].
    cbn. destruct (create _ _ _) as [[newUser|]|]; [|done|done].
    cbn. intros [= <-]. by apply (Hresp newUser).
Qed.
Lemma findUserByEmail_cases email :
  let answer := db_select "users"
                  (match email with Some e => [("email", JStr e)] | None => [] end) in
  findUserByEmail email
  = match ans_error answer with
    | Some msg => Throw (JsError ("Failed to find users: " +:+ msg))
    | None => first_or_null (ans_data answer)
    end.
Proof.
  cbn zeta. unfold findUserByEmail, findMany. destruct email as [e|]; cbn.
  - by destruct (ans_error _).
  - by destruct (ans_error _).
Qed.

(** X24. [loginUser] does not tell an unknown email from a wrong
    password: when the database has no row for the email, and when it has
    one and the password does not match its hash, the same error is
    thrown.  It returns exactly when the first row the database gives
    matches the password, and then the answer is built from that row.  The
    query filters on [email] when one is given; without an email it has
    no filter at all. *)
Theorem X24_login_failures_alike email password :
  let answer := db_select "users"
                  (match email with Some e => [("email", JStr e)] | None => [] end) in
  let r := loginUser email password in
  (ans_error answer = None → ans_data answer = Some [] →
   r = Throw (JsError "Invalid email or password"))
  ∧ (∀ user rest,
       ans_error answer = None → ans_data answer = Some (user :: rest) →
       bcrypt_compare password (OMap.get "password" user) = Return false →
       r = Throw (JsError "Invalid email or password"))
  ∧ (∀ response,
       r = Return response
       ↔ ∃ user rest,
           ans_error answer = None ∧ ans_data answer = Some (user :: rest)
           ∧ bcrypt_compare password (OMap.get "password" user) = Return true
           ∧ response = auth_response user).
Proof.
  cbn zeta. unfold loginUser. rewrite findUserByEmail_cases. cbn zeta.
  destruct (ans_error _) as [msg|].
  { split; [done|]. split; [done|]. intros response.
    split; [done|]. by intros (? & ? & ? & _). }
  destruct (ans_data _) as [[|user rest]|]; cbn [first_or_null].
  - split; [done|]. split; [done|]. intros response.
    split; [done|]. by intros (? & ? & _ & ? & _).
  - split; [done|]. split.
    + intros user' rest' _ [= <- <-] ->. done.
    + intros response.
      destruct (bcrypt_compare password (OMap.get "password" user))
        as [[]|e] eqn:Hc.
      * split.
        -- intros [= <-]. by exists user, rest.
        -- intros (user' & rest' & _ & [= <- <-] & _ & ->). done.
      * split; [done|].
        intros (user' & rest' & _ & [= <- <-] & Hc' & _).
        rewrite Hc in Hc'. done.
      * split; [done|].
        intros (user' & rest' & _ & [= <- <-] & Hc' & _).
        rewrite Hc in Hc'. done.
  - split; [done|]. split; [done|]. intros response.
    split; [done|]. by intros (? & ? & _ & ? & _).
Qed.

(** The row was created: the answer comes from what the database gave
    back. *)
#[local] Ltac created_row :=
  cbn; unfold create;
  destruct (ans_error (db_insert _ _)) as [?|]; [done|];
  destruct (ans_data (db_insert _ _)) as [newUser|]; [|done];
  cbn; intros response [= <-]; by exists newUser.

(** X25. [registerUser] and a row the database already has.  A row
    with the same email stops the registration with the email message,
    also when the username is the same too; a row with another email and
    the same username stops it with the username message; in both cases
    the clock has not been read.  A row that agrees in neither is no
    obstacle.  When the registration returns, the row handed to the
    database held the six fields of the source with the hash in the place
    of the password and two successive readings of the clock, and the
    answer is built from the row the database gave back. *)
Theorem X25_register_duplicates email username name password W :
  let answer := db_users_or email username in
  let r := registerUser email username name password W in
  let row := [("email", JStr email); ("username", JStr username);
              ("name", JStr name); ("password", JStr (bcrypt_hash password));
              ("created_at", JStr (toISOString (clock (date_reads W))));
              ("updated_at", JStr (toISOString (clock (S (date_reads W)))))] in
  (∀ existing rest,
     ans_error answer = None → ans_data answer = Some (existing :: rest) →
     is_str (OMap.get "email" existing) email = true →
     r = (Throw (JsError "User with this email already exists"), W))
  ∧ (∀ existing rest,
       ans_error answer = None → ans_data answer = Some (existing :: rest) →
       is_str (OMap.get "email" existing) email = false →
       is_str (OMap.get "username" existing) username = true →
       r = (Throw (JsError "Username is already taken"), W))
  ∧ (∀ existing rest,
       ans_error answer = None → ans_data answer = Some (existing :: rest) →
       is_str (OMap.get "email" existing) email = false →
       is_str (OMap.get "username" existing) username = false →
       r.1 = match create db_insert "users" row with
             | Return (Some newUser) => Return (auth_response newUser)
             | Return None => Throw JsTypeError
             | Throw e => Throw e
             end)
  ∧ (∀ response,
       r.1 = Return response →
       ∃ newUser, ans_data (db_insert "users" row) = Some newUser
                  ∧ ans_error (db_insert "users" row) = None
                  ∧ response = auth_response newUser
                  ∧ date_reads r.2 = S (S (date_reads W))).
Proof.
  cbn zeta. unfold registerUser, findUserByEmailOrUsername.
  destruct (ans_error (db_users_or email username)) as [msg|].
  { split; [done|]. split; [done|]. split; [done|]. cbn. done. }
  destruct (ans_data (db_users_or email username)) as [[|existing rest]|];
    cbn [first_or_null].
  - split; [done|]. split; [done|]. split; [done|]. created_row.
  - split; [|split; [|split]].
    + intros ? ? _ [= <- <-] ->. done.
    + intros ? ? _ [= <- <-] -> ->. done.
    + intros ? ? _ [= <- <-] -> ->. cbn.
      by destruct (create db_insert "users" _) as [[?|]|].
    + destruct (is_str (OMap.get "email" existing) email); [cbn; done|].
      destruct (is_str (OMap.get "username" existing) username); [cbn; done|].
      created_row.
  - split; [done|]. split; [done|]. split; [done|]. cbn. done.
Qed.
End AuthFacts.

(** *** Instances for the HTTP side *)

Lemma X20_authenticateToken_outcomes_witness :
  truthy_opt (header_token (Some "Bearer")) = false
  ∧ DemoAuth.authenticateToken (Some "Bearer")
    = access_denied "No token provided".
Proof.
  assert (truthy_opt (header_token (Some "Bearer")) = false) as Hnone
    by (vm_compute; reflexivity).
  split; [exact Hnone|].
  exact (proj2 (proj1 (X20_authenticateToken_outcomes DemoAuth.jwt_verify
                         DemoAuth.db_single (Some "Bearer"))) Hnone).
Defined.

Lemma X22_scheme_not_checked_witness :
  occurs Ascii.Space "Bearer" = false
  ∧ occurs Ascii.Space "Basic" = false
  ∧ occurs Ascii.Space "t7" = false
  ∧ DemoAuth.authenticateToken (Some "Bearer t7")
    = DemoAuth.authenticateToken (Some "Basic t7").
Proof.
  split; [reflexivity|]. split; [reflexivity|]. split; [reflexivity|].
  exact (proj2 (proj2 (proj2 (proj2
           (X22_scheme_not_checked DemoAuth.jwt_verify DemoAuth.db_single
              "Bearer" "Basic" "t7" "" eq_refl eq_refl eq_refl))))).
Defined.

Lemma X23_password_never_given_out_witness :
  DemoAuth.authenticateToken (Some "Bearer t7")
  = Next (Some (OMap.delete "password" DemoAuth.alice))
  ∧ OMap.get "password" (OMap.delete "password" DemoAuth.alice) = None.
Proof.
  assert (DemoAuth.authenticateToken (Some "Bearer t7")
          = Next (Some (OMap.delete "password" DemoAuth.alice))) as Hin
    by (vm_compute; reflexivity).
  split; [exact Hin|].
  exact (proj1 (proj2 (X23_password_never_given_out Demo.clock Demo.toISOString
                         DemoAuth.jwt_verify DemoAuth.jwt_sign
                         DemoAuth.bcrypt_hash DemoAuth.bcrypt_compare
                         DemoAuth.db_single DemoAuth.db_select
                         DemoAuth.db_users_or DemoAuth.db_insert))
               (Some "Bearer t7") _ (or_introl Hin)).
Defined.

Lemma X24_login_failures_alike_witness :
  DemoAuth.loginUser (Some "bob@x.io") "wonderland"
  = Throw (JsError "Invalid email or password")
  ∧ DemoAuth.loginUser (Some "alice@x.io") "looking-glass"
    = Throw (JsError "Invalid email or password").
Proof.
  split.
  - exact (proj1 (X24_login_failures_alike DemoAuth.jwt_sign
                    DemoAuth.bcrypt_compare DemoAuth.db_select
                    (Some "bob@x.io") "wonderland") eq_refl eq_refl).
  - exact (proj1 (proj2 (X24_login_failures_alike DemoAuth.jwt_sign
                           DemoAuth.bcrypt_compare DemoAuth.db_select
                           (Some "alice@x.io") "looking-glass"))
                 DemoAuth.alice [] eq_refl eq_refl eq_refl).
Defined.

Lemma X25_register_duplicates_witness :
  DemoAuth.registerUser "alice@x.io" "alice" "Alice" "wonderland"
  = (Throw (JsError "User with this email already exists"), constructor)
  ∧ DemoAuth.registerUser "al@x.io" "alice" "Al" "wonderland"
    = (Throw (JsError "Username is already taken"), constructor).
Proof.
  split.
  - exact (proj1 (X25_register_duplicates Demo.clock Demo.toISOString
                    DemoAuth.jwt_sign DemoAuth.bcrypt_hash DemoAuth.db_users_or
                    DemoAuth.db_insert "alice@x.io" "alice" "Alice" "wonderland"
                    constructor)
                 DemoAuth.alice [] eq_refl eq_refl eq_refl).
  - exact (proj1 (proj2 (X25_register_duplicates Demo.clock Demo.toISOString
                           DemoAuth.jwt_sign DemoAuth.bcrypt_hash
                           DemoAuth.db_users_or DemoAuth.db_insert
                           "al@x.io" "alice" "Al" "wonderland" constructor))
                 DemoAuth.alice [] eq_refl eq_refl eq_refl eq_refl).
Defined.

(** ** Voting: the counters and the votes *)

Section VoteRows.
Implicit Types (l : list Db.Vote) (v ev : Db.Vote) (P : Db.Vote → Prop).






End VoteRows.

Section VoteFacts.
Variable clock : nat → Z.
Variable toISOString : Z → string.
Variable SERVER_ID : option string.
Variable fault_message : Db.Fault → string.
Variable trending : Db.t → Z → option (list Meme.Row).

#[local] Abbreviation voteOnMeme :=
  (voteOnMeme clock toISOString SERVER_ID fault_message trending).

(** The row as [update_vote] rewrites it. *)
#[local] Abbreviation revoted x :=
  (λ v, Db.mkVote (Db.id v) (Db.meme_id v) (Db.username v) x (Db.is_active v)).

#[local] Abbreviation rewrite_votes i x l :=
  ((λ v, if bool_decide (Db.id v = i) then revoted x v else v) <$> l).

Lemma active_vote_Some m u db ev :
  Db.active_vote m u db = Some ev →
  ev ∈ Db.votes db ∧ Db.meme_id ev = m ∧ Db.username ev = u
  ∧ Db.is_active ev = true.
Proof.
  unfold Db.active_vote.
  destruct (filter _ (Db.votes db)) as [|a [|b l]] eqn:Hf; [done| |done].
  intros [= ->].
  assert (ev ∈ filter (λ v, Db.meme_id v = m ∧ Db.username v = u
                            ∧ Db.is_active v = true) (Db.votes db)) as Hin
    by (rewrite Hf; apply list_elem_of_here).
  apply list_elem_of_filter in Hin as [(? & ? & ?) ?]. done.
Qed.

Lemma active_vote_None m u db :
  constraints db → Db.active_vote m u db = None →
  ¬ Exists (λ v, Db.meme_id v = m ∧ Db.username v = u ∧ Db.is_active v = true)
      (Db.votes db).
Proof.
  intros (_ & _ & Huniq). specialize (Huniq m u). unfold Db.active_vote.
  destruct (filter _ (Db.votes db)) as [|a [|b l]] eqn:Hf; [|done|cbn in Huniq; lia].
  intros _ (v & Hv & HQ)%Exists_exists.
  assert (v ∈ filter (λ v, Db.meme_id v = m ∧ Db.username v = u
                           ∧ Db.is_active v = true) (Db.votes db)) as Hin
    by by apply list_elem_of_filter.
  rewrite Hf in Hin. by apply elem_of_nil in Hin.
Qed.





Lemma counts_agree_update m up down db :
  counts_agree (Db.mk (Db.votes db) (delete m (Db.memes db)) (Db.users db)) →
  up = tally 1 m db → down = tally 0 m db →
  ∀ txt, counts_agree (Db.mk (Db.votes db)
                         (<[m := Db.mkMeme up down txt]> (Db.memes db))
                         (Db.users db)).
Proof.
  intros Hother -> -> txt m' r. cbn [Db.memes].
  destruct (decide (m' = m)) as [->|Hne].
  - rewrite lookup_insert_eq. intros [= <-]. done.
  - rewrite lookup_insert_ne by done. intros Hr.
    apply (Hother m' r). cbn [Db.memes]. by rewrite lookup_delete_ne.
Qed.
(** What is sent once the database has been written: the vote update,
    the leaderboard update, and the trending check. *)
#[local] Abbreviation announce m u x row db W :=
  (checkAndBroadcastTrendingMeme clock toISOString SERVER_ID (trending db) m
     (updateLeaderboard clock toISOString SERVER_ID
        (broadcastVoteUpdate clock toISOString SERVER_ID m
           (if bool_decide (x = 1) then "up" else "down") u
           (if bool_decide (x = 1) then Db.upvote_count row
            else Db.downvote_count row)
           (Db.text row) (Db.upvote_count row) (Db.downvote_count row) W).2).2).

#[local] Abbreviation tick W :=
  (new_Date_toISOString clock toISOString W).2.

Lemma voteOnMeme_first m u x db W db1 r :
  Db.active_vote m u db = None →
  Db.insert_vote m u x db = inr db1 →
  Db.memes db1 !! m = Some r →
  let row := if bool_decide (x = 1)
             then Db.mkMeme (or_zero (Db.upvote_count r) + 1)
                            (Db.downvote_count r) (Db.text r)
             else Db.mkMeme (Db.upvote_count r)
                            (or_zero (Db.downvote_count r) + 1) (Db.text r) in
  let db2 := Db.mk (Db.votes db1) (<[m := row]> (Db.memes db1)) (Db.users db1) in
  voteOnMeme m u x (db, W) = (Return (), (db2, announce m u x row db2 (tick W))).
Proof.
  intros Hnone Hins Hr. cbn zeta.
  unfold voteOnMeme, mbind, step_bind, ask, now, written, tell, await_trending.
  cbn [fst snd]. rewrite Hnone. cbn [fst snd]. rewrite Hins. cbn [fst snd].
  assert (Db.meme m db1 = Some r) as Hr' by done.
  rewrite Hr'. unfold new_Date_toISOString, Date_now. cbn [fst snd].
  unfold Db.update_meme. rewrite Hr. cbn [fst snd Db.memes].
  unfold Db.meme. cbn [Db.memes]. rewrite lookup_insert_eq.
  by destruct (bool_decide (x = 1)).
Qed.
Lemma voteOnMeme_first_refused m u x db W fault :
  Db.active_vote m u db = None →
  Db.insert_vote m u x db = inl fault →
  voteOnMeme m u x (db, W)
  = (Throw (JsError ("Failed to create votes: " +:+ fault_message fault)),
     (db, W)).
Proof.
  intros Hnone Hins.
  unfold voteOnMeme, mbind, step_bind, ask, now, written, tell, await_trending.
  cbn [fst snd]. rewrite Hnone. cbn [fst snd]. rewrite Hins. done.
Qed.

Lemma voteOnMeme_again m u x db W ev db1 r :
  Db.active_vote m u db = Some ev →
  Db.update_vote (Db.id ev) x db = inr db1 →
  Db.memes db1 !! m = Some r →
  let change := if bool_decide (Db.voted ev ≠ x)
                then if bool_decide (x = 1) then (1, -1) else (-1, 1)
                else (0, 0) in
  let row := Db.mkMeme (Z.max 0 (Db.upvote_count r + change.1))
                       (Z.max 0 (Db.downvote_count r + change.2))
                       (Db.text r) in
  let db2 := Db.mk (Db.votes db1) (<[m := row]> (Db.memes db1)) (Db.users db1) in
  voteOnMeme m u x (db, W)
  = (Return (), (db2, announce m u x row db2 (tick (tick W)))).
Proof.
  intros Hsome Hupd Hr. cbn zeta.
  unfold voteOnMeme, mbind, step_bind, ask, now, written, tell, await_trending.
  cbn [fst snd]. rewrite Hsome. unfold new_Date_toISOString, Date_now.
  cbn [fst snd]. rewrite Hupd. cbn [fst snd].
  assert (Db.meme m db1 = Some r) as Hr' by done.
  rewrite Hr'.
  destruct (bool_decide (Db.voted ev ≠ x)); [destruct (bool_decide (x = 1))|];
    cbn [fst snd]; unfold Db.update_meme; rewrite Hr; cbn [fst snd Db.memes];
    unfold Db.meme; cbn [Db.memes]; rewrite lookup_insert_eq; done.
Qed.

Lemma voteOnMeme_again_refused m u x db W ev fault :
  Db.active_vote m u db = Some ev →
  Db.update_vote (Db.id ev) x db = inl fault →
  voteOnMeme m u x (db, W)
  = (Throw (JsError ("Failed to update votes: " +:+ fault_message fault)),
     (db, tick W)).
Proof.
  intros Hsome Hupd.
  unfold voteOnMeme, mbind, step_bind, ask, now, written, tell, await_trending.
  cbn [fst snd]. rewrite Hsome. unfold new_Date_toISOString, Date_now.
  cbn [fst snd]. rewrite Hupd. done.
Qed.



Lemma insert_vote_inr m u x db db1 :
  Db.insert_vote m u x db = inr db1 →
  (x = 0 ∨ x = 1) ∧ is_Some (Db.memes db !! m) ∧ u ∈ Db.users db
  ∧ ¬ Exists (λ v, Db.meme_id v = m ∧ Db.username v = u
                   ∧ Db.is_active v = true) (Db.votes db)
  ∧ db1 = Db.mk (Db.votes db ++ [Db.mkVote (Db.fresh_id db) m u x true])
                (Db.memes db) (Db.users db).
Proof.
  unfold Db.insert_vote. repeat case_bool_decide; cbn [negb]; try done.
  by intros [= <-].
Qed.

Lemma update_vote_inr i x db db1 :
  Db.update_vote i x db = inr db1 →
  (x = 0 ∨ x = 1)
  ∧ db1 = Db.mk (rewrite_votes i x (Db.votes db)) (Db.memes db) (Db.users db).
Proof.
  unfold Db.update_vote. repeat case_bool_decide; cbn [negb]; try done.
  by intros [= <-].
Qed.



Lemma voteOnMeme_cases m u x db W :
  constraints db →
  ((¬ (x = 0 ∨ x = 1) ∨ Db.memes db !! m = None ∨ u ∉ Db.users db)
   ∧ ∃ op fault W1,
       voteOnMeme m u x (db, W)
       = (Throw (JsError ("Failed to " +:+ op +:+ " votes: "
                          +:+ fault_message fault)), (db, W1))
       ∧ (W1 = W ∨ W1 = tick W))
  ∨ ((x = 0 ∨ x = 1) ∧ u ∈ Db.users db
     ∧ ¬ Exists (λ v, Db.meme_id v = m ∧ Db.username v = u
                      ∧ Db.is_active v = true) (Db.votes db)
     ∧ Db.active_vote m u db = None
     ∧ ∃ r, Db.memes db !! m = Some r
         ∧ let row := if bool_decide (x = 1)
                      then Db.mkMeme (or_zero (Db.upvote_count r) + 1)
                                     (Db.downvote_count r) (Db.text r)
                      else Db.mkMeme (Db.upvote_count r)
                                     (or_zero (Db.downvote_count r) + 1)
                                     (Db.text r) in
           let db2 := Db.mk (Db.votes db
                             ++ [Db.mkVote (Db.fresh_id db) m u x true])
                            (<[m := row]> (Db.memes db)) (Db.users db) in
           voteOnMeme m u x (db, W)
           = (Return (), (db2, announce m u x row db2 (tick W))))
  ∨ ((x = 0 ∨ x = 1) ∧ u ∈ Db.users db
     ∧ ∃ ev r, Db.active_vote m u db = Some ev ∧ Db.memes db !! m = Some r
         ∧ let change := if bool_decide (Db.voted ev ≠ x)
                         then if bool_decide (x = 1) then (1, -1) else (-1, 1)
                         else (0, 0) in
           let row := Db.mkMeme (Z.max 0 (Db.upvote_count r + change.1))
                                (Z.max 0 (Db.downvote_count r + change.2))
                                (Db.text r) in
           let db2 := Db.mk (rewrite_votes (Db.id ev) x (Db.votes db))
                            (<[m := row]> (Db.memes db)) (Db.users db) in
           voteOnMeme m u x (db, W)
           = (Return (), (db2, announce m u x row db2 (tick (tick W))))).
Proof.
  intros Hc. destruct (Db.active_vote m u db) as [ev|] eqn:Hactive.
  - destruct (active_vote_Some _ _ _ _ Hactive) as (Hin & Hm & Hu & Hact).
    destruct Hc as (Hnd & Hrows & Huniq).
    destruct (Hrows ev Hin) as (Hv & [r Hr] & Huser). rewrite Hm in Hr.
    rewrite Hu in Huser.
    destruct (Db.update_vote (Db.id ev) x db) as [fault|db1] eqn:Hupd.
    + left. split.
      * left. intros Hx. revert Hupd. unfold Db.update_vote.
        rewrite bool_decide_eq_true_2 by by apply list_elem_of_fmap_2.
        by rewrite (bool_decide_eq_true_2 _ Hx).
      * exists "update", fault, (tick W). split; [|by right].
        by apply voteOnMeme_again_refused with ev.
    + right. right. destruct (update_vote_inr _ _ _ _ Hupd) as [Hx ->].
      split; [done|]. split; [done|]. exists ev, r.
      split; [done|]. split; [done|]. cbn zeta.
      by rewrite (voteOnMeme_again m u x db W ev _ r Hactive Hupd).
  - destruct (Db.insert_vote m u x db) as [fault|db1] eqn:Hins.
    + left. split.
      * revert Hins. unfold Db.insert_vote.
        case_bool_decide as Hx; cbn [negb]; [|by left].
        case_bool_decide as Hmeme; cbn [negb];
          [|right; left; by apply eq_None_not_Some].
        case_bool_decide as Huser; cbn [negb]; [|by right; right].
        case_bool_decide as Hex; [|done].
        by apply active_vote_None in Hex.
      * exists "create", fault, W. split; [|by left].
        by apply voteOnMeme_first_refused.
    + right. left.
      destruct (insert_vote_inr _ _ _ _ _ Hins) as (Hx & [r Hr] & Hu & Hnone & ->).
      do 4 (split; [done|]). exists r. split; [done|]. cbn zeta.
      by rewrite (voteOnMeme_first m u x db W _ r Hactive Hins).
Qed.










(** X29. A vote that is refused.  When [voted] is neither 0 nor 1, or the
    database has no such meme, or no such user, [voteOnMeme] throws the
    wrapped refusal of the database for the table [votes]; the database
    is as before and nothing has been sent. *)
Theorem X29_vote_refused m u x db W :
  constraints db →
  ¬ (x = 0 ∨ x = 1) ∨ Db.memes db !! m = None ∨ u ∉ Db.users db →
  let r := voteOnMeme m u x (db, W) in
  (∃ op fault,
     r.1 = Throw (JsError ("Failed to " +:+ op +:+ " votes: "
                           +:+ fault_message fault)))
  ∧ r.2.1 = db
  ∧ outbox r.2.2 = outbox W ∧ hooks r.2.2 = hooks W ∧ mgr r.2.2 = mgr W.
Proof.
  intros Hc Hbad. cbn zeta.
  destruct (voteOnMeme_cases m u x db W Hc)
    as [(_ & op & fault & W1 & -> & HW1)
       |[(Hx & Hu & _ & _ & r & Hr & _)
        |(Hx & Hu & ev & r & _ & Hr & _)]]; cbn [fst snd].
  - split; [by exists op, fault|]. split; [done|].
    by destruct HW1 as [-> | ->].
  - exfalso. destruct Hbad as [?|[Hno|?]]; [done| |done]. by rewrite Hr in Hno.
  - exfalso. destruct Hbad as [?|[Hno|?]]; [done| |done]. by rewrite Hr in Hno.
Qed.

End VoteFacts.

(** *** Instances for the votes *)

Lemma demo_db_constraints : constraints DemoVote.db.
Proof.
  split; [apply NoDup_nil_2|]. split; [by intros v ?%elem_of_nil|].
  intros m u. cbn. lia.
Qed.







Lemma X29_vote_refused_witness :
  Db.memes DemoVote.db !! 2 = None
  ∧ (DemoVote.voteOnMeme 2 "alice" 1 (DemoVote.db, constructor)).2.1
    = DemoVote.db.
Proof.
  assert (Db.memes DemoVote.db !! 2 = None) as Hno
    by (unfold DemoVote.db; cbn [Db.memes]; by apply lookup_singleton_ne).
  split; [exact Hno|].
  exact (proj1 (proj2 (X29_vote_refused Demo.clock Demo.toISOString
                         Demo.SERVER_ID DemoVote.fault_message DemoVote.trending
                         2 "alice" 1 DemoVote.db constructor
                         demo_db_constraints (or_intror (or_introl Hno))))).
Defined.

